(* ===== verification/_CoqProject ===== *)
-Q . S2P
Prelude.v
JsString.v
JsNumber.v
Json.v
JsonFuel.v
Extractor.v
Search.v
Favorites.v
FavoritesSpec.v
ViewCounter.v
ViewsSpec.v
Theme.v
Storage.v
FavView.v
Recipe.v
CopyTasks.v
Navigation.v
Page.v
