(* ===== verification/Prelude.v ===== *)
(** * A verification development of the plant-catalogue page script

    The repository is one browser script, [src/script.js]: a single
    [DOMContentLoaded] handler that reads the catalogue sections of the page,
    builds an in-memory list of plants, and attaches event listeners that
    filter, mark favourites, switch the theme, count views, copy recipes,
    build a navigation list and drive a back-to-top button.  Persistent state
    lives in [localStorage] as JSON text under three keys
    ([plantFavorites], [plantViews], [theme]).

    ** The parts of the script and the files that model them

    - [Prelude] (this file): JavaScript strings as lists of UTF-16 code
      units ([jsstr = list N], literals written [⟪"..."⟫]); the result type
      [res] of code that may throw ([TypeError], [SyntaxError], plus
      [OutOfModel] for inputs the model does not follow and [OutOfFuel] for
      exhausted fuel); [localStorage] as [store = gmap jsstr jsstr], with
      [setItem] as the HTML standard has it: the user agent may refuse a
      write ([QuotaExceeded]); which stores it accepts is the class
      [StoragePolicy], a parameter every writing handler takes
      implicitly;
      [forEach] with a callback that may throw ([for_each_res]); the shared
      list and option lemmas, the [js] and [js_rw] hint databases.
    - [JsString]: the string built-ins the script calls ([toLowerCase],
      [toUpperCase], [trim], [includes], [join], [String(n)]), with
      [includes] proved equal to the substring relation and [trim]
      characterised as removing a white-space prefix and suffix.
    - [JsNumber]: JavaScript numbers on integers: [round_double], the
      Number value of an integer (a double: exact up to 2^53, rounded to
      nearest, ties to even, past it; [round_double_nearest] proves it is
      the nearest one), and [js_add], the [+] of line 120.
    - [Json]: [JSON.stringify] and [JSON.parse] (ECMA-262, ECMA-404) on
      null, booleans, integral numbers (rounded to a double as
      [JSON.parse] does), strings, arrays and objects;
      [parse_stored] is [JSON.parse(localStorage.getItem(k))] (lines 33,
      113).  [JsonFuel] proves that the parser's fuel always suffices.
    - [Extractor] (lines 11, 17-29): the [.plant-section] elements and the
      map that builds the [plants] array.
    - [Search] (lines 86-94): [performSearch], a [forEach] over the
      sections whose callback may throw.
    - [Favorites] (lines 33-62): the [favorites] array, [updateFavCount],
      [toggleFavorite] and its click listener, the initial hearts;
      [FavoritesSpec] abstracts the array to a [gset] of ids (spec 4.2).
    - [ViewCounter] (lines 113-133): [viewCounts] as an ordered property
      list, [saveViews], the [IntersectionObserver] callback, and the
      browser's observer as a step relation [host_step] (W3C Intersection
      Observer) with its executable form [host_exec]; [ViewsSpec]
      abstracts the object to a [gmap] from ids to counts (spec 4.6).
    - [Theme] (lines 66-82): [applyTheme], the theme button and the load.
    - [FavView] (lines 98-109): the favourites-only view and its button.
    - [Recipe] (lines 137-165): the recipe text of the template literal,
      and the copy button as an event machine: a click queues a
      clipboard write, the host settles writes ([Resolve], [Reject]) and
      fires timers ([Fire]) in any order.  [CopyTasks] gives its
      well-formedness invariant and proves that pending tasks always drain.
    - [Navigation] (lines 169-194): the nav links, [document.querySelector]
      on ["#id"] selectors, and the back-to-top button.
    - [Storage]: the contract of a stored item (its own key only, a
      saved value loads back) as the record [persisted], with the
      favourites, view-count and theme items as its values; [Page]
      proves the independence of the items against it.
    - [Page] (lines 1-203): the handler as the components' set-up code in
      file order, stopped by the first exception ([pg_stage] counts the
      phases that completed, hence the listeners attached), and
      [page_step], which dispatches each later event to its listener.

    The components interact through the page state of [Page]: they share
    the [store] (each reads and writes its own key), the section elements
    (the search, the favourites view and the final block write
    [style.display]; the view counter writes the labels) and the [plants]
    array.  Each component's operations take the part of the state they
    touch and return the new part; [Page.page_step] composes them.

    ** The theorems

    - Bounds: a view count is a JavaScript number that stops at 2^53,
      and the observer's counts never leave the exact range
      ([ViewCounter]); [JsNumber.round_double_nearest] characterises the
      rounding.
    - Functional behaviour of every handler on every branch: the search
      verdict ([Search]), heart clicks and the count ([Favorites]), theme
      clicks and reloads ([Theme]), the favourites view ([FavView]), the
      copied text and the copy continuations ([Recipe]), link clicks and
      scrolling ([Navigation]).
    - Error paths: which stored items or page shapes make the handler
      throw, and what is left attached ([Page], [Favorites], [Navigation],
      [Extractor]); what a refused [setItem] leaves behind in each handler
      that writes: a stale theme label ([Theme]), a stale count and a lost
      click ([Favorites]), and a section counted again at every visit
      ([ViewCounter.vc_no_storage_recounts]).
    - Invariants: the hearts match the array; when the agent accepts every
      write, the stored items read back as the in-memory state in every
      reachable page ([Page.page_consistent]);
      the view counter changes a section's count in one delivery at
      most and keeps its store in step ([ViewCounter], by induction on [rtc
      host_step]); pending copy tasks name existing buttons ([CopyTasks]).
    - Refinement: heart clicks implement the spec's set toggle
      ([FavoritesSpec]); the observer callback implements the spec's count
      map ([ViewsSpec]).
    - Round trips: [JSON.parse] of [JSON.stringify]; stored favourites,
      counts and theme read back after a click.
    - Termination and liveness: [JSON.parse] never runs out of fuel
      ([JsonFuel]); pending copy tasks always drain ([CopyTasks]).
    - The defects the modelling showed are theorems too: the double copy
      that leaves "¡Copiado!" on the button, the batch that counts a
      section twice, the malformed stored item that stops the handler.

    ** Bounds, fuel and what is not modelled

    - [JSON.parse] is a recursive descent with fuel; it is given one more
      than twice the length of the text, which [JsonFuel.JSON_parse_total]
      proves is never exhausted (each nesting level spends two units and
      consumes at least one code unit).  [Json.json_size] bounds the fuel
      of the round-trip proof by the length of the printed text.
    - Numbers are integers ([Z]) with the arithmetic of doubles
      ([JsNumber]): [JSON.parse] rounds a literal past 2^53 to its Number
      value, and the view count's [n + 1] rounds too, so a count stops at
      2^53 ([ViewCounter.count_stops_at_max]).  The states keep numbers of
      magnitude at most 2^53 ([exact_int]), where [num_str] prints what
      [Number::toString] prints; a stored number whose value is past 2^53,
      or with a fraction or exponent, is [OutOfModel] (its printing, and
      the overflow to [Infinity], are not modelled).  The round trips of
      the stored items hold for values whose numbers are within that
      range, which every value [JSON.parse] returns is.
    - Case mapping follows Unicode on U+0000..U+00FF and is the identity
      above; white space is ECMAScript's.
    - The browser's event loop is modelled by sequences of events
      ([Page.page_run], [Recipe.copy_run], [ViewCounter.host_run]); any
      order is allowed where the browser's order is not fixed.
    - Storage is modelled for the values the script stores.  A stored
      item that parses to a truthy value of another shape (a non-array
      [plantFavorites], a non-object [plantViews] or one with a non-number
      member) is [OutOfModel]: JavaScript would go on with that value
      ([includes] on a string is a substring test, [filter] on it throws),
      which the model's state, an array and an object of counts, does not
      represent.  A [getItem] that throws because storage is disabled is
      not modelled: [store] has no state for it.
    - Not modelled: rendering, CSS and animation (the model keeps the
      values the script writes and the scroll targets it asks for), the
      alert dialog (kept as a list of messages), and selectors other than
      ["#name"] (outside the model). *)

From stdpp Require Export base list gmap strings.
From Stdlib Require Export ZArith NArith DecimalString.

(** ** JavaScript strings

    A JavaScript string is a sequence of UTF-16 code units; we keep it as a
    [list N].  Literals are written as Rocq strings (UTF-8 bytes) and
    decoded into code units by [js]; the decoder handles the one-, two- and
    three-byte forms, which cover the Basic Multilingual Plane and therefore
    every literal of the script ("¡Copiado!", "•"). *)

Abbreviation jsstr := (list N).

Fixpoint utf8_decode (l : list N) : jsstr :=
  match l with
  | [] => []
  | a :: r =>
      if (a <? 128)%N then a :: utf8_decode r
      else match r with
           | [] => [a]
           | b :: r' =>
               if ((192 <=? a) && (a <? 224))%N
               then ((a - 192) * 64 + (b - 128))%N :: utf8_decode r'
               else match r' with
                    | c :: r'' =>
                        if ((224 <=? a) && (a <? 240))%N
                        then ((a - 224) * 4096 + (b - 128) * 64 + (c - 128))%N
                             :: utf8_decode r''
                        else a :: utf8_decode r
                    | [] => a :: utf8_decode r
                    end
           end
  end.

Definition js (s : string) : jsstr :=
  utf8_decode (map Ascii.N_of_ascii (String.list_ascii_of_string s)).

Declare Scope js_scope.
Delimit Scope js_scope with js.
Notation "⟪ s ⟫" := (js s%string) (format "⟪ s ⟫") : js_scope.
Open Scope js_scope.

(** ** Results of code that may throw

    The handlers of the script can raise a JavaScript exception (a
    [TypeError] on [null.textContent], a [SyntaxError] from [JSON.parse]).
    [QuotaExceeded] is the [DOMException] [localStorage.setItem] throws
    when the user agent refuses a write.  [OutOfModel] marks inputs whose
    JavaScript behaviour the development does not follow (documented where
    it is produced); [OutOfFuel] is the outcome of a fuel-bounded
    definition that ran out of fuel, which the development proves never
    happens with the fuel it gives. *)

Inductive exn := TypeError | SyntaxError | QuotaExceeded | OutOfModel | OutOfFuel.

Inductive res (A : Type) := Ok (a : A) | Throw (e : exn).
Arguments Ok {A} a.
Arguments Throw {A} e.

Definition res_bind {A B} (m : res A) (k : A -> res B) : res B :=
  match m with Ok a => k a | Throw e => Throw e end.

Notation "'let!' x ':=' m 'in' k" := (res_bind m (fun x => k))
  (at level 10, x pattern, m at level 100, k at level 200) : js_scope.

(** [localStorage]: keys to string values; [getItem] is [!!]. *)
Abbreviation store := (gmap jsstr jsstr).

(** ** [localStorage.setItem]

    The HTML standard lets the user agent refuse a write that it cannot
    hold (a storage quota, or no storage at all in some private-browsing
    modes); [setItem] then throws a [QuotaExceededError] and the store is
    unchanged.  Which stores the agent accepts is a parameter of the
    development, declared as a class so that every handler that writes
    takes it implicitly.  A write of the value the key already holds
    returns at once and never throws. *)
Definition StoragePolicy := store -> bool.
Existing Class StoragePolicy.

Definition setItem `{SP : StoragePolicy} (k v : jsstr) (st : store) : res store :=
  if bool_decide (st !! k = Some v) then Ok st
  else if SP (<[k := v]> st) then Ok (<[k := v]> st) else Throw QuotaExceeded.

(** An agent with room for anything. *)
Definition unlimited : StoragePolicy := fun _ => true.

(** An agent that refuses every write, as Safari's private browsing did. *)
Definition no_storage : StoragePolicy := fun _ => false.

#[export] Instance exn_eq_dec : EqDecision exn.
Proof. solve_decision. Defined.

(** [Array.from(xs).map(f)] with a callback that may throw: the first
    exception aborts the whole map. *)
Fixpoint map_res {A B} (f : A -> res B) (l : list A) : res (list B) :=
  match l with
  | [] => Ok []
  | x :: r => let! y := f x in let! ys := map_res f r in Ok (y :: ys)
  end.

(** [xs.forEach(f)] where [f] updates each element in place and may throw:
    the elements before the throwing one are updated, the rest are not, and
    the exception is returned beside the list. *)
Fixpoint for_each_res {A} (f : A -> res A) (l : list A) : list A * option exn :=
  match l with
  | [] => ([], None)
  | x :: r =>
      match f x with
      | Ok y => let '(r', e) := for_each_res f r in (y :: r', e)
      | Throw e => (x :: r, Some e)
      end
  end.

(** [Array.prototype.includes] on an array of strings (SameValueZero is
    string equality there). *)
Definition arr_includes (l : list jsstr) (x : jsstr) : bool :=
  existsb (fun y => bool_decide (y = x)) l.

(** ** Shared lemmas *)

Create HintDb js discriminated.
Create Rewrite HintDb js_rw.

Lemma arr_includes_spec l x : arr_includes l x = true <-> x ∈ l.
Proof.
  unfold arr_includes. rewrite existsb_exists, list_elem_of_In.
  split; [intros (y & Hy & ?%bool_decide_eq_true); by subst|].
  intros Hx. exists x. split; [done|]. by apply bool_decide_eq_true.
Qed.

Lemma arr_includes_false l x : arr_includes l x = false <-> x ∉ l.
Proof.
  rewrite <- arr_includes_spec. destruct (arr_includes l x); naive_solver.
Qed.

Lemma map_res_ok {A B} (f : A -> B) (l : list A) :
  map_res (fun x => Ok (f x)) l = Ok (map f l).
Proof. induction l as [|x l IH]; simpl; [done|]. by rewrite IH. Qed.

Lemma map_res_length {A B} (f : A -> res B) l ys :
  map_res f l = Ok ys -> length ys = length l.
Proof.
  revert ys. induction l as [|x l IH]; intros ys; simpl; [by intros [= <-]|].
  destruct (f x); simpl; [|done].
  destruct (map_res f l) eqn:E; simpl; [|done].
  intros [= <-]. simpl. by rewrite (IH _ eq_refl).
Qed.

Lemma for_each_res_ok {A} (f : A -> A) (l : list A) :
  for_each_res (fun x => Ok (f x)) l = (map f l, None).
Proof. induction l as [|x l IH]; simpl; [done|]. by rewrite IH. Qed.

Lemma for_each_res_length {A} (f : A -> res A) l :
  length (for_each_res f l).1 = length l.
Proof.
  induction l as [|x l IH]; simpl; [done|].
  destruct (f x); simpl; [|done].
  destruct (for_each_res f l) eqn:E. simpl in *. by rewrite IH.
Qed.

(** A [forEach] whose callback succeeds on every element of the list
    updates each element independently. *)
Lemma for_each_res_ext {A} (f : A -> res A) (g : A -> A) (l : list A) :
  (forall x, x ∈ l -> f x = Ok (g x)) -> for_each_res f l = (map g l, None).
Proof.
  induction l as [|x l IH]; intros Hf; simpl; [done|].
  rewrite Hf by constructor. rewrite IH; [done|].
  intros y Hy. apply Hf. by constructor.
Qed.

Lemma for_each_res_throw {A} (f : A -> res A) (l : list A) l' e :
  for_each_res f l = (l', Some e) -> exists x, x ∈ l /\ f x = Throw e.
Proof.
  revert l'. induction l as [|x l IH]; intros l'; simpl; [done|].
  destruct (f x) eqn:Ef.
  - destruct (for_each_res f l) as [r' e'] eqn:E. intros [= _ ->].
    destruct (IH r' eq_refl) as (y & ? & ?). exists y. split; [by constructor|done].
  - intros [= _ ->]. exists x. split; [constructor|done].
Qed.

(** A [forEach] that raised nothing applied its callback to every element. *)
Lemma for_each_res_none {A} (f : A -> res A) (l l' : list A) :
  for_each_res f l = (l', None) -> Forall2 (fun x y => f x = Ok y) l l'.
Proof.
  revert l'. induction l as [|x l IH]; intros l'; simpl; [intros [= <-]; constructor|].
  destruct (f x) as [y|e] eqn:Ef; [|done].
  destruct (for_each_res f l) as [r' [e|]] eqn:E; intros [= <-]. constructor; [done|].
  by apply IH.
Qed.

Lemma head_app_ne {A} (a b : list A) : a <> [] -> head (a ++ b) = head a.
Proof. by destruct a. Qed.

Lemma last_app_ne {A} (a b : list A) : b <> [] -> last (a ++ b) = last b.
Proof.
  intros Hb. destruct b as [|x b _] using rev_ind; [done|].
  by rewrite app_assoc, !last_snoc.
Qed.

Lemma last_rev_head {A} (l : list A) : last (rev l) = head l.
Proof. destruct l; simpl; [done|]. apply last_snoc. Qed.

Lemma setItem_ok `{SP : StoragePolicy} k v st :
  SP (<[k := v]> st) = true -> setItem k v st = Ok (<[k := v]> st).
Proof.
  unfold setItem. intros Hq. case_bool_decide as E; [by rewrite insert_id|by rewrite Hq].
Qed.

Lemma setItem_Ok `{SP : StoragePolicy} k v st st' :
  setItem k v st = Ok st' -> st' = <[k := v]> st.
Proof.
  unfold setItem. case_bool_decide as E; [intros [= <-]; by rewrite insert_id|].
  by destruct (SP _); intros [= <-].
Qed.

Lemma setItem_Throw `{SP : StoragePolicy} k v st e :
  setItem k v st = Throw e ->
  e = QuotaExceeded /\ st !! k <> Some v /\ SP (<[k := v]> st) = false.
Proof. unfold setItem. case_bool_decide; [done|]. by destruct (SP _); intros [= <-]. Qed.

Lemma setItem_refused `{SP : StoragePolicy} k v st :
  st !! k <> Some v -> SP (<[k := v]> st) = false -> setItem k v st = Throw QuotaExceeded.
Proof. unfold setItem. intros Hk Hq. rewrite bool_decide_eq_false_2 by done. by rewrite Hq. Qed.

(** An agent that accepts every store never refuses a write. *)
Lemma setItem_accepted `{SP : StoragePolicy} k v st :
  (forall st, SP st = true) -> setItem k v st = Ok (<[k := v]> st).
Proof. intros HSP. apply setItem_ok, HSP. Qed.

#[export] Hint Rewrite @map_res_ok @for_each_res_ok : js_rw.
#[export] Hint Resolve <- arr_includes_spec : js.
#[export] Hint Resolve <- arr_includes_false : js.

(** [case_bool_decide] on every [bool_decide] of the goal, then close. *)
Ltac js_decide :=
  repeat (case_bool_decide; simplify_eq/=); try done.
