(* ===== verification/JsString.v ===== *)
(** * JavaScript string primitives used by the script

    [String.prototype.toLowerCase], [toUpperCase], [trim], [includes],
    [Array.prototype.join] on strings and the conversion of an integer to a
    string (template literals), on code-unit lists.  The case mappings are
    Unicode's on U+0000..U+00FF (Basic Latin and Latin-1, which hold every
    Spanish letter), including the three Latin-1 letters whose upper case
    leaves the range (U+00B5, U+00DF "ß" -> "SS", U+00FF); above U+00FF the
    model maps a code unit to itself. *)

From S2P Require Import Prelude.

(** Closing boolean tests on [N] comparisons by [lia]. *)
Ltac N_bool_lia :=
  repeat match goal with
         | H : context [(?a <=? ?b)%N] |- _ => destruct (N.leb_spec a b)
         | H : context [(?a <? ?b)%N] |- _ => destruct (N.ltb_spec a b)
         | H : context [(?a =? ?b)%N] |- _ => destruct (N.eqb_spec a b)
         | |- context [(?a <=? ?b)%N] => destruct (N.leb_spec a b)
         | |- context [(?a <? ?b)%N] => destruct (N.ltb_spec a b)
         | |- context [(?a =? ?b)%N] => destruct (N.eqb_spec a b)
         end; simpl in *; try done; try lia.

Module JsString.

Local Open Scope N_scope.

(** ** Case mapping *)

Definition lower_unit (c : N) : N :=
  if ((65 <=? c) && (c <=? 90)) || ((192 <=? c) && (c <=? 222) && negb (c =? 215))
  then c + 32 else c.

Definition toLowerCase (s : jsstr) : jsstr := map lower_unit s.

Definition upper_unit (c : N) : list N :=
  if (97 <=? c) && (c <=? 122) then [c - 32]
  else if (c =? 181) then [924]
  else if (c =? 223) then [83; 83]
  else if (224 <=? c) && (c <=? 254) && negb (c =? 247) then [c - 32]
  else if (c =? 255) then [376]
  else [c].

Definition toUpperCase (s : jsstr) : jsstr := flat_map upper_unit s.

(** ** Trimming: ECMAScript WhiteSpace and LineTerminator code units *)

Definition is_ws (c : N) : bool :=
  (c =? 9) || (c =? 10) || (c =? 11) || (c =? 12) || (c =? 13) || (c =? 32)
  || (c =? 160) || (c =? 5760) || ((8192 <=? c) && (c <=? 8202))
  || (c =? 8232) || (c =? 8233) || (c =? 8239) || (c =? 8287)
  || (c =? 12288) || (c =? 65279).

Fixpoint trim_start (s : jsstr) : jsstr :=
  match s with
  | [] => []
  | c :: r => if is_ws c then trim_start r else s
  end.

Definition trim_end (s : jsstr) : jsstr := rev (trim_start (rev s)).

Definition trim (s : jsstr) : jsstr := trim_end (trim_start s).

(** ** Searching *)

Fixpoint starts_with (n h : jsstr) : bool :=
  match n, h with
  | [], _ => true
  | c :: n', d :: h' => bool_decide (c = d) && starts_with n' h'
  | _ :: _, [] => false
  end.

(** [h.includes(n)]: some position of [h] starts with [n]. *)
Fixpoint includes (h n : jsstr) : bool :=
  starts_with n h || match h with [] => false | _ :: h' => includes h' n end.

(** [xs.join(sep)] on an array of strings. *)
Fixpoint join (sep : jsstr) (l : list jsstr) : jsstr :=
  match l with
  | [] => []
  | [x] => x
  | x :: r => x ++ sep ++ join sep r
  end.

(** [String(z)] for an integral number [z]: its decimal digits, shortest
    form, with a "-" sign (Number::toString below 10^21). *)
Fixpoint uint_units (d : Decimal.uint) : jsstr :=
  match d with
  | Decimal.Nil => []
  | Decimal.D0 d => 48 :: uint_units d
  | Decimal.D1 d => 49 :: uint_units d
  | Decimal.D2 d => 50 :: uint_units d
  | Decimal.D3 d => 51 :: uint_units d
  | Decimal.D4 d => 52 :: uint_units d
  | Decimal.D5 d => 53 :: uint_units d
  | Decimal.D6 d => 54 :: uint_units d
  | Decimal.D7 d => 55 :: uint_units d
  | Decimal.D8 d => 56 :: uint_units d
  | Decimal.D9 d => 57 :: uint_units d
  end.

Definition nat_str (n : N) : jsstr := uint_units (N.to_uint n).

Definition num_str (z : Z) : jsstr :=
  if (z <? 0)%Z then 45 :: nat_str (Z.to_N (- z)) else nat_str (Z.to_N z).

(** ** Lemmas *)

Lemma lower_unit_idem c : lower_unit (lower_unit c) = lower_unit c.
Proof. unfold lower_unit. N_bool_lia. Qed.

Lemma toLowerCase_idem s : toLowerCase (toLowerCase s) = toLowerCase s.
Proof.
  unfold toLowerCase. rewrite map_map.
  apply map_ext. apply lower_unit_idem.
Qed.

Lemma toLowerCase_app s t : toLowerCase (s ++ t) = toLowerCase s ++ toLowerCase t.
Proof. apply map_app. Qed.

Lemma length_toLowerCase s : length (toLowerCase s) = length s.
Proof. apply length_map. Qed.

Lemma is_ws_range c : is_ws c = true -> (c < 65 \/ c = 160 \/ 5760 <= c)%N.
Proof.
  unfold is_ws. rewrite !orb_true_iff, !andb_true_iff, !N.eqb_eq, !N.leb_le.
  intros; lia.
Qed.

Lemma lower_unit_cases c :
  lower_unit c = c \/ ((65 <= c <= 90 \/ 192 <= c <= 222) /\ lower_unit c = c + 32)%N.
Proof. unfold lower_unit. N_bool_lia. Qed.

(** Case mapping leaves white space alone. *)
Lemma lower_unit_ws c : is_ws c = true -> lower_unit c = c.
Proof.
  intros Hw%is_ws_range. destruct (lower_unit_cases c) as [|[? _]]; [done|lia].
Qed.

Lemma is_ws_lower_unit c : is_ws (lower_unit c) = is_ws c.
Proof.
  destruct (lower_unit_cases c) as [->|[Hc ->]]; [done|].
  destruct (is_ws (c + 32)) eqn:E1; [apply is_ws_range in E1; lia|].
  destruct (is_ws c) eqn:E2; [apply is_ws_range in E2; lia|done].
Qed.

Lemma starts_with_spec n h : starts_with n h = true <-> n `prefix_of` h.
Proof.
  revert h. induction n as [|c n IH]; intros [|d h]; simpl.
  - split; [intros _; apply prefix_nil|done].
  - split; [intros _; apply prefix_nil|done].
  - split; [done|]. intros Hp. by apply prefix_nil_inv in Hp.
  - rewrite andb_true_iff, bool_decide_eq_true, IH. split.
    + intros [-> ?]. by apply prefix_cons.
    + intros Hp. pose proof (prefix_cons_inv_1 _ _ _ _ Hp) as ->.
      split; [done|]. by eapply prefix_cons_inv_2.
Qed.

(** The substring relation, the reference for [includes]. *)
Definition substring_of (n h : jsstr) : Prop := exists p s, h = p ++ n ++ s.

(** [includes] is the executable form of the substring relation. *)
Lemma includes_spec h n : includes h n = true <-> substring_of n h.
Proof.
  induction h as [|d h IH]; simpl.
  - rewrite orb_false_r, starts_with_spec. split.
    + intros Hp. apply prefix_nil_inv in Hp. subst. by exists [], [].
    + intros ([|??] & [|??] & Hk); [|by destruct n..].
      simpl in Hk. rewrite app_nil_r in Hk. subst. apply prefix_nil.
  - rewrite orb_true_iff, starts_with_spec, IH. split.
    + intros [[k Hk]|(p & s & Hk)].
      * exists [], k. by rewrite Hk.
      * exists (d :: p), s. by rewrite Hk.
    + intros ([|e p] & s & Hk); simpl in Hk.
      * left. by exists s.
      * right. injection Hk as -> ->. by exists p, s.
Qed.

Lemma includes_nil h : includes h [] = true.
Proof. apply includes_spec. by exists [], h. Qed.

Lemma trim_start_no_ws s c r : trim_start s = c :: r -> is_ws c = false.
Proof.
  induction s as [|d s IH]; simpl; [done|].
  destruct (is_ws d) eqn:E; [done|]. by intros [= <- <-].
Qed.

Lemma trim_start_idem s : trim_start (trim_start s) = trim_start s.
Proof.
  induction s as [|c s IH]; simpl; [done|].
  destruct (is_ws c) eqn:E; [done|]. simpl. by rewrite E.
Qed.

Lemma trim_start_app_ws w s :
  Forall (fun c => is_ws c = true) w -> trim_start (w ++ s) = trim_start s.
Proof. induction 1 as [|c w Hc _ IH]; simpl; [done|]. by rewrite Hc. Qed.

Lemma trim_start_nil_iff s :
  trim_start s = [] <-> Forall (fun c => is_ws c = true) s.
Proof.
  induction s as [|c s IH]; simpl; [split; [constructor|done]|].
  destruct (is_ws c) eqn:E.
  - rewrite IH. split; [by constructor|]. by inversion 1.
  - split; [done|]. inversion 1; congruence.
Qed.

Definition all_ws (w : jsstr) : Prop := Forall (fun c => is_ws c = true) w.

Lemma trim_start_app_nonempty x y :
  trim_start x <> [] -> trim_start (x ++ y) = trim_start x ++ y.
Proof.
  induction x as [|c x IH]; simpl; [done|].
  destruct (is_ws c); [apply IH|done].
Qed.

Lemma trim_ws_l w x : all_ws w -> trim (w ++ x) = trim x.
Proof. intros Hw. unfold trim. by rewrite trim_start_app_ws. Qed.

Lemma trim_ws_r x w : all_ws w -> trim (x ++ w) = trim x.
Proof.
  intros Hw. unfold trim, trim_end. destruct (trim_start x) as [|c r] eqn:E.
  - apply trim_start_nil_iff in E.
    rewrite (proj2 (trim_start_nil_iff (x ++ w))); [done|]. by apply Forall_app.
  - rewrite trim_start_app_nonempty, E by (by rewrite E).
    rewrite rev_app_distr, trim_start_app_ws; [done|]. by apply Forall_rev.
Qed.

Lemma toLowerCase_ws w : all_ws w -> toLowerCase w = w.
Proof.
  induction 1 as [|c w Hc _ IH]; [done|]. simpl. by rewrite lower_unit_ws, IH.
Qed.

(** The lower-cased, trimmed form of a string ignores the white space
    around it. *)
Lemma trim_lower_ws w1 v w2 :
  all_ws w1 -> all_ws w2 ->
  trim (toLowerCase (w1 ++ v ++ w2)) = trim (toLowerCase v).
Proof.
  intros H1 H2. rewrite !toLowerCase_app, (toLowerCase_ws w1), (toLowerCase_ws w2)
    by done.
  by rewrite trim_ws_l, trim_ws_r.
Qed.

Lemma substring_of_trans a b c :
  substring_of a b -> substring_of b c -> substring_of a c.
Proof.
  intros (p & s & ->) (p' & s' & ->).
  exists (p' ++ p), (s ++ s'). by rewrite <- !app_assoc.
Qed.

(** ** Edges of trimmed strings *)

(** An optional end unit that is not white space. *)
Definition edge_nows (o : option N) : Prop :=
  match o with Some c => is_ws c = false | None => True end.

Lemma trim_start_id x : edge_nows (head x) -> trim_start x = x.
Proof. destruct x as [|c x]; simpl; [done|]. by intros ->. Qed.

Lemma trim_id x : edge_nows (head x) -> edge_nows (last x) -> trim x = x.
Proof.
  destruct x as [|c x _] using rev_ind; [done|]. intros Hh Hl.
  unfold trim, trim_end. rewrite (trim_start_id (x ++ [c]) Hh). rewrite last_snoc in Hl.
  simpl in Hl. rewrite rev_unit. cbn [trim_start]. rewrite Hl. change (rev (c :: rev x)) with (rev (rev x) ++ [c]). by rewrite rev_involutive.
Qed.

Lemma trim_start_snoc x c : is_ws c = false -> exists y, trim_start (x ++ [c]) = y ++ [c].
Proof.
  intros Hc. induction x as [|d x IH]; simpl; [rewrite Hc; by exists []|].
  destruct (is_ws d); [done|]. by exists (d :: x).
Qed.

Lemma trim_head x : edge_nows (head (trim x)).
Proof.
  unfold trim, trim_end. destruct (trim_start x) as [|c r] eqn:E; [done|].
  apply trim_start_no_ws in E. simpl.
  destruct (trim_start_snoc (rev r) c E) as [y ->]. rewrite rev_unit. done.
Qed.

Lemma trim_last x : edge_nows (last (trim x)).
Proof.
  unfold trim, trim_end. rewrite last_rev_head.
  destruct (trim_start (rev _)) as [|c r] eqn:E; [done|]. by apply trim_start_no_ws in E.
Qed.

Lemma upper_unit_nows c :
  is_ws c = false -> exists d r, upper_unit c = d :: r /\ is_ws d = false.
Proof.
  intros Hc. unfold upper_unit.
  destruct ((97 <=? c) && (c <=? 122)) eqn:E1.
  { exists (c - 32), []. split; [done|]. apply andb_prop in E1 as [E1 E1'].
    apply N.leb_le in E1, E1'. destruct (is_ws (c - 32)) eqn:W; [|done].
    apply is_ws_range in W. lia. }
  destruct (c =? 181); [by exists 924, []|].
  destruct (c =? 223); [by exists 83, [83]|].
  destruct ((224 <=? c) && (c <=? 254) && negb (c =? 247)) eqn:E4.
  { exists (c - 32), []. split; [done|]. apply andb_prop in E4 as [E4 _].
    apply andb_prop in E4 as [E4 E4']. apply N.leb_le in E4, E4'.
    destruct (is_ws (c - 32)) eqn:W; [|done]. apply is_ws_range in W. lia. }
  destruct (c =? 255); [by exists 376, []|]. by exists c, [].
Qed.

(** [trim] removes a white-space prefix and a white-space suffix. *)
Lemma trim_start_split s : exists w, all_ws w /\ s = w ++ trim_start s.
Proof.
  assert (H0 : all_ws []) by constructor.
  induction s as [|c s (w & Hw & Hs)]; [by exists []|]. simpl.
  destruct (is_ws c) eqn:E; [|by exists []]. exists (c :: w). split; [by constructor|]. simpl. by f_equal.
Qed.

Lemma trim_split s : exists w1 w2, all_ws w1 /\ all_ws w2 /\ s = w1 ++ trim s ++ w2.
Proof.
  destruct (trim_start_split s) as (w1 & H1 & E1).
  destruct (trim_start_split (rev (trim_start s))) as (w2 & H2 & E2).
  exists w1, (rev w2). split_and!; [done|by apply Forall_rev|].
  unfold trim, trim_end. rewrite E1 at 1. f_equal.
  transitivity (rev (rev (trim_start s))); [by rewrite rev_involutive|].
  rewrite E2 at 1. by rewrite rev_app_distr.
Qed.

(** Upper-casing keeps a string non-empty and its first unit non-blank. *)
Lemma toUpperCase_head x :
  x <> [] -> edge_nows (head x) -> toUpperCase x <> [] /\ edge_nows (head (toUpperCase x)).
Proof.
  destruct x as [|c x]; [done|]. simpl. intros _ Hc.
  destruct (upper_unit_nows c Hc) as (d & r & -> & Hd). done.
Qed.

(** The last unit of a join is the last unit of its last element. *)
Lemma join_last sep l x : x <> [] -> last (join sep (l ++ [x])) = last x.
Proof.
  intros Hx. assert (Hl : last x <> None).
  { destruct x as [|c x _] using rev_ind; [done|]. by rewrite last_snoc. }
  induction l as [|y l IH]; [done|].
  replace (join sep ((y :: l) ++ [x])) with (y ++ sep ++ join sep (l ++ [x])).
  - rewrite app_assoc, last_app_ne; [done|]. intros E. rewrite E in IH. by apply Hl.
  - simpl. by destruct l.
Qed.

#[export] Hint Resolve lower_unit_idem toLowerCase_idem : js.
#[export] Hint Rewrite toLowerCase_idem toLowerCase_app length_toLowerCase : js_rw.

End JsString.
