(* ===== verification/JsNumber.v ===== *)
(** * JavaScript numbers on integers

    Every number the script handles is an integer: the counts of
    [viewCounts] (line 120), array lengths (lines 36, 106-107) and the
    numbers [JSON.parse] reads from the stored items (lines 33, 113).  A
    JavaScript number is an IEEE-754 double: every integer of magnitude at
    most 2^53 is a number, and past it the Number value of an integer is
    the nearest integer with a 53-bit significand, ties going to the even
    significand (ECMA-262, 6.1.6.1, "the Number value for x").
    [round_double] computes it with [Z.log2] and shifts, and [js_add] is
    the addition of two integral numbers (Number::add, the exact sum
    rounded).

    The development keeps the numbers of its states within [exact_int],
    magnitude at most 2^53: there the Number value of an integer is the
    integer itself and [Number::toString] prints its decimal digits, which
    is what [num_str] writes.  Above 2^53 [round_double] is still the
    rounding of the standard; the overflow to [Infinity] past 2^1024 is not
    modelled, as no number of that size is ever kept ([Json.number_value]
    reads a stored number past 2^53 as [OutOfModel]). *)

From S2P Require Import Prelude.

Module JsNumber.

Local Open Scope Z_scope.

(** 2^53: the integers up to it in magnitude are all numbers. *)
Definition max_exact : Z := 2 ^ 53.

(** The Number value of a positive integer [a]: past [max_exact] keep its
    53 leading bits ([q], the bits past them are [r], of weight 2^e) and
    round to nearest, ties to the even [q]. *)
Definition round_pos (a : Z) : Z :=
  if a <=? max_exact then a else
  let e := Z.log2 a - 52 in
  let q := Z.shiftr a e in
  let r := a - Z.shiftl q e in
  let h := Z.shiftl 1 (e - 1) in
  Z.shiftl (if (h <? r) || ((r =? h) && Z.odd q) then q + 1 else q) e.

(** The Number value of an integer: the rounding is symmetric. *)
Definition round_double (z : Z) : Z :=
  if z <? 0 then - round_pos (- z) else round_pos z.

(** [x + y] on two integral numbers. *)
Definition js_add (x y : Z) : Z := round_double (x + y).

(** The integers the development keeps: held exactly, printed in full. *)
Definition exact_int (z : Z) : bool := (- max_exact <=? z) && (z <=? max_exact).

(** ** Lemmas *)

Lemma exact_int_spec z : exact_int z = true <-> - max_exact <= z <= max_exact.
Proof. unfold exact_int. rewrite andb_true_iff, !Z.leb_le. done. Qed.

Lemma max_exact_pos : 0 < max_exact.
Proof. done. Qed.

Lemma round_double_exact z : exact_int z = true -> round_double z = z.
Proof.
  intros Hz%exact_int_spec. unfold round_double, round_pos.
  destruct (Z.ltb_spec z 0).
  - rewrite (proj2 (Z.leb_le _ _)) by lia. lia.
  - by rewrite (proj2 (Z.leb_le _ _)) by lia.
Qed.

(** Below 2^53 adding one is exact ... *)
Lemma js_add1_below c : exact_int c = true -> c < max_exact -> js_add c 1 = c + 1.
Proof.
  intros Hc%exact_int_spec Hlt. unfold js_add. apply round_double_exact, exact_int_spec. lia.
Qed.

(** ... and at 2^53 the sum 2^53 + 1 is a tie that rounds back to 2^53. *)
Lemma js_add1_max : js_add max_exact 1 = max_exact.
Proof. by vm_compute. Qed.

Lemma js_add1_min c : exact_int c = true -> js_add c 1 = Z.min (c + 1) max_exact.
Proof.
  intros Hc. destruct (Z.ltb_spec c max_exact) as [Hlt|Hge].
  - rewrite js_add1_below by done. lia.
  - apply exact_int_spec in Hc. assert (c = max_exact) as -> by lia.
    rewrite js_add1_max. lia.
Qed.

Lemma js_add1_exact c : exact_int c = true -> exact_int (js_add c 1) = true.
Proof.
  intros Hc. rewrite js_add1_min by done. apply exact_int_spec in Hc.
  apply exact_int_spec. lia.
Qed.

(** The pieces of [round_pos] as arithmetic. *)
Lemma round_pos_large a :
  max_exact < a ->
  let e := Z.log2 a - 52 in
  1 <= e /\
  round_pos a = (if (2 ^ (e - 1) <? a mod 2 ^ e) ||
                    ((a mod 2 ^ e =? 2 ^ (e - 1)) && Z.odd (a / 2 ^ e))
                 then a / 2 ^ e + 1 else a / 2 ^ e) * 2 ^ e.
Proof.
  intros Ha e. unfold round_pos. rewrite (proj2 (Z.leb_gt _ _)) by done.
  assert (He : 1 <= e).
  { subst e. enough (53 <= Z.log2 a) by lia.
    change 53 with (Z.log2 max_exact). apply Z.log2_le_mono. lia. }
  split; [done|]. cbv zeta. fold e.
  rewrite !Z.shiftl_mul_pow2, Z.shiftr_div_pow2, Z.mul_1_l by lia.
  assert (Hr : a - a / 2 ^ e * 2 ^ e = a mod 2 ^ e).
  { rewrite (Z.mod_eq a (2 ^ e)) by (apply Z.pow_nonzero; lia). lia. }
  by rewrite Hr.
Qed.

(** ** Properties *)

(** Past 2^53 the Number value of an integer [a] is the rounding the
    standard asks for: a multiple [q * 2^e] of the unit [2^e] of the
    numbers of [a]'s binade, with a significand [q] of 53 bits (or 2^53,
    when [a] rounds up to the next binade), at most half a unit from [a],
    and with an even significand when [a] lies half-way between two
    numbers. *)
Theorem round_double_nearest a :
  max_exact < a ->
  let e := Z.log2 a - 52 in
  exists q, round_double a = q * 2 ^ e /\ 2 ^ 52 <= q <= 2 ^ 53 /\
    2 * Z.abs (round_double a - a) <= 2 ^ e /\
    (2 * Z.abs (round_double a - a) = 2 ^ e -> Z.even q = true).
Proof.
  intros Ha e. destruct (round_pos_large a Ha) as [He Hr]. fold e in He, Hr.
  assert (Hd : round_double a = round_pos a)
    by (unfold round_double; rewrite (proj2 (Z.ltb_ge _ _)) by (unfold max_exact in Ha; lia); done).
  rewrite Hd, Hr. clear Hd Hr.
  assert (Hp : 2 ^ e = 2 * 2 ^ (e - 1)) by (rewrite <- Z.pow_succ_r by lia; f_equal; lia).
  assert (Hh : 0 < 2 ^ (e - 1)) by (apply Z.pow_pos_nonneg; lia).
  assert (Hlog : 2 ^ 52 * 2 ^ e <= a < 2 ^ 53 * 2 ^ e).
  { rewrite <- !Z.pow_add_r by lia. replace (52 + e) with (Z.log2 a) by lia.
    replace (53 + e) with (Z.succ (Z.log2 a)) by lia.
    apply Z.log2_spec. unfold max_exact in Ha. lia. }
  pose proof (Z.div_mod a (2 ^ e) ltac:(lia)) as Ha'.
  pose proof (Z.mod_pos_bound a (2 ^ e) ltac:(lia)) as Hm.
  set (q0 := a / 2 ^ e) in *. set (r := a mod 2 ^ e) in *. set (h := 2 ^ (e - 1)) in *.
  assert (Hq0 : 2 ^ 52 <= q0 < 2 ^ 53) by nia.
  set (p := 2 ^ e) in *. clearbody q0 r h p.
  destruct (orb _ _) eqn:Hc.
  - exists (Z.succ q0). split; [by rewrite <- Z.add_1_r|]. rewrite Z.even_succ.
    apply orb_true_iff in Hc as [Hc%Z.ltb_lt|[Hc%Z.eqb_eq Ho]%andb_true_iff];
      (split; [lia|split; [nia|]]); intros; [exfalso; nia|done].
  - exists q0. split; [done|]. apply orb_false_iff in Hc as [Hc1%Z.ltb_ge Hc2].
    split; [lia|split; [nia|]]. intros Ht. assert (r = h) as -> by nia.
    rewrite Z.eqb_refl in Hc2. simpl in Hc2. by rewrite <- Z.negb_odd, Hc2.
Qed.

End JsNumber.
