(* ===== verification/Json.v ===== *)
(** * JSON text, as [JSON.stringify] writes it and [JSON.parse] reads it

    The script keeps its persistent state in [localStorage] as JSON text
    (lines 33, 49, 113-114).  This file models the two host functions on
    the values the script stores: [null], booleans, integral numbers,
    strings, arrays and objects (an object as the list of its members in
    text order).  [stringify] follows ECMAScript's SerializeJSONProperty
    and QuoteJSONString (the short escapes, [\u00XX] for other control
    units, [\uDXXX] for lone surrogates, lower-case hexadecimal);
    [parse] follows the JSON grammar of ECMA-404 with JSON.parse's
    white space, and raises [SyntaxError] on any other text.  An integer
    literal reads as its Number value ([JsNumber.round_double]); a number
    with a fraction or exponent part, or whose value is past 2^53, is
    outside the model ([OutOfModel]).  [JSON.parse] of [JSON.stringify]
    gives the value back when its numbers are within 2^53 ([json_exact]),
    as every value [JSON.parse] returns is ([JSON_parse_exact]). *)

From Stdlib Require DecimalN DecimalFacts.
From S2P Require Import Prelude JsString JsNumber.
Import JsString JsNumber.

Module Json.

Local Open Scope N_scope.

#[warnings="-register-all"]
Inductive json :=
| JNull
| JBool (b : bool)
| JNum (n : Z)
| JStr (s : jsstr)
| JArr (l : list json)
| JObj (m : list (jsstr * json)).

(** ** Printing *)

Definition hex_digit (n : N) : N := if n <? 10 then 48 + n else 87 + n.

Definition u_escape (c : N) : jsstr :=
  [92; 117; hex_digit (c / 4096 mod 16); hex_digit (c / 256 mod 16);
   hex_digit (c / 16 mod 16); hex_digit (c mod 16)].

Definition is_high (c : N) : bool := (55296 <=? c) && (c <=? 56319).
Definition is_low (c : N) : bool := (56320 <=? c) && (c <=? 57343).

(** The escape of a single code unit that is not part of a surrogate pair. *)
Definition quote_unit (c : N) : jsstr :=
  if c =? 8 then [92; 98]
  else if c =? 9 then [92; 116]
  else if c =? 10 then [92; 110]
  else if c =? 12 then [92; 102]
  else if c =? 13 then [92; 114]
  else if c =? 34 then [92; 34]
  else if c =? 92 then [92; 92]
  else if (c <? 32) || is_high c || is_low c then u_escape c
  else [c].

(** QuoteJSONString without the quotes: a surrogate pair is copied, any
    other unit goes through [quote_unit]. *)
Fixpoint quote_units (s : jsstr) : jsstr :=
  match s with
  | [] => []
  | c :: r =>
      if is_high c then
        match r with
        | d :: r' => if is_low d then c :: d :: quote_units r'
                     else quote_unit c ++ quote_units r
        | [] => quote_unit c
        end
      else quote_unit c ++ quote_units r
  end.

Definition quote (s : jsstr) : jsstr := [34] ++ quote_units s ++ [34].

Fixpoint stringify (v : json) : jsstr :=
  match v with
  | JNull => ⟪"null"⟫
  | JBool true => ⟪"true"⟫
  | JBool false => ⟪"false"⟫
  | JNum n => num_str n
  | JStr s => quote s
  | JArr l => [91] ++ join [44] (map stringify l) ++ [93]
  | JObj m =>
      [123] ++ join [44] (map (fun kv => quote kv.1 ++ [58] ++ stringify kv.2) m)
      ++ [125]
  end.

(** ** Parsing *)

Definition json_ws (c : N) : bool := (c =? 9) || (c =? 10) || (c =? 13) || (c =? 32).

Fixpoint skip_ws (s : jsstr) : jsstr :=
  match s with
  | c :: r => if json_ws c then skip_ws r else s
  | [] => []
  end.

Definition is_digit (c : N) : bool := (48 <=? c) && (c <=? 57).

Fixpoint take_digits (s : jsstr) : jsstr * jsstr :=
  match s with
  | c :: r => if is_digit c then let '(ds, rest) := take_digits r in (c :: ds, rest)
              else ([], s)
  | [] => ([], [])
  end.

Definition push_digit (c : N) (d : Decimal.uint) : Decimal.uint :=
  match N.to_nat (c - 48) with
  | 0%nat => Decimal.D0 d | 1%nat => Decimal.D1 d | 2%nat => Decimal.D2 d
  | 3%nat => Decimal.D3 d | 4%nat => Decimal.D4 d | 5%nat => Decimal.D5 d
  | 6%nat => Decimal.D6 d | 7%nat => Decimal.D7 d | 8%nat => Decimal.D8 d
  | _ => Decimal.D9 d
  end.

Definition units_uint (ds : jsstr) : Decimal.uint :=
  fold_right push_digit Decimal.Nil ds.

(** The number an integer literal denotes: the Number value of its
    integer ([round_double]: a literal past 2^53 is rounded, so
    [9007199254740993] reads as [9007199254740992]); a number past 2^53
    in magnitude is outside the model. *)
Definition number_value (n : Z) (rest : jsstr) : res (json * jsstr) :=
  let v := round_double n in
  if exact_int v then Ok (JNum v, rest) else Throw OutOfModel.

(** What follows the digits of a number: a fraction or an exponent is
    outside the model. *)
Definition number_end (n : Z) (rest : jsstr) : res (json * jsstr) :=
  match rest with
  | d :: _ => if (d =? 46) || (d =? 101) || (d =? 69) then Throw OutOfModel
              else number_value n rest
  | [] => number_value n rest
  end.

(** number = ["-"] int [frac] [exp]; int = "0" | digit1-9 digit*. *)
Definition parse_number (s : jsstr) : res (json * jsstr) :=
  let neg := match s with c :: _ => c =? 45 | [] => false end in
  let '(ds, rest) := take_digits (if neg then tail s else s) in
  let n := Z.of_N (N.of_uint (units_uint ds)) in
  match ds with
  | [] => Throw SyntaxError
  | c :: r =>
      if (c =? 48) && negb (bool_decide (r = [])) then Throw SyntaxError
      else number_end (if neg then (- n)%Z else n) rest
  end.

Definition hex_val (c : N) : option N :=
  if (48 <=? c) && (c <=? 57) then Some (c - 48)
  else if (97 <=? c) && (c <=? 102) then Some (c - 87)
  else if (65 <=? c) && (c <=? 70) then Some (c - 55)
  else None.

Definition short_escape (c : N) : option N :=
  if c =? 34 then Some 34 else if c =? 92 then Some 92
  else if c =? 47 then Some 47 else if c =? 98 then Some 8
  else if c =? 102 then Some 12 else if c =? 110 then Some 10
  else if c =? 114 then Some 13 else if c =? 116 then Some 9
  else None.

(** The characters of a string after its opening quote, up to and
    without the closing quote. *)
Fixpoint parse_chars (s : jsstr) : res (jsstr * jsstr) :=
  match s with
  | [] => Throw SyntaxError
  | c :: r =>
      if c =? 34 then Ok ([], r)
      else if c =? 92 then
        match r with
        | e :: r' =>
            if e =? 117 then
              match r' with
              | a :: b :: c' :: d :: r'' =>
                  match hex_val a, hex_val b, hex_val c', hex_val d with
                  | Some a, Some b, Some c', Some d =>
                      let! (t, r3) := parse_chars r'' in
                      Ok ((a * 4096 + b * 256 + c' * 16 + d) :: t, r3)
                  | _, _, _, _ => Throw SyntaxError
                  end
              | _ => Throw SyntaxError
              end
            else
              match short_escape e with
              | Some u => let! (t, r3) := parse_chars r' in Ok (u :: t, r3)
              | None => Throw SyntaxError
              end
        | [] => Throw SyntaxError
        end
      else if c <? 32 then Throw SyntaxError
      else let! (t, r') := parse_chars r in Ok (c :: t, r')
  end.

Definition starts (lit s : jsstr) : option jsstr :=
  if starts_with lit s then Some (drop (length lit) s) else None.

(** The recursive descent, with [fuel] bounding the nesting and the
    number of members; running out of fuel is the outcome [OutOfFuel].
    [JSON_parse] gives it one more than twice the length of the text,
    which [JsonFuel] proves is never exhausted. *)
Fixpoint parse_value (fuel : nat) (s : jsstr) : res (json * jsstr) :=
  match fuel with
  | O => Throw OutOfFuel
  | S f =>
      match skip_ws s with
      | [] => Throw SyntaxError
      | c :: r =>
          if c =? 34 then let! (t, r') := parse_chars r in Ok (JStr t, r')
          else if c =? 91 then
            match skip_ws r with
            | d :: r' => if d =? 93 then Ok (JArr [], r')
                         else let! (l, r'') := parse_elems f r in Ok (JArr l, r'')
            | [] => Throw SyntaxError
            end
          else if c =? 123 then
            match skip_ws r with
            | d :: r' => if d =? 125 then Ok (JObj [], r')
                         else let! (m, r'') := parse_members f r in Ok (JObj m, r'')
            | [] => Throw SyntaxError
            end
          else if (c =? 45) || is_digit c then parse_number (c :: r)
          else match starts ⟪"null"⟫ (c :: r) with
               | Some r' => Ok (JNull, r')
               | None =>
                 match starts ⟪"true"⟫ (c :: r) with
                 | Some r' => Ok (JBool true, r')
                 | None =>
                   match starts ⟪"false"⟫ (c :: r) with
                   | Some r' => Ok (JBool false, r')
                   | None => Throw SyntaxError
                   end
                 end
               end
      end
  end
(** Elements of a non-empty array, through the closing bracket. *)
with parse_elems (fuel : nat) (s : jsstr) : res (list json * jsstr) :=
  match fuel with
  | O => Throw OutOfFuel
  | S f =>
      let! (v, r) := parse_value f s in
      match skip_ws r with
      | d :: r' =>
          if d =? 44 then let! (l, r'') := parse_elems f r' in Ok (v :: l, r'')
          else if d =? 93 then Ok ([v], r')
          else Throw SyntaxError
      | [] => Throw SyntaxError
      end
  end
(** Members of a non-empty object, through the closing brace. *)
with parse_members (fuel : nat) (s : jsstr) : res (list (jsstr * json) * jsstr) :=
  match fuel with
  | O => Throw OutOfFuel
  | S f =>
      match skip_ws s with
      | q :: r =>
          if negb (q =? 34) then Throw SyntaxError else
          let! (k, r1) := parse_chars r in
          match skip_ws r1 with
          | col :: r2 =>
              if negb (col =? 58) then Throw SyntaxError else
              let! (v, r3) := parse_value f r2 in
              match skip_ws r3 with
              | d :: r4 =>
                  if d =? 44 then
                    let! (m, r5) := parse_members f r4 in Ok ((k, v) :: m, r5)
                  else if d =? 125 then Ok ([(k, v)], r4)
                  else Throw SyntaxError
              | [] => Throw SyntaxError
              end
          | [] => Throw SyntaxError
          end
      | [] => Throw SyntaxError
      end
  end.

Definition JSON_parse (s : jsstr) : res json :=
  let! (v, r) := parse_value (S (2 * length s)) s in
  match skip_ws r with [] => Ok v | _ :: _ => Throw SyntaxError end.

(** [JSON.parse(localStorage.getItem(k))]: a missing item is [null],
    which [JSON.parse] reads as the text "null". *)
Definition parse_stored (o : option jsstr) : res json :=
  JSON_parse (default ⟪"null"⟫ o).

(** ToBoolean, for the [x || default] of lines 33 and 113. *)
Definition truthy (v : json) : bool :=
  match v with
  | JNull => false
  | JBool b => b
  | JNum n => negb (n =? 0)%Z
  | JStr s => negb (bool_decide (s = []))
  | JArr _ | JObj _ => true
  end.

(** The values whose numbers are all within [exact_int]: the values
    [JSON.parse] returns, and the ones that read back as themselves. *)
Fixpoint json_exact (v : json) : bool :=
  match v with
  | JNum n => exact_int n
  | JArr l => forallb json_exact l
  | JObj m => forallb (fun kv => json_exact kv.2) m
  | _ => true
  end.

(** The size bound that [parse_value] needs as fuel. *)
Fixpoint json_size (v : json) : nat :=
  match v with
  | JArr l => S (sum_list_with (fun e => S (json_size e)) l)
  | JObj m => S (sum_list_with (fun kv => S (json_size kv.2)) m)
  | _ => 1%nat
  end.

(** A text that may follow a value inside an array, an object, or at the
    end of the input. *)
Definition value_end (rest : jsstr) : Prop :=
  match rest with [] => True | c :: _ => c = 44 \/ c = 93 \/ c = 125 end.

(** ** Lemmas *)

(** Induction on values, with a hypothesis for every element. *)
Lemma json_ind' (P : json -> Prop) :
  P JNull -> (forall b, P (JBool b)) -> (forall n, P (JNum n)) -> (forall s, P (JStr s)) ->
  (forall l, Forall P l -> P (JArr l)) ->
  (forall m, Forall (fun kv => P kv.2) m -> P (JObj m)) ->
  forall v, P v.
Proof.
  intros Hn Hb Hz Hs Ha Ho. fix IH 1. intros [| | | |l|m].
  - done.
  - apply Hb.
  - apply Hz.
  - apply Hs.
  - apply Ha. induction l as [|e l IHl]; constructor; [apply IH|apply IHl].
  - apply Ho. induction m as [|[k e] m IHm]; constructor; [apply IH|apply IHm].
Qed.

Lemma uint_units_digits d : Forall (fun c => is_digit c = true) (uint_units d).
Proof. induction d; simpl; constructor; auto. Qed.

Lemma take_digits_app ds rest :
  Forall (fun c => is_digit c = true) ds ->
  (forall c r, rest = c :: r -> is_digit c = false) ->
  take_digits (ds ++ rest) = (ds, rest).
Proof.
  intros Hds Hr. induction Hds as [|c ds Hc _ IH]; cbn [take_digits app].
  - destruct rest as [|c r]; [done|]. cbn [take_digits]. by rewrite (Hr c r eq_refl).
  - by rewrite Hc, IH.
Qed.

Lemma units_uint_uint_units d : units_uint (uint_units d) = d.
Proof. induction d; simpl; unfold units_uint in *; simpl; by rewrite ?IHd. Qed.

(** The decimal form of a number has no leading zero. *)
Lemma nat_str_shape n :
  nat_str n = [48] \/ exists c r, nat_str n = c :: r /\ c <> 48 /\ is_digit c = true.
Proof.
  unfold nat_str.
  assert (Hn : N.to_uint n = Decimal.unorm (N.to_uint n)).
  { by rewrite <- DecimalN.Unsigned.to_of, DecimalN.Unsigned.of_to. }
  rewrite Hn. unfold Decimal.unorm.
  destruct (Decimal.nzhead (N.to_uint n)) as [|d|d|d|d|d|d|d|d|d|d] eqn:E;
    [by left| |by right; do 2 eexists; split; [done|]; split; [discriminate|done]..].
  by apply DecimalFacts.nzhead_nonzero in E.
Qed.

Lemma value_end_not_digit rest :
  value_end rest -> forall c r, rest = c :: r -> is_digit c = false.
Proof. destruct rest; simpl; [done|]. intros Hc c' r [= <- _]. unfold is_digit. N_bool_lia. Qed.

Lemma number_value_exact n rest :
  exact_int n = true -> number_value n rest = Ok (JNum n, rest).
Proof. intros Hn. unfold number_value. by rewrite round_double_exact, Hn. Qed.

Lemma number_end_ok n rest :
  exact_int n = true -> value_end rest -> number_end n rest = Ok (JNum n, rest).
Proof.
  intros Hn. destruct rest as [|d r]; simpl; [intros _; by apply number_value_exact|].
  intros Hd. rewrite number_value_exact by done. revert Hd. N_bool_lia.
Qed.

Lemma nat_str_leading n (X : res (json * jsstr)) :
  match nat_str n with
  | [] => Throw SyntaxError
  | c :: r => if (c =? 48) && negb (bool_decide (r = [])) then Throw SyntaxError else X
  end = X.
Proof.
  destruct (nat_str_shape n) as [->|(c & r & -> & Hc & _)]; [done|].
  by rewrite (proj2 (N.eqb_neq _ _) Hc).
Qed.

Lemma nat_str_head n : exists c r, nat_str n = c :: r /\ is_digit c = true.
Proof.
  destruct (nat_str_shape n) as [->|(c & r & ? & _ & ?)]; [by eexists _, []|by exists c, r].
Qed.

Lemma parse_num_str z rest :
  exact_int z = true -> value_end rest -> parse_number (num_str z ++ rest) = Ok (JNum z, rest).
Proof.
  intros Hz Hr.
  assert (Ht : forall n, take_digits (nat_str n ++ rest) = (nat_str n, rest))
    by (intros n; apply take_digits_app; [apply uint_units_digits|by apply value_end_not_digit]).
  assert (Hv : forall n, Z.of_N (N.of_uint (units_uint (nat_str n))) = Z.of_N n).
  { intros n. unfold nat_str. by rewrite units_uint_uint_units, DecimalN.Unsigned.of_to. }
  unfold num_str, parse_number. destruct (Z.ltb_spec z 0) as [Hn|Hn].
  - cbn [app tail]. rewrite N.eqb_refl, Ht, Hv, nat_str_leading.
    rewrite Z2N.id, Z.opp_involutive by lia. by apply number_end_ok.
  - destruct (nat_str_head (Z.to_N z)) as (c & r & Hcr & Hc).
    assert (Hneg : match nat_str (Z.to_N z) ++ rest with
                   | c :: _ => c =? 45 | [] => false end = false)
      by (rewrite Hcr; unfold is_digit in Hc; simpl; N_bool_lia).
    cbv zeta. rewrite Hneg, Ht, Hv, nat_str_leading, Z2N.id by lia. by apply number_end_ok.
Qed.

Lemma hex_val_digit k : k < 16 -> hex_val (hex_digit k) = Some k.
Proof. intros Hk. unfold hex_val, hex_digit. N_bool_lia; f_equal; lia. Qed.

Lemma hex4_value c :
  c < 65536 ->
  (c / 4096 mod 16) * 4096 + (c / 256 mod 16) * 256 + (c / 16 mod 16) * 16 + c mod 16 = c.
Proof.
  intros Hc.
  assert (E1 : c / 256 = c / 16 / 16) by (rewrite N.Div0.div_div by lia; reflexivity).
  assert (E2 : c / 4096 = c / 16 / 16 / 16)
    by (rewrite !N.Div0.div_div by lia; reflexivity).
  rewrite E1, E2.
  assert (H3 : c / 16 / 16 / 16 < 16)
    by (rewrite <- E2; apply N.Div0.div_lt_upper_bound; lia).
  rewrite (N.mod_small (c / 16 / 16 / 16)) by exact H3.
  pose proof (N.div_mod c 16 ltac:(lia)).
  pose proof (N.div_mod (c / 16) 16 ltac:(lia)).
  pose proof (N.div_mod (c / 16 / 16) 16 ltac:(lia)).
  remember (c / 16 / 16 / 16) as a. remember (c / 16 / 16 mod 16) as b.
  remember (c / 16 mod 16) as d. remember (c mod 16) as e.
  remember (c / 16 / 16) as c2. remember (c / 16) as c1. lia.
Qed.

(** A unit copied as itself by [quote_units] is read back as itself. *)
Lemma parse_chars_raw c t :
  32 <= c -> c <> 34 -> c <> 92 ->
  parse_chars (c :: t) = let! (u, r) := parse_chars t in Ok (c :: u, r).
Proof.
  intros H32 H34 H92. cbn [parse_chars].
  rewrite (proj2 (N.eqb_neq _ _) H34), (proj2 (N.eqb_neq _ _) H92).
  by destruct (N.ltb_spec c 32); [lia|].
Qed.

Lemma parse_chars_quote_unit c t :
  parse_chars (quote_unit c ++ t) = let! (u, r) := parse_chars t in Ok (c :: u, r).
Proof.
  unfold quote_unit.
  destruct (N.eqb_spec c 8) as [->|]; [done|].
  destruct (N.eqb_spec c 9) as [->|]; [done|].
  destruct (N.eqb_spec c 10) as [->|]; [done|].
  destruct (N.eqb_spec c 12) as [->|]; [done|].
  destruct (N.eqb_spec c 13) as [->|]; [done|].
  destruct (N.eqb_spec c 34) as [->|]; [done|].
  destruct (N.eqb_spec c 92) as [->|]; [done|].
  destruct ((c <? 32) || is_high c || is_low c) eqn:Hu.
  - assert (Hc : c < 57344)
      by (unfold is_high, is_low in Hu; rewrite !orb_true_iff, !andb_true_iff in Hu;
          N_bool_lia).
    unfold u_escape. cbn [app parse_chars]. simpl (92 =? 34). simpl (92 =? 92).
    simpl (117 =? 117). cbv iota beta.
    rewrite !hex_val_digit by (apply N.mod_lt; lia).
    rewrite hex4_value by lia. done.
  - rewrite !orb_false_iff in Hu. destruct Hu as [[H32 _] _].
    apply parse_chars_raw; [apply N.ltb_ge in H32|..]; done.
Qed.

Lemma parse_quote_units s rest :
  parse_chars (quote_units s ++ 34 :: rest) = Ok (s, rest).
Proof.
  induction s as [s IH] using (well_founded_induction (Wf_nat.well_founded_ltof _ length)).
  destruct s as [|c r]; [done|]. cbn [quote_units].
  assert (IHr : parse_chars (quote_units r ++ 34 :: rest) = Ok (r, rest))
    by (apply IH; unfold Wf_nat.ltof; simpl; lia).
  destruct (is_high c) eqn:Hh.
  - destruct r as [|d r'].
    + rewrite parse_chars_quote_unit. done.
    + destruct (is_low d) eqn:Hl.
      * unfold is_high, is_low in *. rewrite !andb_true_iff in *.
        cbn [app]. rewrite parse_chars_raw by N_bool_lia.
        rewrite parse_chars_raw by N_bool_lia.
        rewrite IH by (unfold Wf_nat.ltof; simpl; lia). done.
      * rewrite <- app_assoc, parse_chars_quote_unit, IHr. done.
  - rewrite <- app_assoc, parse_chars_quote_unit, IHr. done.
Qed.

Lemma num_str_head n : exists c r, num_str n = c :: r /\ (c = 45 \/ is_digit c = true).
Proof.
  unfold num_str. destruct (n <? 0)%Z; [by eexists _, _; split; [|left]|].
  destruct (nat_str_head (Z.to_N n)) as (c & r & -> & Hc). by exists c, r; split; [|right].
Qed.

(** Every printed value starts with a character that is neither white
    space nor a closing bracket, brace or comma. *)
Lemma stringify_head v :
  exists c r, stringify v = c :: r /\ json_ws c = false /\ c <> 93 /\ c <> 125 /\ c <> 44.
Proof.
  destruct v as [|[]|n| | |];
    try (eexists _, _; split; [reflexivity|]; repeat split; first [reflexivity|discriminate]).
  destruct (num_str_head n) as (c & r & Hcr & Hc). exists c, r. simpl. rewrite Hcr.
  unfold is_digit, json_ws in *. destruct Hc as [->|Hc]; [done|]. N_bool_lia.
  repeat split; lia.
Qed.

Lemma skip_ws_stringify v t : skip_ws (stringify v ++ t) = stringify v ++ t.
Proof.
  destruct (stringify_head v) as (c & r & Hcr & Hws & _). rewrite Hcr. simpl. by rewrite Hws.
Qed.

Lemma digit_facts c :
  is_digit c = true ->
  json_ws c = false /\ (c =? 34) = false /\ (c =? 91) = false /\ (c =? 123) = false.
Proof.
  unfold is_digit, json_ws. rewrite andb_true_iff, !N.leb_le. intros.
  by rewrite !(proj2 (N.eqb_neq c _)) by lia.
Qed.

Lemma skip_ws_delim c t : json_ws c = false -> skip_ws (c :: t) = c :: t.
Proof. simpl. by intros ->. Qed.

Lemma quote_app k t : quote k ++ t = 34 :: quote_units k ++ 34 :: t.
Proof. unfold quote. by rewrite <- !app_assoc. Qed.

Lemma join_cons2 (sep x y : jsstr) r : join sep (x :: y :: r) = x ++ sep ++ join sep (y :: r).
Proof. done. Qed.

(** Evaluate the comparisons between literal code units in the goal. *)
Ltac eval_eqb :=
  repeat match goal with
         | |- context [(?a =? ?b)%N] =>
             lazymatch a with N0 => idtac | Npos _ => idtac end;
             lazymatch b with N0 => idtac | Npos _ => idtac end;
             let r := eval vm_compute in (a =? b)%N in change (a =? b)%N with r
         end; cbn beta iota delta [negb].

(** Step over a delimiter the parser expects next. *)
Ltac step_delim := cbn [app res_bind]; rewrite skip_ws_delim by reflexivity; eval_eqb.

Lemma join_app_head (sep x : jsstr) xs t : exists t', join sep (x :: xs) ++ t = x ++ t'.
Proof.
  destruct xs as [|y xs]; [by exists t|]. rewrite join_cons2, <- app_assoc. by eexists.
Qed.

Lemma join_stringify_head e xs t :
  exists c r, join [44] (stringify e :: xs) ++ t = c :: r /\ json_ws c = false /\ c <> 93.
Proof.
  destruct (join_app_head [44] (stringify e) xs t) as [t' ->].
  destruct (stringify_head e) as (c & r & -> & Hws & H93 & _). by exists c, (r ++ t').
Qed.

Section Roundtrip.
Let P (v : json) : Prop := json_exact v = true -> forall fuel rest,
  (json_size v <= fuel)%nat -> value_end rest ->
  parse_value fuel (stringify v ++ rest) = Ok (v, rest).

Lemma parse_elems_stringify e l fuel rest :
  Forall P (e :: l) -> forallb json_exact (e :: l) = true ->
  (sum_list_with (fun x => S (json_size x)) (e :: l) <= fuel)%nat ->
  parse_elems fuel (join [44] (stringify e :: map stringify l) ++ 93 :: rest)
  = Ok (e :: l, rest).
Proof.
  revert e fuel. induction l as [|e' l IH]; intros e [|f] HP Hx Hf; simpl in Hf; try lia;
    apply Forall_cons in HP as [He HP]; apply andb_true_iff in Hx as [Hex Hx].
  - cbn [map join parse_elems]. rewrite He by (simpl; lia || auto). done.
  - cbn [map]. rewrite join_cons2, <- !app_assoc. cbn [parse_elems].
    rewrite He by (simpl; lia || auto). cbn [res_bind app].
    rewrite skip_ws_delim, N.eqb_refl by reflexivity. cbn beta iota.
    rewrite IH by (simpl; lia || done). done.
Qed.

Lemma parse_members_stringify k v m fuel rest :
  Forall (fun kv => P kv.2) ((k, v) :: m) -> forallb (fun kv => json_exact kv.2) ((k, v) :: m) = true ->
  (sum_list_with (fun x => S (json_size x.2)) ((k, v) :: m) <= fuel)%nat ->
  parse_members fuel
    (join [44] ((quote k ++ [58] ++ stringify v)
                :: map (fun kv => quote kv.1 ++ [58] ++ stringify kv.2) m)
     ++ 125 :: rest) = Ok ((k, v) :: m, rest).
Proof.
  revert k v fuel. induction m as [|[k' v'] m IH]; intros k v [|f] HP Hx Hf; simpl in Hf;
    try lia; apply Forall_cons in HP as [Hv HP]; simpl in Hv; apply andb_true_iff in Hx as [Hvx Hx].
  - cbn [map join parse_members]. rewrite <- app_assoc, quote_app. step_delim.
    rewrite parse_quote_units. step_delim.
    rewrite Hv by (simpl; lia || auto). step_delim. done.
  - cbn [map fst snd]. rewrite join_cons2, <- !app_assoc, quote_app.
    cbn [parse_members]. step_delim. rewrite parse_quote_units. step_delim.
    rewrite Hv by (simpl; lia || auto). step_delim.
    pose proof (IH k' v' f) as IH'. cbn [app] in IH'.
    rewrite IH' by (simpl; lia || done). done.
Qed.

Lemma parse_stringify v : P v.
Proof.
  induction v as [| b | n | str | l IHl | m IHm] using json_ind';
    intros Hx [|f] rest Hf Hr; simpl in Hf; try lia.
  - done.
  - by destruct b.
  - destruct (num_str_head n) as (c & r & Hcr & Hc). cbn [stringify]. rewrite Hcr.
    assert (json_ws c = false /\ (c =? 34) = false /\ (c =? 91) = false /\
            (c =? 123) = false /\ ((c =? 45) || is_digit c) = true)
      as (Hws & H34 & H91 & H123 & Hnum)
      by (destruct Hc as [->|Hc]; [done|];
          rewrite Hc, orb_true_r; by destruct (digit_facts c Hc) as (? & ? & ? & ?)).
    cbn [parse_value app]. rewrite skip_ws_delim, H34, H91, H123, Hnum by done.
    cbn beta iota. change (c :: r ++ rest) with ((c :: r) ++ rest).
    rewrite <- Hcr. by apply parse_num_str.
  - cbn [stringify]. rewrite quote_app. cbn [parse_value]. step_delim.
    by rewrite parse_quote_units.
  - destruct l as [|e l]; [done|]. cbn [stringify map]. rewrite <- !app_assoc.
    cbn [parse_value]. step_delim.
    destruct (join_stringify_head e (map stringify l) (93 :: rest))
      as (c & r & Hcr & Hws & H93).
    rewrite Hcr, skip_ws_delim, (proj2 (N.eqb_neq _ _) H93) by done. cbn beta iota.
    rewrite <- Hcr. cbn [app]. rewrite parse_elems_stringify by (done || simpl in *; lia).
    done.
  - destruct m as [|[k v] m]; [done|]. cbn [stringify map fst snd].
    rewrite <- !app_assoc. cbn [parse_value]. step_delim.
    pose proof (parse_members_stringify k v m f rest IHm Hx) as Hm. cbn [app] in Hm.
    remember (join _ _ ++ 125 :: rest) as T eqn:HT.
    assert (HT' : exists r, T = 34 :: r).
    { destruct (join_app_head [44] (quote k ++ 58 :: stringify v)
                  (map (fun kv => quote kv.1 ++ 58 :: stringify kv.2) m) (125 :: rest))
        as [t' Ht].
      rewrite HT, Ht, <- app_assoc, quote_app. by eexists. }
    destruct HT' as [r HTr]. rewrite HTr, skip_ws_delim by reflexivity. eval_eqb.
    rewrite <- HTr, Hm by (simpl in *; lia). done.
Qed.
End Roundtrip.

Lemma sum_list_with_le {A} (f g : A -> nat) l :
  (forall x, x ∈ l -> f x <= g x)%nat -> (sum_list_with f l <= sum_list_with g l)%nat.
Proof.
  induction l as [|x l IH]; intros H; simpl; [lia|].
  pose proof (H x ltac:(constructor)).
  assert (sum_list_with f l <= sum_list_with g l)%nat
    by (apply IH; intros y Hy; apply H; by constructor).
  lia.
Qed.

Lemma sum_list_with_map {A B} (f : B -> nat) (g : A -> B) l :
  sum_list_with f (map g l) = sum_list_with (fun x => f (g x)) l.
Proof. induction l as [|x l IH]; simpl; [done|]. by rewrite IH. Qed.

Lemma length_join_ge (xs : list jsstr) :
  (sum_list_with (fun x => S (length x)) xs <= S (length (join [44%N] xs)))%nat.
Proof.
  induction xs as [|x [|y xs] IH]; simpl; [lia|lia|].
  simpl in IH. rewrite length_app. simpl. lia.
Qed.

(** Printing never produces less text than the fuel the parser needs. *)
Lemma json_size_le_length v : (json_size v <= length (stringify v))%nat.
Proof.
  induction v as [| [] | n | str | l IHl | m IHm] using json_ind';
    cbn [stringify json_size]; try (simpl; lia).
  - destruct (num_str_head n) as (c & r & -> & _). simpl. lia.
  - rewrite !length_app. cbn [length].
    pose proof (length_join_ge (map stringify l)) as Hj.
    rewrite sum_list_with_map in Hj.
    enough (sum_list_with (fun e => S (json_size e)) l
            <= sum_list_with (fun x => S (length (stringify x))) l)%nat by lia.
    apply sum_list_with_le. intros x Hx. rewrite Forall_forall in IHl.
    specialize (IHl x Hx). lia.
  - rewrite !length_app. cbn [length].
    pose proof (length_join_ge (map (fun kv => quote kv.1 ++ [58%N] ++ stringify kv.2) m))
      as Hj.
    rewrite sum_list_with_map in Hj.
    enough (sum_list_with (fun kv => S (json_size kv.2)) m
            <= sum_list_with
                 (fun kv => S (length (quote kv.1 ++ [58%N] ++ stringify kv.2))) m)%nat
      by lia.
    apply sum_list_with_le. intros [k e] Hx. rewrite Forall_forall in IHm.
    specialize (IHm _ Hx). simpl in IHm.
    unfold quote. rewrite !length_app. simpl. lia.
Qed.

Lemma parse_stored_some t : parse_stored (Some t) = JSON_parse t.
Proof. done. Qed.

(** A stored [stringify] reads back as its value. *)
Lemma parse_stored_stringify v :
  json_exact v = true -> parse_stored (Some (stringify v)) = Ok v.
Proof.
  intros Hx. rewrite parse_stored_some. unfold JSON_parse.
  pose proof (parse_stringify v Hx (S (2 * length (stringify v))) []) as H.
  rewrite app_nil_r in H. rewrite H; [done| |done].
  pose proof (json_size_le_length v). lia.
Qed.

(** ** The numbers [JSON.parse] returns *)

Lemma parse_number_exact s v r : parse_number s = Ok (v, r) -> json_exact v = true.
Proof.
  unfold parse_number, number_end, number_value.
  destruct (take_digits _) as [ds rest]. repeat case_match; by intros; simplify_eq/=.
Qed.

Lemma parse_exact f :
  (forall s v r, parse_value f s = Ok (v, r) -> json_exact v = true) /\
  (forall s l r, parse_elems f s = Ok (l, r) -> forallb json_exact l = true) /\
  (forall s m r, parse_members f s = Ok (m, r) -> forallb (fun kv => json_exact kv.2) m = true).
Proof.
  induction f as [|f (IHv & IHe & IHm)]; [done|].
  split; [|split]; intros s x r; cbn [parse_value parse_elems parse_members]; unfold res_bind;
    repeat case_match; intros Hx; simplify_eq/=; try done;
    try (by eapply parse_number_exact); rewrite ?andb_true_iff; eauto.
Qed.

(** Every number of a value [JSON.parse] returns is within [exact_int]. *)
Lemma JSON_parse_exact t v : JSON_parse t = Ok v -> json_exact v = true.
Proof.
  unfold JSON_parse. destruct (parse_value _ t) as [[v' r]|] eqn:E; simpl; [|done].
  apply (proj1 (parse_exact _)) in E. by case_match; intros; simplify_eq.
Qed.

Lemma parse_stored_exact o v : parse_stored o = Ok v -> json_exact v = true.
Proof. apply JSON_parse_exact. Qed.



(** A literal one past 2^53 is a tie and reads as 2^53; a larger one is
    outside the model. *)
Lemma JSON_parse_rounds :
  JSON_parse ⟪"9007199254740993"⟫ = Ok (JNum max_exact) /\
  JSON_parse ⟪"9007199254740995"⟫ = Throw OutOfModel.
Proof. split; vm_compute; reflexivity. Qed.

End Json.
