(* ===== verification/Extractor.v ===== *)
(** * Content extractor ([script.js] lines 11 and 17-29)

    The page's [.plant-section] elements, as the script reads and writes
    them, and the map that turns each section into a plant record.  A
    section is kept as the texts the extractor queries ([textContent] of its
    first [h2], of each [p], of the [li] of each [ul], of each [ol li]) and
    the two properties the handlers write ([style.display] and the
    [.view-count] label). *)

From S2P Require Import Prelude JsString.
Import JsString.

Module Extractor.

Record section := mk_section {
  sec_id : jsstr;                 (* sec.id *)
  sec_h2 : option jsstr;          (* sec.querySelector('h2')?.textContent *)
  sec_ps : list jsstr;            (* sec.querySelectorAll('p'), textContent *)
  sec_uls : list (list jsstr);    (* sec.querySelectorAll('ul'), li texts *)
  sec_ol_lis : list jsstr;        (* sec.querySelectorAll('ol li'), texts *)
  sec_display : jsstr;            (* sec.style.display *)
  sec_view_count : jsstr          (* sec.querySelector('.view-count').textContent *)
}.

Definition set_display (d : jsstr) (s : section) : section :=
  mk_section (sec_id s) (sec_h2 s) (sec_ps s) (sec_uls s) (sec_ol_lis s) d
    (sec_view_count s).

Definition set_view_count (t : jsstr) (s : section) : section :=
  mk_section (sec_id s) (sec_h2 s) (sec_ps s) (sec_uls s) (sec_ol_lis s)
    (sec_display s) t.

(** The object literal of line 28. *)
Record plant := mk_plant {
  plant_id : jsstr;
  title : jsstr;
  description : jsstr;
  diseases : list jsstr;
  ingredients : list jsstr;
  recipeSteps : list jsstr
}.

(** [x?.textContent.trim() ?? ''] on an optional element. *)
Definition opt_text (o : option jsstr) : jsstr :=
  match o with Some t => trim t | None => [] end.

(** [Array.from(ul?.querySelectorAll('li') ?? []).map(li => ...trim())]. *)
Definition opt_items (o : option (list jsstr)) : list jsstr :=
  match o with Some lis => map trim lis | None => [] end.

(** Lines 17-29, the callback of [map]: the [h2] is required
    ([null.textContent] throws), every other part degrades to empty. *)
Definition extract_plant (sec : section) : res plant :=
  match sec_h2 sec with
  | None => Throw TypeError
  | Some h2 =>
      Ok (mk_plant (sec_id sec) (trim h2)
            (opt_text (sec_ps sec !! 1))
            (opt_items (sec_uls sec !! 0))
            (opt_items (sec_uls sec !! 1))
            (map trim (sec_ol_lis sec)))
  end.

(** [const plants = Array.from(plantSections).map(...)]. *)
Definition extract_plants (secs : list section) : res (list plant) :=
  map_res extract_plant secs.

Definition has_h2 (s : section) : Prop := is_Some (sec_h2 s).

(** ** Lemmas *)

Lemma extract_plant_id sec p : extract_plant sec = Ok p -> plant_id p = sec_id sec.
Proof. unfold extract_plant. destruct (sec_h2 sec); by intros [= <-]. Qed.

Lemma extract_plants_ids secs ps :
  extract_plants secs = Ok ps -> map plant_id ps = map sec_id secs.
Proof.
  unfold extract_plants. revert ps.
  induction secs as [|s secs IH]; intros ps; simpl; [by intros [= <-]|].
  destruct (extract_plant s) as [p|] eqn:E; simpl; [|done].
  destruct (map_res extract_plant secs) as [ps'|]; simpl; [|done].
  intros [= <-]. simpl. by rewrite (extract_plant_id _ _ E), (IH ps').
Qed.

Lemma extract_plants_lookup secs ps i s :
  extract_plants secs = Ok ps -> secs !! i = Some s ->
  exists p, ps !! i = Some p /\ extract_plant s = Ok p.
Proof.
  unfold extract_plants. revert ps i.
  induction secs as [|s' secs IH]; intros ps i; simpl; [done|].
  destruct (extract_plant s') as [p|] eqn:E; simpl; [|done].
  destruct (map_res extract_plant secs) as [ps'|] eqn:E'; simpl; [|done].
  intros [= <-]. destruct i as [|i]; simpl.
  - intros [= <-]. by exists p.
  - by apply IH.
Qed.

Lemma extract_plant_throw sec e :
  extract_plant sec = Throw e <-> e = TypeError /\ sec_h2 sec = None.
Proof.
  unfold extract_plant. destruct (sec_h2 sec); split.
  - done.
  - by intros [_ ?].
  - by intros [= <-].
  - by intros [-> _].
Qed.

(** Rewriting the display or the view label of sections changes nothing
    the extractor reads. *)
Lemma extract_plants_map f secs :
  (forall s, extract_plant (f s) = extract_plant s) -> extract_plants (map f secs) = extract_plants secs.
Proof.
  intros Hf. unfold extract_plants. induction secs as [|s secs IH]; simpl; [done|].
  by rewrite Hf, IH.
Qed.

Lemma extract_plants_insert secs k s s' :
  secs !! k = Some s -> extract_plant s' = extract_plant s ->
  extract_plants (<[k := s']> secs) = extract_plants secs.
Proof.
  unfold extract_plants. revert k. induction secs as [|x secs IH]; intros [|k]; simpl; try done.
  - intros [= ->] ->. done.
  - intros Hk Hs. by rewrite (IH k Hk Hs).
Qed.

(** C40: building the plant list fails exactly when some section has no
    [h2] heading, and then with a [TypeError]; a missing paragraph or list
    never raises (it degrades to an empty value). *)
Theorem extract_plants_throw_iff secs e :
  extract_plants secs = Throw e <-> e = TypeError /\ exists s, s ∈ secs /\ sec_h2 s = None.
Proof.
  unfold extract_plants. induction secs as [|s secs IH]; simpl.
  - split; [done|]. intros [_ (s & Hs%elem_of_nil & _)]. done.
  - destruct (extract_plant s) as [p|e'] eqn:E; simpl.
    + destruct (map_res extract_plant secs) as [ps|e''] eqn:E'; simpl.
      * split; [done|]. intros [-> (s' & Hs' & Hn)].
        apply elem_of_cons in Hs' as [->|Hs'].
        -- unfold extract_plant in E. by rewrite Hn in E.
        -- by pose proof (proj2 IH (conj eq_refl (ex_intro _ s' (conj Hs' Hn)))).
      * rewrite IH. split; intros [-> (s' & Hs' & Hn)]; split; try done;
          exists s'; [by split; [constructor|]|].
        apply elem_of_cons in Hs' as [->|]; [|done].
        unfold extract_plant in E. by rewrite Hn in E.
    + apply extract_plant_throw in E as [-> Hn]. split.
      * intros [= <-]. split; [done|]. exists s. split; [constructor|done].
      * intros [-> _]. done.
Qed.

Lemma extract_plants_throw_iff_witness :
  extract_plants [mk_section ⟪"ruda"⟫ (Some ⟪"Ruda"⟫) [] [] [] ⟪""⟫ ⟪""⟫; mk_section ⟪"x"⟫ None [] [] [] ⟪""⟫ ⟪""⟫]
  = Throw TypeError.
Proof.
  apply extract_plants_throw_iff. split; [done|].
  exists (mk_section ⟪"x"⟫ None [] [] [] ⟪""⟫ ⟪""⟫). split; [|reflexivity].
  apply elem_of_cons. right. apply list_elem_of_singleton. reflexivity.
Defined.

#[export] Hint Resolve extract_plant_id : js.

End Extractor.
