(* ===== verification/Search.v ===== *)
(** * Search filter ([script.js] lines 86-94)

    [performSearch], the [input] listener of the search box: the query is
    lower-cased and trimmed, and every section is shown ([display = '']) or
    hidden ([display = 'none']) according to whether the query occurs in
    the lower-cased text of its plant. *)

From S2P Require Import Prelude JsString Extractor.
Import JsString Extractor.

Module Search.

(** [plants.find(p => p.id === sec.id)]. *)
Definition find_plant (plants : list plant) (i : jsstr) : option plant :=
  find (fun p => bool_decide (plant_id p = i)) plants.

(** Line 90: the searchable text of a plant. *)
Definition searchable (p : plant) : jsstr :=
  toLowerCase (title p ++ ⟪" "⟫ ++ description p ++ ⟪" "⟫
               ++ join ⟪" "⟫ (diseases p) ++ ⟪" "⟫ ++ join ⟪" "⟫ (ingredients p)).

(** Line 91: the display value chosen for a plant. *)
Definition verdict (query : jsstr) (p : plant) : jsstr :=
  if bool_decide (query = []) || includes (searchable p) query then ⟪""⟫ else ⟪"none"⟫.

(** Lines 89-91, the [forEach] callback; a section whose id has no plant
    makes [plant.title] throw. *)
Definition search_section (query : jsstr) (plants : list plant) (sec : section)
  : res section :=
  match find_plant plants (sec_id sec) with
  | None => Throw TypeError
  | Some p => Ok (set_display (verdict query p) sec)
  end.

(** Lines 86-93. *)
Definition query_of (value : jsstr) : jsstr := trim (toLowerCase value).

Definition performSearch (value : jsstr) (plants : list plant) (secs : list section)
  : list section * option exn :=
  for_each_res (search_section (query_of value) plants) secs.

Definition shown (s : section) : Prop := sec_display s <> ⟪"none"⟫.

(** The per-section result of a search that finds the section's plant. *)
Definition search_result (q : jsstr) (plants : list plant) (s : section) : section :=
  match find_plant plants (sec_id s) with
  | Some p => set_display (verdict q p) s
  | None => s
  end.

(** A two-section catalogue used by the examples below. *)
Module Sample.
Definition manzanilla : section :=
  mk_section ⟪"manzanilla"⟫ (Some ⟪" Manzanilla "⟫)
    [⟪"Matricaria chamomilla"⟫; ⟪"Calma el estómago."⟫]
    [[⟪"Insomnio"⟫; ⟪"Gastritis"⟫]; [⟪"Flores secas"⟫; ⟪"Agua"⟫]]
    [⟪"Hervir el agua."⟫; ⟪"Reposar 5 minutos."⟫] ⟪""⟫ ⟪"0 vista"⟫.
Definition romero : section :=
  mk_section ⟪"romero"⟫ (Some ⟪"Romero"⟫)
    [⟪"Salvia rosmarinus"⟫; ⟪"Estimula la memoria."⟫]
    [[⟪"Fatiga"⟫]; [⟪"Hojas de romero"⟫]]
    [⟪"Infusionar."⟫] ⟪""⟫ ⟪"2 vistas"⟫.
Definition secs : list section := [manzanilla; romero].
Definition plants : list plant :=
  match extract_plants secs with Ok ps => ps | Throw _ => [] end.
End Sample.

(** ** Lemmas *)

Lemma find_plant_nodup plants i p :
  NoDup (map plant_id plants) -> plants !! i = Some p ->
  find_plant plants (plant_id p) = Some p.
Proof.
  unfold find_plant. revert i.
  induction plants as [|q plants IH]; intros i Hnd Hi; [done|].
  simpl in *. apply NoDup_cons in Hnd as [Hq Hnd].
  destruct i as [|i]; simpl in Hi.
  - injection Hi as ->. by rewrite bool_decide_eq_true_2.
  - rewrite bool_decide_eq_false_2; [by eapply IH|].
    intros Heq. apply Hq. rewrite Heq.
    apply list_elem_of_lookup. exists i. by rewrite list_lookup_fmap, Hi.
Qed.

Lemma verdict_cases q p : verdict q p = ⟪""⟫ \/ verdict q p = ⟪"none"⟫.
Proof. unfold verdict. destruct (_ || _); auto. Qed.

Lemma verdict_shown q p s :
  shown (set_display (verdict q p) s) <-> q = [] \/ substring_of q (searchable p).
Proof.
  unfold shown, verdict. simpl. rewrite <- includes_spec.
  destruct (bool_decide (q = [])) eqn:E; simpl.
  - apply bool_decide_eq_true in E. split; [by left|]. intros _. vm_compute. done.
  - apply bool_decide_eq_false in E.
    destruct (includes (searchable p) q); simpl; [|split; [by intros []|by intros [?|?]]].
    split; [by right|]. intros _. vm_compute. done.
Qed.

Lemma search_section_result q plants s :
  is_Some (find_plant plants (sec_id s)) ->
  search_section q plants s = Ok (search_result q plants s).
Proof. unfold search_section, search_result. by intros [p ->]. Qed.

Section OnExtractedPage.
Context (secs : list section) (plants : list plant).
Hypothesis Hext : extract_plants secs = Ok plants.
Hypothesis Hnd : NoDup (map sec_id secs).

Lemma find_plant_section i s p :
  secs !! i = Some s -> plants !! i = Some p -> find_plant plants (sec_id s) = Some p.
Proof.
  intros Hs Hp.
  destruct (extract_plants_lookup _ _ _ _ Hext Hs) as (p' & Hp' & Hx).
  rewrite Hp in Hp'. injection Hp' as <-.
  rewrite <- (extract_plant_id _ _ Hx). eapply find_plant_nodup; [|done].
  by rewrite (extract_plants_ids _ _ Hext).
Qed.

Lemma find_plant_elem s : s ∈ secs -> exists p, find_plant plants (sec_id s) = Some p.
Proof.
  intros (i & Hs)%list_elem_of_lookup.
  destruct (extract_plants_lookup _ _ _ _ Hext Hs) as (p & Hp & _).
  exists p. by eapply find_plant_section.
Qed.

Lemma sec_id_search_result q s : sec_id (search_result q plants s) = sec_id s.
Proof. unfold search_result. by destruct (find_plant _ _). Qed.

Lemma search_result_lookup q i s p :
  secs !! i = Some s -> plants !! i = Some p ->
  map (search_result q plants) secs !! i = Some (set_display (verdict q p) s).
Proof.
  intros Hs Hp. rewrite list_lookup_fmap, Hs. simpl. unfold search_result.
  by rewrite (find_plant_section i s p Hs Hp).
Qed.

Lemma search_result_twice q q' s :
  s ∈ secs -> search_result q plants (search_result q' plants s) = search_result q plants s.
Proof.
  intros Hs. destruct (find_plant_elem s Hs) as (p & Hp).
  unfold search_result at 2. rewrite Hp. unfold search_result. simpl. by rewrite Hp.
Qed.

Lemma performSearch_map v :
  performSearch v plants secs = (map (search_result (query_of v) plants) secs, None).
Proof.
  apply for_each_res_ext. intros s Hs. apply search_section_result.
  by destruct (find_plant_elem s Hs) as (p & ->).
Qed.
End OnExtractedPage.

(** C1: after an input event with value [v], every section of the page is
    shown exactly when the lower-cased, trimmed query is empty or occurs in
    the lower-cased text "title description tags ingredients" of its own
    plant; no exception is raised and nothing but [style.display] changes. *)
Theorem search_visible_iff secs plants v i s p :
  extract_plants secs = Ok plants -> NoDup (map sec_id secs) ->
  secs !! i = Some s -> plants !! i = Some p ->
  (performSearch v plants secs).2 = None /\
  exists s', (performSearch v plants secs).1 !! i = Some s' /\
    s' = set_display (sec_display s') s /\
    (shown s' <-> query_of v = [] \/ substring_of (query_of v) (searchable p)).
Proof.
  intros Hext Hnd Hs Hp. rewrite (performSearch_map _ _ Hext Hnd). split; [done|].
  eexists. split; [by eapply search_result_lookup|]. split; [done|].
  apply verdict_shown.
Qed.

Lemma search_visible_iff_witness :
  exists s', (performSearch ⟪"  ESTÓMAGO "⟫ Sample.plants Sample.secs).1 !! 0 = Some s'
             /\ shown s'.
Proof.
  assert (Hext : extract_plants Sample.secs = Ok Sample.plants) by (vm_compute; reflexivity).
  assert (Hnd : NoDup (map sec_id Sample.secs))
    by (apply (bool_decide_unpack _); vm_compute; exact I).
  assert (Hp : Sample.plants !! 0 = Some (mk_plant ⟪"manzanilla"⟫ ⟪"Manzanilla"⟫
                 ⟪"Calma el estómago."⟫ [⟪"Insomnio"⟫; ⟪"Gastritis"⟫]
                 [⟪"Flores secas"⟫; ⟪"Agua"⟫] [⟪"Hervir el agua."⟫; ⟪"Reposar 5 minutos."⟫]))
    by (vm_compute; reflexivity).
  destruct (search_visible_iff _ _ ⟪"  ESTÓMAGO "⟫ 0 Sample.manzanilla _ Hext Hnd
              eq_refl Hp) as (_ & s' & Hl & _ & Hiff).
  exists s'. split; [done|]. apply Hiff. right. apply includes_spec.
  vm_compute. reflexivity.
Defined.

(** The search ignores letter case and surrounding white space:
    typing [w1 ++ v ++ w2] with white space [w1], [w2] around [v], in any
    case, filters exactly as [v]. *)
Theorem search_case_ws_insensitive w1 v w2 plants secs :
  all_ws w1 -> all_ws w2 ->
  performSearch (w1 ++ toLowerCase v ++ w2) plants secs = performSearch v plants secs.
Proof.
  intros H1 H2. unfold performSearch, query_of.
  by rewrite trim_lower_ws, toLowerCase_idem.
Qed.

(** C39: the query [performSearch] filters with is the reference
    normalisation of the spec: [query_of v = q] exactly when the lower-cased
    input is [q] with a white-space prefix and a white-space suffix added,
    and [q] neither starts nor ends with white space. *)
Theorem query_of_iff v q :
  query_of v = q <->
  exists w1 w2, all_ws w1 /\ all_ws w2 /\ toLowerCase v = w1 ++ q ++ w2 /\
                edge_nows (head q) /\ edge_nows (last q).
Proof.
  unfold query_of. split.
  - intros <-. destruct (trim_split (toLowerCase v)) as (w1 & w2 & ? & ? & ?).
    exists w1, w2. split_and!; try done; [apply trim_head|apply trim_last].
  - intros (w1 & w2 & H1 & H2 & -> & Hh & Hl). by rewrite trim_ws_l, trim_ws_r, trim_id.
Qed.

Lemma query_of_iff_witness :
  query_of ⟪" Romero	"⟫ = ⟪"romero"⟫.
Proof.
  apply (proj2 (query_of_iff ⟪" Romero	"⟫ ⟪"romero"⟫)).
  exists ⟪" "⟫, ⟪"	"⟫. split_and!; vm_compute; repeat constructor.
Defined.

Lemma search_case_ws_insensitive_witness :
  performSearch ⟪" "⟫ Sample.plants Sample.secs = performSearch ⟪""⟫ Sample.plants Sample.secs
  /\ performSearch (⟪" "⟫ ++ toLowerCase ⟪"ROMERO"⟫ ++ ⟪"	"⟫) Sample.plants Sample.secs
     = performSearch ⟪"ROMERO"⟫ Sample.plants Sample.secs.
Proof.
  split.
  - apply (search_case_ws_insensitive ⟪" "⟫ [] []); vm_compute; repeat constructor.
  - apply search_case_ws_insensitive; vm_compute; repeat constructor.
Defined.

(** Refining the query never reveals a section: when the query of [v1]
    occurs in the query of [v2], every section shown after searching [v2]
    is also shown after searching [v1]. *)
Theorem search_narrowing secs plants v1 v2 i s1 s2 :
  extract_plants secs = Ok plants -> NoDup (map sec_id secs) ->
  substring_of (query_of v1) (query_of v2) ->
  (performSearch v1 plants secs).1 !! i = Some s1 ->
  (performSearch v2 plants secs).1 !! i = Some s2 ->
  shown s2 -> shown s1.
Proof.
  intros Hext Hnd Hsub. rewrite !(performSearch_map _ _ Hext Hnd). simpl.
  rewrite !list_lookup_fmap. destruct (secs !! i) as [s|] eqn:Hs; [|done].
  destruct (extract_plants_lookup _ _ _ _ Hext Hs) as (p & Hp & _).
  simpl. unfold search_result. rewrite (find_plant_section _ _ Hext Hnd i s p Hs Hp).
  intros [= <-] [= <-]. rewrite !verdict_shown. intros [Hq|Hq].
  - rewrite Hq in Hsub. destruct Hsub as (a & b & Hab).
    left. symmetry in Hab. by apply app_nil in Hab as [_ [? _]%app_nil].
  - right. by eapply substring_of_trans.
Qed.

Lemma search_narrowing_witness :
  exists s1 s2, (performSearch ⟪"hoj"⟫ Sample.plants Sample.secs).1 !! 1 = Some s1 /\
    (performSearch ⟪"Hojas de"⟫ Sample.plants Sample.secs).1 !! 1 = Some s2 /\
    shown s1.
Proof.
  do 2 eexists. split; [vm_compute; reflexivity|]. split; [vm_compute; reflexivity|].
  eapply (search_narrowing Sample.secs Sample.plants ⟪"hoj"⟫ ⟪"Hojas de"⟫ 1).
  - vm_compute. reflexivity.
  - apply (bool_decide_unpack _). vm_compute. exact I.
  - exists [], ⟪"as de"⟫. vm_compute. reflexivity.
  - vm_compute. reflexivity.
  - vm_compute. reflexivity.
  - vm_compute. discriminate.
Defined.

(** Each search is computed from scratch: searching [v] after any
    earlier search [v'] leaves the page exactly as searching [v] on the
    freshly loaded page. *)
Theorem search_from_scratch secs plants v v' :
  extract_plants secs = Ok plants -> NoDup (map sec_id secs) ->
  performSearch v plants (performSearch v' plants secs).1 = performSearch v plants secs.
Proof.
  intros Hext Hnd. rewrite !(performSearch_map _ _ Hext Hnd). simpl.
  unfold performSearch. rewrite (for_each_res_ext _ (search_result (query_of v) plants)).
  - rewrite map_map. f_equal. apply map_ext_in. intros s Hs%list_elem_of_In.
    by apply (search_result_twice _ _ Hext Hnd).
  - intros x (s & -> & Hs)%list_elem_of_fmap. apply search_section_result.
    rewrite sec_id_search_result. by destruct (find_plant_elem _ _ Hext Hnd s Hs) as (p & ->).
Qed.

Lemma search_from_scratch_witness :
  performSearch ⟪"romero"⟫ Sample.plants
    (performSearch ⟪"agua"⟫ Sample.plants Sample.secs).1
  = performSearch ⟪"romero"⟫ Sample.plants Sample.secs.
Proof.
  apply search_from_scratch.
  - vm_compute. reflexivity.
  - apply (bool_decide_unpack _). vm_compute. exact I.
Defined.

End Search.
