(* ===== verification/Favorites.v ===== *)
(** * Favourites tracker ([script.js] lines 33-62)

    The [favorites] array (loaded from the [plantFavorites] item of
    [localStorage] with [JSON.parse(...) || []]), the [#fav-count] label,
    and the [.favorite-btn] buttons with their heart icon ([<i>] with the
    classes [fas] (filled) or [far] (outline)).  [localStorage] is a finite
    map from keys to strings.  The array holds JSON values: whatever the
    stored text contained, compared with the plant id by [===].  The
    [setItem] of a click may be refused by the user agent, which the
    handler does not catch. *)

From S2P Require Import Prelude JsString Json.
Import JsString Json.

Module Favorites.

Definition key : jsstr := ⟪"plantFavorites"⟫.

(** The two classes of a heart icon that the script reads and writes. *)
Record icon := mk_icon { fas : bool; far : bool }.

(** [classList.replace('far', 'fas')] and [classList.replace('fas', 'far')]:
    nothing happens when the old class is absent. *)
Definition fill (h : icon) : icon := if far h then mk_icon true false else h.
Definition hollow (h : icon) : icon := if fas h then mk_icon false true else h.

Record fav_btn := mk_fav_btn {
  fb_id : jsstr;             (* btn.dataset.id *)
  fb_heart : option icon     (* btn.querySelector('i'), null when absent *)
}.

Record fav_state := mk_fav_state {
  favorites : list json;     (* let favorites *)
  fav_count : jsstr;         (* favCountSpan.textContent *)
  fav_btns : list fav_btn    (* favoriteBtns *)
}.

(** [v === plantId] for an element of the array. *)
Definition same_id (plantId : jsstr) (v : json) : bool :=
  match v with JStr s => bool_decide (s = plantId) | _ => false end.

(** [favorites.includes(plantId)]. *)
Definition includes_id (favs : list json) (plantId : jsstr) : bool :=
  existsb (same_id plantId) favs.

(** The array after the toggle: [filter] out every copy, or [push]. *)
Definition toggled (favs : list json) (plantId : jsstr) : list json :=
  if includes_id favs plantId
  then filter (fun v => negb (same_id plantId v)) favs
  else favs ++ [JStr plantId].

(** [updateFavCount], lines 35-37: [textContent = favorites.length]. *)
Definition count_text (favs : list json) : jsstr := num_str (Z.of_nat (length favs)).

(** A page with two favourite buttons and an empty store. *)
Module Sample.
Definition btns : list fav_btn :=
  [mk_fav_btn ⟪"manzanilla"⟫ (Some (mk_icon false true));
   mk_fav_btn ⟪"romero"⟫ (Some (mk_icon false true))].
Definition state : fav_state := mk_fav_state [] ⟪"0"⟫ btns.
(** The same page where the second button lost its icon. *)
Definition broken : fav_state :=
  mk_fav_state [] ⟪"0"⟫ [mk_fav_btn ⟪"manzanilla"⟫ (Some (mk_icon false true));
                         mk_fav_btn ⟪"romero"⟫ None].
End Sample.

Section WithStorage.
Context `{SP : StoragePolicy}.

(** [toggleFavorite(id, btn)], lines 40-51, called by the click listener
    of the button at index [i] (lines 58-61; [None] when there is no such
    button, hence no listener).  When the button has no [<i>],
    [heart.classList] throws after the array was changed, so nothing is
    persisted and the count is not updated; when the agent refuses the
    [setItem] of line 49, the heart is already changed and the count is
    not updated either. *)
Definition toggleFavorite (i : nat) (s : fav_state) (st : store)
  : option (fav_state * store * option exn) :=
  btn ← fav_btns s !! i;
  let plantId := fb_id btn in
  let favs' := toggled (favorites s) plantId in
  Some match fb_heart btn with
  | None => (mk_fav_state favs' (fav_count s) (fav_btns s), st, Some TypeError)
  | Some h =>
      let h' := if includes_id (favorites s) plantId then hollow h else fill h in
      let btns' := <[i := mk_fav_btn plantId (Some h')]> (fav_btns s) in
      match setItem key (stringify (JArr favs')) st with
      | Ok st' => (mk_fav_state favs' (count_text favs') btns', st', None)
      | Throw e => (mk_fav_state favs' (fav_count s) btns', st, Some e)
      end
  end.

(** Line 33: [JSON.parse(localStorage.getItem('plantFavorites')) || []].
    A truthy value that is not an array is outside the model. *)
Definition load_favorites (st : store) : res (list json) :=
  let! v := parse_stored (st !! key) in
  if truthy v then match v with JArr l => Ok l | _ => Throw OutOfModel end
  else Ok [].

(** Lines 53-57: a button whose id is a favourite gets a filled heart. *)
Definition init_btn (favs : list json) (btn : fav_btn) : res fav_btn :=
  if includes_id favs (fb_id btn) then
    match fb_heart btn with
    | Some h => Ok (mk_fav_btn (fb_id btn) (Some (fill h)))
    | None => Throw TypeError
    end
  else Ok btn.

(** Lines 33-38 and 53-62: load, show the count, mark the buttons. *)
Definition init_favorites (st : store) (btns : list fav_btn) : res fav_state :=
  let! favs := load_favorites st in
  let '(btns', e) := for_each_res (init_btn favs) btns in
  match e with
  | Some e => Throw e
  | None => Ok (mk_fav_state favs (count_text favs) btns')
  end.

(** A heart shows the membership of its id. *)
Definition heart_ok (favs : list json) (btn : fav_btn) : Prop :=
  match fb_heart btn with
  | Some h => fas h = includes_id favs (fb_id btn) /\ far h = negb (includes_id favs (fb_id btn))
  | None => False
  end.

Definition hearts_ok (favs : list json) (btns : list fav_btn) : Prop :=
  Forall (heart_ok favs) btns.

Definition outline (btn : fav_btn) : Prop := fb_heart btn = Some (mk_icon false true).


(** ** Lemmas *)

Lemma same_id_spec p v : same_id p v = true <-> v = JStr p.
Proof.
  destruct v; simpl; try (split; discriminate).
  rewrite bool_decide_eq_true. split; [by intros ->|by intros [= ->]].
Qed.

Lemma includes_id_spec favs p : includes_id favs p = true <-> JStr p ∈ favs.
Proof.
  unfold includes_id. rewrite existsb_exists, list_elem_of_In. split.
  - intros (v & Hv & ->%same_id_spec). done.
  - intros Hp. exists (JStr p). split; [done|]. by apply same_id_spec.
Qed.

Lemma same_id_str p x : same_id p (JStr x) = bool_decide (x = p).
Proof. done. Qed.

Lemma includes_id_filter favs p x :
  includes_id (filter (fun v => negb (same_id p v)) favs) x
  = includes_id favs x && negb (bool_decide (x = p)).
Proof.
  unfold includes_id. induction favs as [|v favs IH]; simpl; [done|].
  rewrite filter_cons. destruct (same_id p v) eqn:Ev; simpl.
  - apply same_id_spec in Ev as ->. rewrite IH, same_id_str.
    destruct (bool_decide (x = p)) eqn:E; simpl; [by rewrite !andb_false_r|].
    apply bool_decide_eq_false in E. rewrite bool_decide_eq_false_2; [done|congruence].
  - rewrite IH. destruct (same_id x v) eqn:Ex; simpl; [|done].
    apply same_id_spec in Ex as ->. rewrite same_id_str in Ev.
    by destruct (bool_decide (x = p)).
Qed.

(** Membership of every id after a toggle of [p]. *)
Lemma includes_id_toggled favs p x :
  includes_id (toggled favs p) x =
  if bool_decide (x = p) then negb (includes_id favs p) else includes_id favs x.
Proof.
  unfold toggled. destruct (includes_id favs p) eqn:Hp.
  - rewrite includes_id_filter. case_bool_decide; [subst; simpl; apply andb_false_r|].
    simpl. apply andb_true_r.
  - unfold includes_id in *. rewrite existsb_app. simpl. rewrite orb_false_r.
    destruct (decide (x = p)) as [->|Hne].
    + rewrite !bool_decide_eq_true_2 by done. by rewrite Hp.
    + rewrite !bool_decide_eq_false_2 by congruence. apply orb_false_r.
Qed.

(** The array saved reads back, when JavaScript holds its numbers
    exactly; every array the page loads does. *)
Lemma load_favorites_stringify st favs :
  forallb json_exact favs = true -> load_favorites (<[key := stringify (JArr favs)]> st) = Ok favs.
Proof.
  intros Hx. unfold load_favorites. by rewrite lookup_insert_eq, parse_stored_stringify.
Qed.

Lemma load_favorites_exact st favs : load_favorites st = Ok favs -> forallb json_exact favs = true.
Proof.
  unfold load_favorites. destruct (parse_stored _) as [v|] eqn:E; simpl; [|done].
  apply parse_stored_exact in E. destruct (truthy v); [|by intros [= <-]].
  destruct v; try done. by intros [= <-].
Qed.

Lemma toggled_exact favs p :
  forallb json_exact favs = true -> forallb json_exact (toggled favs p) = true.
Proof.
  unfold toggled. intros H. destruct (includes_id favs p).
  - induction favs as [|v favs IH]; [done|]. simpl in H. apply andb_true_iff in H as [Hv H].
    rewrite filter_cons. case_match; simpl; [rewrite Hv; simpl|]; by apply IH.
  - by rewrite forallb_app, H.
Qed.

Lemma heart_ok_other favs p btn :
  fb_id btn <> p -> heart_ok (toggled favs p) btn <-> heart_ok favs btn.
Proof.
  intros Hne. unfold heart_ok. rewrite includes_id_toggled, bool_decide_eq_false_2 by done.
  done.
Qed.

Lemma toggleFavorite_ok i s st s' st' :
  toggleFavorite i s st = Some (s', st', None) ->
  exists btn h, fav_btns s !! i = Some btn /\ fb_heart btn = Some h /\
    favorites s' = toggled (favorites s) (fb_id btn) /\
    fav_count s' = count_text (favorites s') /\
    fav_btns s' = <[i := mk_fav_btn (fb_id btn)
                     (Some (if includes_id (favorites s) (fb_id btn) then hollow h else fill h))]>
                  (fav_btns s) /\
    st' = <[key := stringify (JArr (favorites s'))]> st.
Proof.
  unfold toggleFavorite. destruct (fav_btns s !! i) as [btn|] eqn:Hb; [|done]. simpl.
  destruct (fb_heart btn) as [h|] eqn:Hh; [|done].
  destruct (setItem _ _ st) as [st1|] eqn:Hw; [|done]. intros [= <- <-].
  exists btn, h. split_and!; try done. by apply setItem_Ok in Hw.
Qed.

(** C3: after a successful click on a heart of an array whose numbers
    JavaScript holds exactly (every array the page loads), [localStorage]
    holds the JSON text of the in-memory array, reading it back (as the
    next page load does) gives that array, the count label shows its
    length, and no other key of the store changes. *)
Theorem toggle_persists i s st s' st' :
  json_exact (JArr (favorites s)) = true ->
  toggleFavorite i s st = Some (s', st', None) ->
  st' !! key = Some (stringify (JArr (favorites s'))) /\
  load_favorites st' = Ok (favorites s') /\
  fav_count s' = count_text (favorites s') /\
  (forall k, k <> key -> st' !! k = st !! k).
Proof.
  intros Hx (btn & h & _ & _ & Hf & Hc & _ & ->)%toggleFavorite_ok.
  split; [apply lookup_insert_eq|].
  split; [apply load_favorites_stringify; rewrite Hf; by apply toggled_exact|].
  split; [done|]. intros k Hk. by apply lookup_insert_ne.
Qed.

Lemma toggleFavorite_btn i s st r :
  toggleFavorite i s st = Some r ->
  exists btn, fav_btns s !! i = Some btn /\ favorites r.1.1 = toggled (favorites s) (fb_id btn).
Proof.
  unfold toggleFavorite. destruct (fav_btns s !! i) as [btn|]; [|done]. simpl.
  intros [= <-]. exists btn. split; [done|]. destruct (fb_heart btn); [|done]. simpl. by case_match.
Qed.



Lemma heart_ok_clicked favs btn h :
  fb_heart btn = Some h -> heart_ok favs btn ->
  heart_ok (toggled favs (fb_id btn))
    (mk_fav_btn (fb_id btn) (Some (if includes_id favs (fb_id btn) then hollow h else fill h))).
Proof.
  unfold heart_ok. intros -> [Hs Hr]. simpl. rewrite includes_id_toggled, bool_decide_eq_true_2
    by done.
  destruct (includes_id favs (fb_id btn)); destruct h as [[] []]; simpl in *; by subst.
Qed.

(** C17: when the hearts show the membership of their ids and no two
    buttons share an id, a successful click keeps every heart in step with
    the array. *)
Theorem toggle_hearts_ok i s st s' st' :
  NoDup (fb_id <$> fav_btns s) -> hearts_ok (favorites s) (fav_btns s) ->
  toggleFavorite i s st = Some (s', st', None) ->
  NoDup (fb_id <$> fav_btns s') /\ hearts_ok (favorites s') (fav_btns s').
Proof.
  intros Hnd Hok (btn & h & Hb & Hh & Hf & _ & Hbtns & _)%toggleFavorite_ok.
  rewrite Hbtns, Hf. split.
  - rewrite list_fmap_insert. simpl. rewrite list_insert_id; [done|].
    by rewrite list_lookup_fmap, Hb.
  - apply Forall_lookup. intros j b Hj. destruct (decide (i = j)) as [<-|Hne].
    + rewrite list_lookup_insert_eq in Hj by (by eapply lookup_lt_Some). injection Hj as <-.
      apply heart_ok_clicked; [done|]. by eapply Forall_lookup_1.
    + rewrite list_lookup_insert_ne in Hj by done. apply heart_ok_other.
      * intros Heq. apply Hne. eapply NoDup_lookup; [exact Hnd|..];
          rewrite list_lookup_fmap; [rewrite Hb|rewrite Hj]; simpl; [done|by rewrite Heq].
      * by eapply Forall_lookup_1.
Qed.

(** A toggle always changes the array. *)
Lemma toggled_changes favs p : toggled favs p <> favs.
Proof.
  intros Heq. pose proof (f_equal (fun l => includes_id l p) Heq) as E. simpl in E.
  rewrite includes_id_toggled, bool_decide_eq_true_2 in E by done.
  by destruct (includes_id favs p).
Qed.

(** C29: when the clicked button has no [<i>] icon, the handler throws a
    [TypeError] after changing the array: the store keeps the old text, so
    the persisted favourites no longer match the ones in memory. *)
Theorem toggle_missing_icon i s st btn :
  fav_btns s !! i = Some btn -> fb_heart btn = None ->
  load_favorites st = Ok (favorites s) ->
  exists s', toggleFavorite i s st = Some (s', st, Some TypeError) /\
    favorites s' = toggled (favorites s) (fb_id btn) /\
    load_favorites st <> Ok (favorites s').
Proof.
  intros Hb Hh Hl. unfold toggleFavorite. rewrite Hb. simpl. rewrite Hh.
  eexists. split; [done|]. split; [done|]. rewrite Hl. intros [= Heq].
  by apply (toggled_changes (favorites s) (fb_id btn)).
Qed.

(** C30: when the agent refuses the write of line 49, the click throws a
    [QuotaExceeded] after changing the array and the heart: the count label
    keeps the old number and the store the old text, so the next page load
    shows the favourites as they were before the click. *)
Theorem toggle_refused i s st btn h :
  fav_btns s !! i = Some btn -> fb_heart btn = Some h ->
  st !! key <> Some (stringify (JArr (toggled (favorites s) (fb_id btn)))) ->
  SP (<[key := stringify (JArr (toggled (favorites s) (fb_id btn)))]> st) = false ->
  load_favorites st = Ok (favorites s) ->
  exists s', toggleFavorite i s st = Some (s', st, Some QuotaExceeded) /\
    favorites s' = toggled (favorites s) (fb_id btn) /\
    fav_count s' = fav_count s /\ load_favorites st <> Ok (favorites s').
Proof.
  intros Hb Hh Hk Hq Hl. unfold toggleFavorite. rewrite Hb. simpl. rewrite Hh.
  rewrite setItem_refused by done. eexists. split_and!; [done|done|done|].
  rewrite Hl. intros [= Heq]. by apply (toggled_changes (favorites s) (fb_id btn)).
Qed.

(** C31: a [plantFavorites] item that is not JSON text makes [JSON.parse]
    throw, and the exception aborts the initialisation of the favourites
    (and with it the rest of the page script), instead of falling back to
    an empty list. *)
Theorem malformed_favorites_abort t st btns :
  JSON_parse t = Throw SyntaxError ->
  init_favorites (<[key := t]> st) btns = Throw SyntaxError.
Proof.
  intros Ht. unfold init_favorites, load_favorites.
  by rewrite lookup_insert_eq, parse_stored_some, Ht.
Qed.

Lemma init_btn_outline favs b b' :
  outline b -> init_btn favs b = Ok b' -> heart_ok favs b'.
Proof.
  unfold outline, init_btn, heart_ok. intros Hb.
  destruct (includes_id favs (fb_id b)) eqn:E.
  - rewrite Hb. intros [= <-]. simpl. by rewrite E.
  - intros [= <-]. rewrite Hb. simpl. by rewrite E.
Qed.

(** C35: when every heart starts as an outline (the page's markup), a
    successful initialisation leaves every heart showing the membership
    of its id, and the count label showing the length of the array. *)
Theorem init_hearts_ok st btns s :
  Forall outline btns -> init_favorites st btns = Ok s ->
  hearts_ok (favorites s) (fav_btns s) /\ fav_count s = count_text (favorites s).
Proof.
  unfold init_favorites. intros Hout.
  destruct (load_favorites st) as [favs|e]; simpl; [|done].
  destruct (for_each_res (init_btn favs) btns) as [btns' [e|]] eqn:E; [done|].
  intros [= <-]. simpl. split; [|done].
  apply for_each_res_none in E. unfold hearts_ok.
  induction E as [|b b' bs bs' Hb _ IH]; constructor.
  - apply Forall_cons in Hout as [Hb' _]. by eapply init_btn_outline.
  - apply IH. by apply Forall_cons in Hout as [_ ?].
Qed.

End WithStorage.

(** ** Witnesses, on an agent with room for anything *)

Section Witnesses.
#[local] Existing Instance unlimited.

(** The sample page after a click on its second heart. *)
Definition sample_clicked : fav_state :=
  mk_fav_state [JStr ⟪"romero"⟫] ⟪"1"⟫
    [mk_fav_btn ⟪"manzanilla"⟫ (Some (mk_icon false true));
     mk_fav_btn ⟪"romero"⟫ (Some (mk_icon true false))].

Lemma sample_click :
  toggleFavorite 1 Sample.state ∅ =
  Some (sample_clicked, <[key := stringify (JArr [JStr ⟪"romero"⟫])]> ∅, None).
Proof. vm_compute. reflexivity. Qed.

Lemma toggle_persists_witness :
  exists s' st', toggleFavorite 1 Sample.state ∅ = Some (s', st', None) /\
    load_favorites st' = Ok (favorites s').
Proof.
  pose proof sample_click as E.
  do 2 eexists. split; [exact E|].
  exact (proj1 (proj2 (toggle_persists 1 Sample.state ∅ _ _ eq_refl E))).
Defined.



Lemma toggle_hearts_ok_witness :
  exists s' st', toggleFavorite 1 Sample.state ∅ = Some (s', st', None) /\
    hearts_ok (favorites s') (fav_btns s').
Proof.
  pose proof sample_click as E.
  do 2 eexists. split; [exact E|]. refine (proj2 (toggle_hearts_ok _ _ _ _ _ _ _ E)).
  - apply (bool_decide_unpack _). vm_compute. exact I.
  - repeat constructor.
Defined.

Lemma toggle_missing_icon_witness :
  exists s', toggleFavorite 1 Sample.broken ∅ = Some (s', ∅, Some TypeError) /\
    load_favorites ∅ <> Ok (favorites s').
Proof.
  destruct (toggle_missing_icon 1 Sample.broken ∅ (mk_fav_btn ⟪"romero"⟫ None))
    as (s' & E & _ & Hne); [reflexivity|reflexivity|vm_compute; reflexivity|].
  by exists s'.
Defined.

Lemma malformed_favorites_abort_witness :
  init_favorites (<[key := ⟪"[manzanilla]"⟫]> ∅) Sample.btns = Throw SyntaxError.
Proof. apply malformed_favorites_abort. vm_compute. reflexivity. Defined.

Lemma init_hearts_ok_witness :
  exists s, init_favorites (<[key := stringify (JArr [JStr ⟪"romero"⟫])]> ∅) Sample.btns = Ok s /\
    hearts_ok (favorites s) (fav_btns s).
Proof.
  assert (E : init_favorites (<[key := stringify (JArr [JStr ⟪"romero"⟫])]> ∅) Sample.btns =
    Ok (mk_fav_state [JStr ⟪"romero"⟫] ⟪"1"⟫
          [mk_fav_btn ⟪"manzanilla"⟫ (Some (mk_icon false true));
           mk_fav_btn ⟪"romero"⟫ (Some (mk_icon true false))]))
    by (vm_compute; reflexivity).
  eexists. split; [exact E|]. refine (proj1 (init_hearts_ok _ _ _ _ E)).
  repeat constructor.
Defined.

Lemma toggle_refused_witness :
  exists s', toggleFavorite (SP := no_storage) 1 Sample.state ∅ = Some (s', ∅, Some QuotaExceeded) /\
    fav_count s' = ⟪"0"⟫ /\ favorites s' = [JStr ⟪"romero"⟫].
Proof.
  destruct (toggle_refused (SP := no_storage) 1 Sample.state ∅
              (mk_fav_btn ⟪"romero"⟫ (Some (mk_icon false true))) (mk_icon false true)
              ltac:(vm_compute; reflexivity) eq_refl ltac:(by rewrite lookup_empty) eq_refl
              ltac:(vm_compute; reflexivity)) as (s' & E & Hf & Hc & _).
  exists s'. split_and!; [exact E|exact Hc|exact Hf].
Defined.

End Witnesses.

End Favorites.
