(* ===== verification/FavoritesSpec.v ===== *)
(** * The favourites tracker against its specification

    The spec (section 4.2) describes the favourites as a set of plant ids
    with [isFavorite] and [toggleFavorite] "if present, remove; else add".
    The code keeps a JavaScript array (read back from storage, so it may
    hold duplicates or non-strings) and toggles with [filter] and [push].
    This file gives the abstract specification on [gset jsstr], the
    abstraction of an array to the set of strings it holds, and proves
    that every click refines the abstract toggle; it also relates the
    count the page shows (the array length) to the size of the set. *)

From S2P Require Import Prelude JsString Json Favorites.
Import JsString Json Favorites.

Module FavoritesSpec.

(** ** The abstract favourites *)

Definition fav_spec := gset jsstr.

(** [isFavorite(id)] and [toggleFavorite(id)] of the spec. *)
Definition isFavorite (X : fav_spec) (p : jsstr) : bool := bool_decide (p ∈ X).

Definition toggle_spec (p : jsstr) (X : fav_spec) : fav_spec :=
  if decide (p ∈ X) then X ∖ {[p]} else X ∪ {[p]}.

(** ** Abstraction of the array *)

Definition str_of (v : json) : option jsstr := match v with JStr s => Some s | _ => None end.

(** The strings of the array, in order. *)
Definition strings (favs : list json) : list jsstr := omap str_of favs.

Definition fav_set (favs : list json) : fav_spec := list_to_set (strings favs).

(** The array holds each id once and nothing but ids. *)
Definition clean (favs : list json) : Prop :=
  NoDup (strings favs) /\ Forall (fun v => is_Some (str_of v)) favs.

#[export] Instance clean_dec favs : Decision (clean favs).
Proof. unfold clean. apply _. Defined.

(** ** Lemmas *)

Lemma elem_fav_set favs p : p ∈ fav_set favs <-> JStr p ∈ favs.
Proof.
  unfold fav_set, strings. rewrite elem_of_list_to_set, list_elem_of_omap.
  split; [intros ([] & ? & Hx); simplify_eq/=; done|]. intros ?. by exists (JStr p).
Qed.

Lemma includes_id_set favs p : includes_id favs p = isFavorite (fav_set favs) p.
Proof.
  unfold isFavorite. apply eq_bool_prop_intro.
  rewrite Is_true_true, bool_decide_spec, includes_id_spec. symmetry. apply elem_fav_set.
Qed.

Lemma fav_set_toggled favs p : fav_set (toggled favs p) = toggle_spec p (fav_set favs).
Proof.
  apply set_eq. intros x. rewrite elem_fav_set, <- includes_id_spec, includes_id_toggled.
  rewrite !includes_id_set. unfold isFavorite, toggle_spec. destruct (decide (x = p)) as [->|Hne].
  - rewrite bool_decide_eq_true_2 by done.
    destruct (decide (p ∈ fav_set favs)) as [Hp|Hp];
      [rewrite bool_decide_eq_true_2 by done|rewrite bool_decide_eq_false_2 by done];
      simpl; set_solver.
  - rewrite bool_decide_eq_false_2 by done. rewrite bool_decide_eq_true.
    destruct (decide _); set_solver.
Qed.

Lemma strings_filter favs p :
  strings (filter (fun v => negb (same_id p v)) favs) = filter (fun x => x <> p) (strings favs).
Proof.
  unfold strings. induction favs as [|v favs IH]; [done|]. rewrite filter_cons.
  destruct v; simpl; rewrite ?IH; try done. rewrite filter_cons.
  destruct (decide (s = p)) as [->|Hne].
  - rewrite bool_decide_eq_true_2 by done. simpl. rewrite decide_False; [exact IH|tauto].
  - rewrite bool_decide_eq_false_2 by done. simpl. rewrite !decide_True by done. simpl. f_equal. exact IH.
Qed.

Lemma strings_length favs : Forall (fun v => is_Some (str_of v)) favs -> length (strings favs) = length favs.
Proof. induction 1 as [|[] favs [? Hx] _ IH]; simpl in *; simplify_eq/=; lia. Qed.

Lemma clean_toggled favs p : clean favs -> clean (toggled favs p).
Proof.
  intros [Hnd Hall]. unfold toggled. destruct (includes_id favs p) eqn:Hp.
  - split; [rewrite strings_filter; by apply NoDup_filter|]. rewrite Forall_forall in Hall |- *. intros x Hx. apply Hall. rewrite list_elem_of_filter in Hx. by destruct Hx.
  - split; [|apply Forall_app; split; [done|repeat constructor; by eexists]].
    unfold strings. rewrite omap_app. simpl. apply NoDup_app. split; [done|split; [|apply NoDup_singleton]].
    intros x Hx ->%list_elem_of_singleton. apply Bool.not_true_iff_false in Hp. apply Hp.
    apply includes_id_spec, elem_fav_set, elem_of_list_to_set. done.
Qed.

Lemma count_text_size favs : clean favs -> count_text favs = num_str (Z.of_nat (size (fav_set favs))).
Proof.
  intros [Hnd Hall]. unfold count_text, fav_set. by rewrite size_list_to_set, strings_length.
Qed.

(** ** Properties *)

Section WithStorage.
Context `{SP : StoragePolicy}.

(** C4: a click on a heart changes the set of favourite ids exactly as
    the spec's [toggleFavorite] does (remove the id if present, else add
    it), also on the path where the handler then throws. *)
Theorem toggle_refines i s st btn r :
  fav_btns s !! i = Some btn -> toggleFavorite i s st = Some r ->
  fav_set (favorites r.1.1) = toggle_spec (fb_id btn) (fav_set (favorites s)).
Proof.
  intros Hb. unfold toggleFavorite. rewrite Hb. simpl.
  destruct (fb_heart btn); [case_match|]; intros [= <-]; apply fav_set_toggled.
Qed.

(** C18: when the array holds each id once and nothing else, a successful
    click keeps it so, and the count the page shows is then the number of
    favourite plants; an array read back with duplicates shows more. *)
Theorem toggle_count_exact i s st s' st' :
  clean (favorites s) -> toggleFavorite i s st = Some (s', st', None) ->
  clean (favorites s') /\ fav_count s' = num_str (Z.of_nat (size (fav_set (favorites s')))).
Proof.
  intros Hc (btn & h & _ & _ & Hf & Hcnt & _)%toggleFavorite_ok.
  assert (Hc' : clean (favorites s')) by (rewrite Hf; by apply clean_toggled).
  split; [done|]. rewrite Hcnt. by apply count_text_size.
Qed.

End WithStorage.

Section Witnesses.
#[local] Existing Instance unlimited.

Lemma toggle_refines_witness :
  fav_set (favorites sample_clicked) = toggle_spec ⟪"romero"⟫ (fav_set []).
Proof.
  exact (toggle_refines 1 Favorites.Sample.state ∅ (mk_fav_btn ⟪"romero"⟫ (Some (mk_icon false true)))
           _ ltac:(vm_compute; reflexivity) sample_click).
Defined.

Lemma toggle_count_exact_witness :
  fav_count sample_clicked = num_str (Z.of_nat (size (fav_set (favorites sample_clicked)))).
Proof.
  exact (proj2 (toggle_count_exact 1 Favorites.Sample.state ∅ _ _
    ltac:(apply (bool_decide_unpack _); vm_compute; exact I) sample_click)).
Defined.

End Witnesses.

End FavoritesSpec.
