(* ===== verification/ViewCounter.v ===== *)
(** * View counter ([script.js] lines 113-133)

    The [viewCounts] object, loaded from the [plantViews] item with
    [JSON.parse(...) || {}], the [.view-count] label of each section, and
    the [IntersectionObserver] with threshold 0.6 whose callback counts a
    section and stops observing it.

    The object is kept as the list of its own properties in order (an
    assignment to an existing key keeps its place, a new key goes last).
    The observer is modelled after the W3C specification: for every
    observed target the host remembers the last (threshold index,
    isIntersecting) pair, initially none; when the target's visible ratio
    changes that pair, an entry is queued; the callback later receives the
    whole queue at once.  [isIntersecting] is true for any positive visible
    ratio, whatever the threshold.  Ratios are in thousandths.  A count is
    a JavaScript number: [viewCounts[id] + 1] is [JsNumber.js_add], exact
    below 2^53 and stuck at 2^53 ([count_stops_at_max]); the counts the
    page loads and keeps stay within 2^53 ([counts_exact]).

    [saveViews] is a [setItem] the user agent may refuse; the exception
    ends the [forEach] before [unobserve].  The invariants are proved in
    the section [Accepted], for an agent that accepts every write, and
    what a refusing agent leads to in the section [NoStorage]. *)

From S2P Require Import Prelude JsString JsNumber Json Extractor.
Import JsString JsNumber Json Extractor.

Module ViewCounter.

Definition key : jsstr := ⟪"plantViews"⟫.

(** The [viewCounts] object. *)
Abbreviation counts := (list (jsstr * Z)).

Fixpoint obj_get (m : counts) (k : jsstr) : option Z :=
  match m with
  | [] => None
  | (k', v) :: m' => if bool_decide (k' = k) then Some v else obj_get m' k
  end.

(** [m[k] = v]: in place when [k] is a key, appended otherwise. *)
Fixpoint obj_set (m : counts) (k : jsstr) (v : Z) : counts :=
  match m with
  | [] => [(k, v)]
  | (k', v') :: m' => if bool_decide (k' = k) then (k', v) :: m' else (k', v') :: obj_set m' k v
  end.

(** [viewCounts[id] || 0]. *)
Definition count_of (m : counts) (k : jsstr) : Z := default 0%Z (obj_get m k).

(** The counts are numbers JavaScript holds exactly. *)
Definition counts_exact (m : counts) : bool := forallb (fun kv => exact_int kv.2) m.

(** [`${n} vista${n > 1 ? 's' : ''}`]. *)
Definition views_label (n : Z) : jsstr :=
  num_str n ++ ⟪" vista"⟫ ++ (if (1 <? n)%Z then ⟪"s"⟫ else []).

Definition counts_json (m : counts) : json := JObj (map (fun kv => (kv.1, JNum kv.2)) m).

(** The object [JSON.parse] builds from the members of a JSON object text:
    a repeated key keeps its first place and takes the last value.  A
    member that is not a number is outside the model. *)
Fixpoint object_of (acc : counts) (l : list (jsstr * json)) : res counts :=
  match l with
  | [] => Ok acc
  | (k, JNum n) :: l' => object_of (obj_set acc k n) l'
  | _ :: _ => Throw OutOfModel
  end.

(** Line 113: [JSON.parse(localStorage.getItem('plantViews')) || {}]. *)
Definition load_views (st : store) : res counts :=
  let! v := parse_stored (st !! key) in
  if truthy v then match v with JObj l => object_of [] l | _ => Throw OutOfModel end
  else Ok [].

(** An [IntersectionObserverEntry]: its target (a section, by index) and
    its visible ratio in thousandths. *)
Record entry := mk_entry { target : nat; ratio : N }.

Definition isIntersecting (e : entry) : bool := (0 <? ratio e)%N.

(** The observer's state per section and the host's bookkeeping. *)
Record vc_state := mk_vc {
  views : counts;                       (* viewCounts *)
  observed : list bool;                 (* observe / unobserve, per section *)
  prev : list (option (bool * bool));   (* last (ratio >= 0.6, isIntersecting) *)
  queue : list entry                    (* entries not yet delivered *)
}.

Section Ops.
Context `{SP : StoragePolicy}.

(** Line 114, [saveViews]: a [setItem] the agent may refuse. *)
Definition saveViews (m : counts) (st : store) : res store :=
  setItem key (stringify (counts_json m)) st.

(** Lines 117-125: the callback on one entry.  An intersecting entry
    counts its target (the number addition [js_add], which stops at
    2^53), rewrites its label, saves the object and stops
    observing the target.  When [saveViews] throws, the count and the
    label are already changed and [unobserve] is never reached; the
    exception is returned beside the state. *)
Definition on_entry (secs : list section) (s : vc_state) (st : store) (e : entry)
  : list section * vc_state * store * option exn :=
  if isIntersecting e then
    match secs !! target e with
    | Some sec =>
        let id := sec_id sec in
        let n := js_add (count_of (views s) id) 1 in
        let m := obj_set (views s) id n in
        let secs' := <[target e := set_view_count (views_label n) sec]> secs in
        match saveViews m st with
        | Ok st' => (secs', mk_vc m (<[target e := false]> (observed s)) (prev s) (queue s), st', None)
        | Throw x => (secs', mk_vc m (observed s) (prev s) (queue s), st, Some x)
        end
    | None => (secs, s, st, None)
    end
  else (secs, s, st, None).

(** The callback of lines 116-126 on a batch of entries: [entries.forEach],
    which the first exception ends. *)
Fixpoint callback (entries : list entry) (secs : list section) (s : vc_state) (st : store)
  : list section * vc_state * store * option exn :=
  match entries with
  | [] => (secs, s, st, None)
  | e :: es =>
      let '(secs1, s1, st1, x) := on_entry secs s st e in
      match x with
      | None => callback es secs1 s1 st1
      | Some _ => (secs1, s1, st1, x)
      end
  end.

(** The host: a visible-ratio change of an observed section queues an
    entry when it changes the (threshold index, isIntersecting) pair, and
    a delivery hands the whole queue to the callback; an exception the
    callback throws is reported and the observer goes on. *)
Inductive host_step : list section * vc_state * store -> list section * vc_state * store -> Prop :=
| host_geometry secs s st k r :
    observed s !! k = Some true ->
    prev s !! k <> Some (Some ((600 <=? r)%N, (0 <? r)%N)) ->
    host_step (secs, s, st)
      (secs, mk_vc (views s) (observed s)
               (<[k := Some ((600 <=? r)%N, (0 <? r)%N)]> (prev s))
               (queue s ++ [mk_entry k r]), st)
| host_deliver secs s st :
    queue s <> [] ->
    host_step (secs, s, st)
      (callback (queue s) secs (mk_vc (views s) (observed s) (prev s) []) st).1.

(** Lines 128-133: the initial label of each section, then [observe]. *)
Definition init_label (m : counts) (sec : section) : section :=
  set_view_count (views_label (count_of m (sec_id sec))) sec.

Definition init_views (st : store) (secs : list section) : res (list section * vc_state) :=
  let! m := load_views st in
  Ok (map (init_label m) secs,
      mk_vc m (map (fun _ => true) secs) (map (fun _ => None) secs) []).

(** The invariant of the counter over a page whose sections have the ids
    [ids] and whose object was [m0] at load time. *)
Definition vc_core (ids : list jsstr) (m0 : counts) (secs : list section) (s : vc_state)
  (st : store) : Prop :=
  sec_id <$> secs = ids /\
  length (observed s) = length ids /\
  NoDup (fst <$> views s) /\
  load_views st = Ok (views s) /\
  (forall k id, ids !! k = Some id -> observed s !! k = Some true ->
     count_of (views s) id = count_of m0 id).

Definition vc_inv (ids : list jsstr) (m0 : counts) (S : list section * vc_state * store) : Prop :=
  let '(secs, s, st) := S in
  vc_core ids m0 secs s st /\ forall e, e ∈ queue s -> observed s !! target e = Some true.

(** The states reachable from the page load. *)
Definition vc_reachable (st0 : store) (secs0 : list section)
  (S : list section * vc_state * store) : Prop :=
  exists secs1 s1, init_views st0 secs0 = Ok (secs1, s1) /\ rtc host_step (secs1, s1, st0) S.

Definition views_of (S : list section * vc_state * store) : counts := views S.1.2.
Definition observed_of (S : list section * vc_state * store) : list bool := observed S.1.2.

(** The host as an executable interpreter: a geometry change of section
    [k] to ratio [r], or a delivery of the queue.  [None] when the step is
    not enabled. *)
Inductive host_op := Geometry (k : nat) (r : N) | Deliver.

Definition host_exec (o : host_op) (S : list section * vc_state * store)
  : option (list section * vc_state * store) :=
  let '(secs, s, st) := S in
  match o with
  | Geometry k r =>
      let p := ((600 <=? r)%N, (0 <? r)%N) in
      if bool_decide (observed s !! k = Some true) && bool_decide (prev s !! k <> Some (Some p))
      then Some (secs, mk_vc (views s) (observed s) (<[k := Some p]> (prev s))
                         (queue s ++ [mk_entry k r]), st)
      else None
  | Deliver =>
      if bool_decide (queue s = []) then None
      else Some (callback (queue s) secs (mk_vc (views s) (observed s) (prev s) []) st).1
  end.

Fixpoint host_run (ops : list host_op) (S : list section * vc_state * store)
  : option (list section * vc_state * store) :=
  match ops with
  | [] => Some S
  | o :: ops' => S' ← host_exec o S; host_run ops' S'
  end.

End Ops.

(** A two-section page right after the page load with an empty store, and
    the state a sequence of host steps leads it to. *)
Module Sample.
Definition secs : list section :=
  [mk_section ⟪"manzanilla"⟫ (Some ⟪"Manzanilla"⟫) [] [] [] [] [];
   mk_section ⟪"romero"⟫ (Some ⟪"Romero"⟫) [] [] [] [] []].
Definition start : list section * vc_state * store :=
  (map (init_label []) secs, mk_vc [] [true; true] [None; None] [], ∅).
Definition after `{SP : StoragePolicy} (ops : list host_op) : list section * vc_state * store :=
  default start (host_run ops start).
End Sample.

(** ** Lemmas *)

Lemma obj_get_set_eq m k v : obj_get (obj_set m k v) k = Some v.
Proof.
  induction m as [|[k' v'] m IH]; simpl; [by rewrite bool_decide_eq_true_2|].
  case_bool_decide; simpl; [by rewrite bool_decide_eq_true_2|]. by rewrite bool_decide_eq_false_2.
Qed.

Lemma obj_get_set_ne m k k' v : k <> k' -> obj_get (obj_set m k v) k' = obj_get m k'.
Proof.
  intros Hne. induction m as [|[k0 v0] m IH]; simpl; [by rewrite bool_decide_eq_false_2|].
  case_bool_decide; simpl.
  - subst. by rewrite !bool_decide_eq_false_2.
  - by rewrite IH.
Qed.

Lemma count_of_set_eq m k v : count_of (obj_set m k v) k = v.
Proof. unfold count_of. by rewrite obj_get_set_eq. Qed.

Lemma count_of_set_ne m k k' v : k <> k' -> count_of (obj_set m k v) k' = count_of m k'.
Proof. intros. unfold count_of. by rewrite obj_get_set_ne. Qed.

Lemma keys_obj_set_in m k v : k ∈ fst <$> m -> fst <$> obj_set m k v = fst <$> m.
Proof.
  induction m as [|[k' v'] m IH]; intros Hk; simpl; [by apply elem_of_nil in Hk|].
  case_bool_decide; simpl; [by subst|]. f_equal. apply IH.
  apply elem_of_cons in Hk as [->|]; [done|]. done.
Qed.

Lemma keys_obj_set_notin m k v : k ∉ fst <$> m -> fst <$> obj_set m k v = (fst <$> m) ++ [k].
Proof.
  induction m as [|[k' v'] m IH]; intros Hk; simpl; [done|].
  rewrite bool_decide_eq_false_2 by (intros ->; apply Hk, elem_of_cons; by left).
  simpl. f_equal. apply IH. intros Hin. apply Hk, elem_of_cons. by right.
Qed.

Lemma keys_obj_set_nodup m k v : NoDup (fst <$> m) -> NoDup (fst <$> obj_set m k v).
Proof.
  intros Hnd. destruct (decide (k ∈ fst <$> m)) as [Hk|Hk].
  - by rewrite keys_obj_set_in.
  - rewrite keys_obj_set_notin by done. apply NoDup_app. split; [done|].
    split; [|apply NoDup_singleton]. by intros x Hx ->%list_elem_of_singleton.
Qed.

Lemma counts_exact_set m k v :
  counts_exact m = true -> exact_int v = true -> counts_exact (obj_set m k v) = true.
Proof.
  unfold counts_exact. intros Hm Hv. induction m as [|[k' v'] m IH]; simpl in *; [by rewrite Hv|].
  apply andb_true_iff in Hm as [H1 H2]. case_bool_decide; simpl; rewrite ?Hv, ?H1; simpl; auto.
Qed.

Lemma count_of_exact m k : counts_exact m = true -> exact_int (count_of m k) = true.
Proof.
  unfold counts_exact, count_of. intros Hm. induction m as [|[k' v] m IH]; simpl in *; [done|].
  apply andb_true_iff in Hm as [H1 H2]. case_bool_decide; simpl; auto.
Qed.

Lemma counts_json_exact m : json_exact (counts_json m) = counts_exact m.
Proof.
  unfold counts_json, counts_exact. simpl. induction m as [|[k v] m IH]; simpl; [done|].
  by rewrite IH.
Qed.

(** With distinct keys, re-reading the members of the object's JSON text
    rebuilds the object. *)
Lemma object_of_counts acc m :
  NoDup ((fst <$> acc) ++ (fst <$> m)) ->
  object_of acc (map (fun kv => (kv.1, JNum kv.2)) m) = Ok (acc ++ m).
Proof.
  revert acc. induction m as [|[k v] m IH]; intros acc Hnd; simpl; [by rewrite app_nil_r|].
  assert (Hk : k ∉ fst <$> acc).
  { intros Hin. apply NoDup_app in Hnd as (_ & Hd & _). apply (Hd k Hin).
    simpl. apply elem_of_cons. by left. }
  assert (Hset : obj_set acc k v = acc ++ [(k, v)]).
  { clear -Hk. induction acc as [|[k' v'] acc IH]; simpl; [done|].
    rewrite bool_decide_eq_false_2 by (intros ->; apply Hk, elem_of_cons; by left).
    rewrite IH; [done|]. intros Hin. apply Hk, elem_of_cons. by right. }
  rewrite Hset, IH, <- app_assoc; [done|].
  rewrite fmap_app, <- app_assoc. done.
Qed.

(** The text [saveViews] writes reads back as the object. *)
Lemma load_views_saved m st :
  NoDup (fst <$> m) -> counts_exact m = true ->
  load_views (<[key := stringify (counts_json m)]> st) = Ok m.
Proof.
  intros Hnd Hx. unfold load_views.
  rewrite lookup_insert_eq, parse_stored_stringify by by rewrite counts_json_exact. simpl.
  by rewrite object_of_counts.
Qed.

Lemma object_of_exact acc l m :
  counts_exact acc = true -> forallb (fun kv => json_exact kv.2) l = true ->
  object_of acc l = Ok m -> counts_exact m = true.
Proof.
  revert acc. induction l as [|[k [| |n| | |]] l IH]; intros acc Ha Hl; simpl in *; try done.
  - by intros [= <-].
  - apply andb_true_iff in Hl as [Hn Hl]. apply IH; [|done]. by apply counts_exact_set.
Qed.

(** The counts the page loads are numbers JavaScript holds exactly. *)
Lemma load_views_exact st m : load_views st = Ok m -> counts_exact m = true.
Proof.
  unfold load_views. destruct (parse_stored (st !! key)) as [v|] eqn:E; simpl; [|done].
  apply parse_stored_exact in E. destruct (truthy v); [|by intros [= <-]].
  destruct v; try done. by apply object_of_exact.
Qed.

(** A count the object holds, plus one, saved: the object stays exact. *)
Lemma counts_exact_incr m k :
  counts_exact m = true -> counts_exact (obj_set m k (js_add (count_of m k) 1)) = true.
Proof. intros Hm. by apply counts_exact_set, js_add1_exact, count_of_exact. Qed.

Lemma object_of_nodup acc l m :
  NoDup (fst <$> acc) -> object_of acc l = Ok m -> NoDup (fst <$> m).
Proof.
  revert acc. induction l as [|[k [| |n| | |]] l IH]; intros acc Hnd; simpl; try done.
  - by intros [= <-].
  - apply IH. by apply keys_obj_set_nodup.
Qed.

Lemma load_views_nodup st m : load_views st = Ok m -> NoDup (fst <$> m).
Proof.
  unfold load_views. destruct (parse_stored (st !! key)) as [v|]; simpl; [|done].
  destruct (truthy v); [|intros [= <-]; constructor].
  destruct v; try done. apply object_of_nodup. constructor.
Qed.

Lemma init_views_inv_core st0 secs0 secs1 s1 m0 :
  load_views st0 = Ok m0 -> init_views st0 secs0 = Ok (secs1, s1) ->
  vc_core (sec_id <$> secs0) m0 secs1 s1 st0 /\ queue s1 = [].
Proof.
  intros Hl. unfold init_views. rewrite Hl. simpl. intros [= <- <-].
  split; [split; [|split; [|split; [|split]]]|]; simpl.
  - rewrite <- list_fmap_compose. apply list_fmap_ext. done.
  - by rewrite !length_fmap.
  - by eapply load_views_nodup.
  - done.
  - done.
  - done.
Qed.

Lemma init_views_inv st0 secs0 secs1 s1 m0 :
  load_views st0 = Ok m0 -> init_views st0 secs0 = Ok (secs1, s1) ->
  vc_inv (sec_id <$> secs0) m0 (secs1, s1, st0).
Proof.
  intros Hl Hi. destruct (init_views_inv_core _ _ _ _ _ Hl Hi) as [Hc Hq].
  split; [done|]. rewrite Hq. by intros e ?%elem_of_nil.
Qed.

Section Lemmas.
Context `{SP : StoragePolicy}.

Lemma callback_cons e es secs s st :
  callback (e :: es) secs s st =
  let '(secs1, s1, st1, x) := on_entry secs s st e in
  match x with None => callback es secs1 s1 st1 | Some _ => (secs1, s1, st1, x) end.
Proof. done. Qed.

(** A property of the state that every entry keeps holds after the
    callback, whether or not it stopped early. *)
Lemma callback_ind (P : list section * vc_state * store -> Prop) es secs s st :
  (forall secs s st e, P (secs, s, st) -> P (on_entry secs s st e).1) ->
  P (secs, s, st) -> P (callback es secs s st).1.
Proof.
  intros Hstep. revert secs s st.
  induction es as [|e es IH]; intros secs s st HP; simpl; [done|].
  pose proof (Hstep secs s st e HP) as H.
  destruct (on_entry secs s st e) as [[[secs' s'] st'] [x|]]; [done|]. by apply IH.
Qed.

(** The fields an entry does not touch. *)
Lemma on_entry_frame secs s st e :
  let '(_, s', _, _) := on_entry secs s st e in prev s' = prev s /\ queue s' = queue s.
Proof.
  unfold on_entry. destruct (isIntersecting e); [|done].
  destruct (secs !! target e); [|done]. by destruct (saveViews _ _).
Qed.

Lemma host_exec_step o S S' : host_exec o S = Some S' -> host_step S S'.
Proof.
  destruct S as [[secs s] st], o as [k r|]; simpl.
  - case_bool_decide as H1; case_bool_decide as H2; simpl; intros; simplify_eq.
    by constructor.
  - case_bool_decide; intros; simplify_eq. by constructor.
Qed.

Lemma host_step_exec S S' : host_step S S' -> exists o, host_exec o S = Some S'.
Proof.
  intros [secs s st k r Hk Hp|secs s st Hq]; [exists (Geometry k r)|exists Deliver]; simpl.
  - by rewrite !bool_decide_eq_true_2.
  - by rewrite bool_decide_eq_false_2.
Qed.

Lemma host_run_app ops1 ops2 S :
  host_run (ops1 ++ ops2) S = S1 ← host_run ops1 S; host_run ops2 S1.
Proof.
  revert S. induction ops1 as [|o ops1 IH]; intros S; simpl; [done|].
  destruct (host_exec o S); simpl; [apply IH|done].
Qed.

Lemma host_run_rtc ops S S' : host_run ops S = Some S' -> rtc host_step S S'.
Proof.
  revert S. induction ops as [|o ops IH]; intros S; simpl; [by intros [= ->]|].
  destruct (host_exec o S) as [S1|] eqn:E; simpl; [|done].
  intros H. eapply rtc_l; [by eapply host_exec_step|]. by apply IH.
Qed.

(** An entry on section [k] keeps the id of section [k] and adds one to
    its count when it intersects, whether or not the save then throws. *)
Lemma on_entry_lookup secs s st e k sec :
  secs !! k = Some sec -> target e = k ->
  let '(secs', s', _, _) := on_entry secs s st e in
  (exists sec', secs' !! k = Some sec' /\ sec_id sec' = sec_id sec) /\
  count_of (views s') (sec_id sec) =
    if isIntersecting e then js_add (count_of (views s) (sec_id sec)) 1
    else count_of (views s) (sec_id sec).
Proof.
  intros Hs <-. unfold on_entry. destruct (isIntersecting e); [|split; [by exists sec|done]].
  rewrite Hs. simpl.
  assert (Hl : <[target e := set_view_count (views_label (js_add (count_of (views s) (sec_id sec)) 1)) sec]>
                 secs !! target e =
               Some (set_view_count (views_label (js_add (count_of (views s) (sec_id sec)) 1)) sec))
    by (apply list_lookup_insert_eq; by eapply lookup_lt_Some).
  destruct (saveViews _ _); simpl; (split; [eexists; split; [exact Hl|done]|]);
    by rewrite count_of_set_eq.
Qed.

Lemma on_entry_obs_false secs s st e k :
  observed s !! k = Some false ->
  let '(_, s', _, _) := on_entry secs s st e in observed s' !! k = Some false.
Proof.
  intros Hobs. unfold on_entry. destruct (isIntersecting e); [|done].
  destruct (secs !! target e); [|done]. destruct (saveViews _ _); simpl; [|done].
  destruct (decide (target e = k)) as [->|Hne].
  - rewrite list_lookup_insert_eq; [done|]. by eapply lookup_lt_Some.
  - by rewrite list_lookup_insert_ne.
Qed.

Lemma callback_obs_false es secs s st k :
  observed s !! k = Some false ->
  let '(_, s', _) := (callback es secs s st).1 in observed s' !! k = Some false.
Proof.
  intros Hobs. apply (callback_ind (fun '(_, s, _) => observed s !! k = Some false)); [|done].
  intros secs1 s1 st1 e H. pose proof (on_entry_obs_false secs1 s1 st1 e k H).
  by destruct (on_entry secs1 s1 st1 e) as [[[? ?] ?] ?].
Qed.

(** C9: the count of a section is a JavaScript number, and it stops at
    2^53: an intersecting entry on a section adds one to its count below
    2^53 and rewrites the label with the new count, whether or not the
    save then throws; at 2^53 the sum [2^53 + 1] rounds back to 2^53, so
    the count stays there and the label keeps the text
    "9007199254740992 vistas", where the spec counts one more view. *)
Theorem count_stops_at_max secs s st e sec :
  secs !! target e = Some sec -> isIntersecting e = true ->
  exact_int (count_of (views s) (sec_id sec)) = true ->
  let '(secs', s', _, _) := on_entry secs s st e in
  count_of (views s') (sec_id sec) = Z.min (count_of (views s) (sec_id sec) + 1) max_exact /\
  secs' !! target e = Some (set_view_count (views_label (count_of (views s') (sec_id sec))) sec) /\
  (count_of (views s) (sec_id sec) = max_exact ->
   count_of (views s') (sec_id sec) = max_exact /\
   sec_view_count <$> secs' !! target e = Some ⟪"9007199254740992 vistas"⟫).
Proof.
  intros Hs Hi Hx. unfold on_entry. rewrite Hi, Hs. simpl.
  assert (Hl : forall l, <[target e := set_view_count l sec]> secs !! target e =
                         Some (set_view_count l sec))
    by (intros l; apply list_lookup_insert_eq; by eapply lookup_lt_Some).
  rewrite <- js_add1_min by done.
  destruct (saveViews _ _); simpl; rewrite count_of_set_eq, Hl;
    (split; [done|split; [done|]]); intros Hm; rewrite Hm, js_add1_max; (split; [done|]);
    vm_compute; reflexivity.
Qed.

(** ** When the agent accepts every write *)

Section Accepted.
Hypothesis HSP : forall st, SP st = true.

Lemma saveViews_accepted m st : saveViews m st = Ok (<[key := stringify (counts_json m)]> st).
Proof. by apply setItem_accepted. Qed.

Lemma on_entry_accepted secs s st e : (on_entry secs s st e).2 = None.
Proof.
  unfold on_entry. destruct (isIntersecting e); [|done].
  destruct (secs !! target e); [|done]. by rewrite saveViews_accepted.
Qed.

Lemma callback_accepted_cons e es secs s st :
  callback (e :: es) secs s st =
  let '(secs1, s1, st1, _) := on_entry secs s st e in callback es secs1 s1 st1.
Proof.
  simpl. pose proof (on_entry_accepted secs s st e) as H.
  by destruct (on_entry secs s st e) as [[[? ?] ?] ?]; simpl in H; subst.
Qed.

Lemma on_entry_core ids m0 secs s st e :
  NoDup ids -> vc_core ids m0 secs s st ->
  let '(secs', s', st', _) := on_entry secs s st e in vc_core ids m0 secs' s' st'.
Proof.
  intros Hnd (Hids & Hlen & Hkeys & Hload & Hcnt). unfold on_entry.
  destruct (isIntersecting e); [|done].
  destruct (secs !! target e) as [sec|] eqn:Hs; [|done]. rewrite saveViews_accepted.
  assert (Ht : ids !! target e = Some (sec_id sec)) by (by rewrite <- Hids, list_lookup_fmap, Hs).
  split; [|split; [|split; [|split]]]; simpl.
  - rewrite list_fmap_insert. simpl. rewrite list_insert_id; [done|].
    by rewrite list_lookup_fmap, Hs.
  - by rewrite length_insert.
  - by apply keys_obj_set_nodup.
  - apply load_views_saved; [by apply keys_obj_set_nodup|].
    apply counts_exact_incr. by eapply load_views_exact.
  - intros k id Hk Hobs. destruct (decide (k = target e)) as [->|Hne].
    + apply lookup_lt_Some in Hobs as Hlt. rewrite length_insert in Hlt.
      by rewrite list_lookup_insert_eq in Hobs.
    + rewrite list_lookup_insert_ne in Hobs by done.
      rewrite count_of_set_ne; [by eapply Hcnt|].
      intros Heq. apply Hne. eapply NoDup_lookup; [exact Hnd|exact Hk|]. by rewrite <- Heq.
Qed.

Lemma callback_core ids m0 es secs s st :
  NoDup ids -> vc_core ids m0 secs s st -> queue s = [] ->
  let '(secs', s', st') := (callback es secs s st).1 in vc_core ids m0 secs' s' st' /\ queue s' = [].
Proof.
  intros Hnd Hc Hq.
  apply (callback_ind (fun '(secs, s, st) => vc_core ids m0 secs s st /\ queue s = []));
    [|done].
  intros secs1 s1 st1 e [Hc1 Hq1]. pose proof (on_entry_core ids m0 secs1 s1 st1 e Hnd Hc1).
  pose proof (on_entry_frame secs1 s1 st1 e).
  destruct (on_entry secs1 s1 st1 e) as [[[? ?] ?] ?]. split; [done|]. by rewrite (proj2 H0).
Qed.

Lemma host_step_inv ids m0 S S' :
  NoDup ids -> vc_inv ids m0 S -> host_step S S' -> vc_inv ids m0 S'.
Proof.
  intros Hnd HS Hstep. destruct Hstep as [secs s st k r Hk _|secs s st _]; simpl in *.
  - destruct HS as [Hc Hq]. split; [done|]. simpl.
    intros e He. apply elem_of_app in He as [He|He]; [by apply Hq|].
    apply list_elem_of_singleton in He. by subst e.
  - destruct HS as [Hc _].
    pose proof (callback_core ids m0 (queue s) secs (mk_vc (views s) (observed s) (prev s) []) st
                  Hnd Hc eq_refl) as Hcb.
    destruct (callback _ _ _ _) as [[[secs' s'] st'] ?]. destruct Hcb as [Hc' Hq'].
    split; [done|]. rewrite Hq'. by intros e ?%elem_of_nil.
Qed.

Lemma rtc_inv ids m0 S S' :
  NoDup ids -> vc_inv ids m0 S -> rtc host_step S S' -> vc_inv ids m0 S'.
Proof.
  intros Hnd HS Hrtc. induction Hrtc as [|x y z Hxy _ IH]; [done|].
  apply IH. by eapply host_step_inv.
Qed.

Lemma callback_frame ids m0 es secs s st k id c :
  NoDup ids -> vc_core ids m0 secs s st -> ids !! k = Some id ->
  count_of (views s) id = c -> observed s !! k = Some false ->
  (forall e, e ∈ es -> target e <> k) ->
  let '(_, s', _) := (callback es secs s st).1 in
  count_of (views s') id = c /\ observed s' !! k = Some false.
Proof.
  intros Hnd Hc Hk Hcnt Hobs Hes.
  revert secs s st Hc Hcnt Hobs. induction es as [|e es IH]; intros secs s st Hc Hcnt Hobs;
    [done|].
  rewrite callback_accepted_cons.
  pose proof (on_entry_core ids m0 secs s st e Hnd Hc) as Hc'.
  assert (Hf : let '(_, s', _, _) := on_entry secs s st e in
               count_of (views s') id = c /\ observed s' !! k = Some false).
  { destruct Hc as (Hids & _). unfold on_entry. destruct (isIntersecting e); [|done].
    destruct (secs !! target e) as [sec|] eqn:Hs; [|done]. rewrite saveViews_accepted. simpl.
    assert (Hne : target e <> k) by (apply Hes; by left).
    rewrite list_lookup_insert_ne by done. split; [|done].
    rewrite count_of_set_ne; [done|]. intros Heq. apply Hne.
    eapply NoDup_lookup; [exact Hnd| |exact Hk].
    rewrite <- Hids, list_lookup_fmap, Hs. simpl. by rewrite Heq. }
  destruct (on_entry secs s st e) as [[[secs' s'] st'] ?]. destruct Hf as [Hf1 Hf2].
  apply IH; try done. intros e' He'. apply Hes. by right.
Qed.

(** C20: when the agent accepts every write, in every state reachable
    from the page load the [plantViews] item reads back as the in-memory
    object, whose counts are numbers JavaScript holds exactly (none past
    2^53), and a section still observed has the count it had at load
    time. *)
Theorem vc_persisted st0 secs0 m0 S :
  NoDup (sec_id <$> secs0) -> load_views st0 = Ok m0 -> vc_reachable st0 secs0 S ->
  load_views S.2 = Ok (views_of S) /\ counts_exact (views_of S) = true /\
  forall k id, (sec_id <$> secs0) !! k = Some id -> observed_of S !! k = Some true ->
    count_of (views_of S) id = count_of m0 id.
Proof.
  intros Hnd Hl (secs1 & s1 & Hinit & Hrtc).
  assert (Hinv : vc_inv (sec_id <$> secs0) m0 S)
    by (eapply rtc_inv; [done| |exact Hrtc]; by eapply init_views_inv).
  destruct S as [[secs s] st]. destruct Hinv as [(_ & _ & _ & ? & ?) _].
  split; [done|split; [by eapply load_views_exact|done]].
Qed.

(** An entry that changes the count of section [k] unobserves it. *)
Lemma on_entry_count_changed ids m0 secs s st e k id :
  NoDup ids -> vc_core ids m0 secs s st -> ids !! k = Some id ->
  let '(_, s', _, _) := on_entry secs s st e in
  count_of (views s') id <> count_of (views s) id -> observed s' !! k = Some false.
Proof.
  intros Hnd (Hids & Hlen & _) Hk. unfold on_entry. destruct (isIntersecting e); [|done].
  destruct (secs !! target e) as [sec|] eqn:Hs; [|done]. rewrite saveViews_accepted. simpl.
  destruct (decide (target e = k)) as [->|Hne].
  - intros _. rewrite list_lookup_insert_eq; [done|]. rewrite Hlen. by eapply lookup_lt_Some.
  - rewrite count_of_set_ne; [intros H; by exfalso|]. intros Heq. apply Hne.
    eapply NoDup_lookup; [exact Hnd| |exact Hk].
    rewrite <- Hids, list_lookup_fmap, Hs. simpl. by rewrite Heq.
Qed.

Lemma callback_count_changed ids m0 es secs s st k id :
  NoDup ids -> vc_core ids m0 secs s st -> ids !! k = Some id ->
  let '(_, s', _) := (callback es secs s st).1 in
  count_of (views s') id <> count_of (views s) id -> observed s' !! k = Some false.
Proof.
  intros Hnd Hc Hk. revert secs s st Hc.
  induction es as [|e es IH]; intros secs s st Hc; [intros H; by exfalso|].
  rewrite callback_accepted_cons.
  pose proof (on_entry_core ids m0 secs s st e Hnd Hc) as Hc1.
  pose proof (on_entry_count_changed ids m0 secs s st e k id Hnd Hc Hk) as Hch.
  destruct (on_entry secs s st e) as [[[secs1 s1] st1] ?].
  specialize (IH secs1 s1 st1 Hc1).
  pose proof (callback_obs_false es secs1 s1 st1 k) as Hf.
  destruct (callback es secs1 s1 st1) as [[[secs2 s2] st2] ?]. simpl in *.
  intros Hne. destruct (decide (count_of (views s1) id = count_of (views s) id)) as [Heq|Hneq].
  - apply IH. congruence.
  - by apply Hf, Hch.
Qed.

Lemma counted_stable_inv ids m0 S S' k id :
  NoDup ids -> vc_inv ids m0 S -> rtc host_step S S' ->
  ids !! k = Some id -> observed_of S !! k = Some false ->
  count_of (views_of S') id = count_of (views_of S) id /\ observed_of S' !! k = Some false.
Proof.
  intros Hnd Hinv Hrtc Hk. revert Hinv.
  induction Hrtc as [x|x y z Hxy _ IH]; intros Hinv Hobs; [done|].
  assert (Hy : count_of (views_of y) id = count_of (views_of x) id /\
               observed_of y !! k = Some false).
  { destruct Hxy as [secs s st k' r Hk' _|secs s st _]; [done|].
    destruct Hinv as [Hc Hq]. unfold views_of, observed_of in *. simpl in *.
    pose proof (callback_frame ids m0 (queue s) secs (mk_vc (views s) (observed s) (prev s) [])
                  st k id (count_of (views s) id) Hnd Hc Hk eq_refl Hobs) as Hf.
    destruct (callback _ _ _ _) as [[[? ?] ?] ?]. apply Hf.
    intros e He Heq. rewrite <- Heq, (Hq e He) in Hobs. done. }
  destruct Hy as [Hy1 Hy2]. destruct (IH (host_step_inv _ _ _ _ Hnd Hinv Hxy) Hy2) as [? ?].
  split; [congruence|done].
Qed.

(** C5: on a page with distinct section ids and an agent that accepts
    every write, a host step that changes the count of section [k] stops
    observing it, and no later step changes that count again: a section
    is counted in at most one delivery. *)
Theorem vc_counted_once st0 secs0 m0 S S1 S' k id :
  NoDup (sec_id <$> secs0) -> load_views st0 = Ok m0 -> vc_reachable st0 secs0 S ->
  (sec_id <$> secs0) !! k = Some id ->
  host_step S S1 -> count_of (views_of S1) id <> count_of (views_of S) id -> rtc host_step S1 S' ->
  observed_of S1 !! k = Some false /\ count_of (views_of S') id = count_of (views_of S1) id.
Proof.
  intros Hnd Hl (secs1 & s1 & Hinit & Hrtc0) Hk Hstep Hch Hrtc.
  assert (Hinv : vc_inv (sec_id <$> secs0) m0 S)
    by (eapply rtc_inv; [done| |exact Hrtc0]; by eapply init_views_inv).
  assert (Hobs : observed_of S1 !! k = Some false).
  { destruct Hstep as [secs s st k' r _ _|secs s st _]; [done|].
    destruct Hinv as [Hc _]. unfold views_of, observed_of in *. simpl in *.
    pose proof (callback_count_changed _ m0 (queue s) secs (mk_vc (views s) (observed s) (prev s) [])
                  st k id Hnd Hc Hk) as H.
    destruct (callback _ _ _ _) as [[[? ?] ?] ?]. by apply H. }
  split; [done|].
  apply (counted_stable_inv (sec_id <$> secs0) m0 S1 S' k id); try done.
  by eapply host_step_inv.
Qed.

(** C6: a delivered batch whose entries all target section [k] adds one
    to the section's count for every entry with a positive visible ratio:
    the callback neither checks that the target is still observed nor
    compares the ratio with the 0.6 threshold.  The count is a JavaScript
    number: it grows up to 2^53, where [n + 1] rounds back to [n], and
    stays there. *)
Theorem callback_counts_batch es secs s st k sec :
  secs !! k = Some sec -> Forall (fun e => target e = k) es ->
  exact_int (count_of (views s) (sec_id sec)) = true ->
  let '(_, s', _) := (callback es secs s st).1 in
  count_of (views s') (sec_id sec) =
    Z.min (count_of (views s) (sec_id sec) + Z.of_nat (length (filter isIntersecting es)))
      max_exact.
Proof.
  intros Hs Hes. revert secs s st sec Hs.
  induction Hes as [|e es He _ IH]; intros secs s st sec Hs Hx.
  { simpl. apply exact_int_spec in Hx. lia. }
  rewrite callback_accepted_cons.
  pose proof (on_entry_lookup secs s st e k sec Hs He) as Hl.
  destruct (on_entry secs s st e) as [[[secs' s'] st'] ?].
  destruct Hl as [(sec' & Hs' & Hid) Hc]. specialize (IH secs' s' st' sec' Hs').
  rewrite Hid, Hc in IH.
  destruct (callback es secs' s' st') as [[[? ?] ?] ?]. simpl in *.
  rewrite filter_cons. destruct (isIntersecting e); simpl.
  - rewrite IH by (by apply js_add1_exact). rewrite js_add1_min by done. lia.
  - rewrite IH by done. done.
Qed.

End Accepted.

(** ** When the agent refuses every write *)

Section NoStorage.
Hypothesis HNo : forall st, SP st = false.

(** A section scrolled fully into view and out again. *)
Definition visit (k : nat) : list host_op := [Geometry k 700; Deliver; Geometry k 0; Deliver].

Lemma visit_refused secs s st k sec :
  st !! key = None -> secs !! k = Some sec -> observed s !! k = Some true ->
  k < length (prev s) -> prev s !! k <> Some (Some (true, true)) -> queue s = [] ->
  host_run (visit k) (secs, s, st) =
  Some (<[k := set_view_count (views_label (js_add (count_of (views s) (sec_id sec)) 1)) sec]> secs,
        mk_vc (obj_set (views s) (sec_id sec) (js_add (count_of (views s) (sec_id sec)) 1)) (observed s)
              (<[k := Some (false, false)]> (prev s)) [], st).
Proof.
  intros Hst Hs Hobs Hk Hp Hq. cbn [visit host_run host_exec].
  rewrite !bool_decide_eq_true_2 by done. simpl. rewrite Hq. simpl.
  unfold on_entry. simpl. rewrite Hs. simpl.
  unfold saveViews. rewrite setItem_refused by (by rewrite Hst || apply HNo). simpl.
  rewrite Hobs, list_lookup_insert_eq by done. rewrite !bool_decide_eq_true_2 by done.
  simpl. by rewrite list_insert_insert_eq.
Qed.

(** C8: when the agent refuses every write and nothing is stored yet (a
    private window that has no storage), every time a section scrolls fully
    into view and out again the callback counts it once more: after [n]
    visits its count and label have grown by [n] (up to 2^53, where the
    JavaScript count stops), it is still observed, and the store never
    changes.  The spec counts a section once per page load. *)
Theorem vc_no_storage_recounts n secs s st k sec :
  st !! key = None -> secs !! k = Some sec -> observed s !! k = Some true ->
  k < length (prev s) -> prev s !! k <> Some (Some (true, true)) -> queue s = [] ->
  exact_int (count_of (views s) (sec_id sec)) = true ->
  exists secs' s', host_run (concat (repeat (visit k) n)) (secs, s, st) = Some (secs', s', st) /\
    count_of (views s') (sec_id sec) = Z.min (count_of (views s) (sec_id sec) + Z.of_nat n) max_exact /\
    observed s' !! k = Some true /\
    (0 < n -> exists sec', secs' !! k = Some sec' /\
                sec_view_count sec' = views_label (count_of (views s') (sec_id sec))).
Proof.
  revert secs s sec. induction n as [|n IH]; intros secs s sec Hst Hs Hobs Hk Hp Hq Hx.
  { exists secs, s. apply exact_int_spec in Hx. split_and!; [done|simpl; lia|done|lia]. }
  cbn [repeat concat]. rewrite host_run_app, (visit_refused secs s st k sec) by done. simpl.
  set (c := js_add (count_of (views s) (sec_id sec)) 1).
  set (sec1 := set_view_count (views_label c) sec).
  assert (Hs1 : <[k := sec1]> secs !! k = Some sec1)
    by (apply list_lookup_insert_eq; by eapply lookup_lt_Some).
  destruct (IH (<[k := sec1]> secs) (mk_vc (obj_set (views s) (sec_id sec) c) (observed s)
              (<[k := Some (false, false)]> (prev s)) []) sec1)
    as (secs' & s' & Hrun & Hc & Hobs' & Hl); simpl; try done.
  - by rewrite length_insert.
  - by rewrite list_lookup_insert_eq.
  - rewrite count_of_set_eq. by apply js_add1_exact.
  - exists secs', s'. rewrite Hrun. simpl in Hc. rewrite count_of_set_eq in Hc.
    split_and!; [done|subst c; rewrite Hc, js_add1_min by done; lia|done|]. intros _.
    destruct n as [|n]; [|by apply Hl; lia].
    simpl in Hrun. injection Hrun as <- <-. exists sec1. split; [done|]. simpl.
    by rewrite count_of_set_eq.
Qed.

End NoStorage.

End Lemmas.

(** ** Witnesses *)

Section Witnesses.
#[local] Existing Instance unlimited.

Lemma vc_persisted_witness :
  load_views (Sample.after [Geometry 0 700; Deliver]).2 =
  Ok (views_of (Sample.after [Geometry 0 700; Deliver])).
Proof.
  refine (proj1 (vc_persisted (fun _ => eq_refl) ∅ Sample.secs [] (Sample.after [Geometry 0 700; Deliver]) _ _ _)).
  - apply (bool_decide_unpack _). vm_compute. exact I.
  - vm_compute. reflexivity.
  - exists (Sample.start.1.1), (Sample.start.1.2). split; [vm_compute; reflexivity|].
    apply (host_run_rtc [Geometry 0 700; Deliver]). vm_compute. reflexivity.
Defined.

Lemma vc_counted_once_witness :
  observed_of (Sample.after [Geometry 0 700; Deliver]) !! 0 = Some false /\
  count_of (views_of (Sample.after [Geometry 0 700; Deliver; Geometry 1 300; Deliver]))
    ⟪"manzanilla"⟫ =
  count_of (views_of (Sample.after [Geometry 0 700; Deliver])) ⟪"manzanilla"⟫.
Proof.
  apply (vc_counted_once (fun _ => eq_refl) ∅ Sample.secs [] (Sample.after [Geometry 0 700])
    (Sample.after [Geometry 0 700; Deliver])
    (Sample.after [Geometry 0 700; Deliver; Geometry 1 300; Deliver]) 0 ⟪"manzanilla"⟫).
  - apply (bool_decide_unpack _). vm_compute. exact I.
  - vm_compute. reflexivity.
  - exists (Sample.start.1.1), (Sample.start.1.2). split; [vm_compute; reflexivity|].
    apply (host_run_rtc [Geometry 0 700]). vm_compute. reflexivity.
  - vm_compute. reflexivity.
  - apply (host_exec_step Deliver). vm_compute. reflexivity.
  - vm_compute. discriminate.
  - apply (host_run_rtc [Geometry 1 300; Deliver]). vm_compute. reflexivity.
Defined.

Lemma callback_counts_batch_witness :
  queue (Sample.after [Geometry 0 300; Geometry 0 0; Geometry 0 700]).1.2 =
    [mk_entry 0 300; mk_entry 0 0; mk_entry 0 700] /\
  let '(_, s', _) := (callback [mk_entry 0 300; mk_entry 0 0; mk_entry 0 700]
                       Sample.start.1.1 Sample.start.1.2 ∅).1 in
  count_of (views s') ⟪"manzanilla"⟫ = 2%Z.
Proof.
  split; [vm_compute; reflexivity|].
  pose proof (callback_counts_batch (fun _ => eq_refl) [mk_entry 0 300; mk_entry 0 0; mk_entry 0 700]
    Sample.start.1.1 Sample.start.1.2 ∅ 0
    (mk_section ⟪"manzanilla"⟫ (Some ⟪"Manzanilla"⟫) [] [] [] [] (views_label 0))
    ltac:(vm_compute; reflexivity) ltac:(repeat constructor) ltac:(vm_compute; reflexivity)) as H.
  vm_compute in H. vm_compute. exact H.
Defined.

Lemma vc_no_storage_recounts_witness :
  exists secs' s', host_run (SP := no_storage) (concat (repeat (visit 0) 3)) Sample.start =
      Some (secs', s', ∅) /\ count_of (views s') ⟪"manzanilla"⟫ = 3%Z /\ observed s' !! 0 = Some true.
Proof.
  destruct (vc_no_storage_recounts (SP := no_storage) (fun _ => eq_refl) 3 Sample.start.1.1
              Sample.start.1.2 ∅ 0 (init_label [] (mk_section ⟪"manzanilla"⟫ (Some ⟪"Manzanilla"⟫) [] [] [] [] []))
              (lookup_empty _) ltac:(vm_compute; reflexivity) ltac:(vm_compute; reflexivity)
              ltac:(simpl; lia) ltac:(vm_compute; discriminate) ltac:(vm_compute; reflexivity)
              ltac:(vm_compute; reflexivity))
    as (secs' & s' & Hrun & Hc & Hobs & _).
  exists secs', s'. split_and!; [exact Hrun| |exact Hobs]. etransitivity; [exact Hc|vm_compute; reflexivity].
Defined.

(** The first section of the sample page, counted 2^53 times. *)
Definition at_max : vc_state := mk_vc [(⟪"manzanilla"⟫, max_exact)] [true; true] [None; None] [].

Lemma count_stops_at_max_witness :
  let '(secs', s', _, _) := on_entry Sample.start.1.1 at_max ∅ (mk_entry 0 700) in
  count_of (views s') ⟪"manzanilla"⟫ = max_exact /\
  sec_view_count <$> secs' !! 0 = Some ⟪"9007199254740992 vistas"⟫.
Proof.
  pose proof (count_stops_at_max Sample.start.1.1 at_max ∅ (mk_entry 0 700)
                (init_label [] (mk_section ⟪"manzanilla"⟫ (Some ⟪"Manzanilla"⟫) [] [] [] [] []))
                ltac:(vm_compute; reflexivity) eq_refl ltac:(vm_compute; reflexivity)) as H.
  destruct (on_entry _ _ _ _) as [[[secs' s'] st'] x]. exact (proj2 (proj2 H) eq_refl).
Defined.

End Witnesses.

End ViewCounter.
