(* ===== verification/ViewsSpec.v ===== *)
(** * The view counter against its specification

    The spec (sections 3 and 4.6) describes [ViewCountMap] as a mapping
    from item ids to counts that a counted item increments by one.  The
    code keeps a JavaScript object, modelled in [ViewCounter] as the list
    of its properties in insertion order.  This file abstracts that list
    to a [gmap jsstr Z] (the first property of a key is the one JavaScript
    reads), shows that property reads and writes are map lookups and
    inserts, and that the observer's callback on a batch of entries is the
    spec's increment applied to each intersecting entry in turn. *)

From S2P Require Import Prelude JsString JsNumber Json Extractor ViewCounter.
Import JsString JsNumber Json Extractor ViewCounter.

Module ViewsSpec.

(** ** The abstract counter *)

Abbreviation count_map := (gmap jsstr Z).

(** The spec's update: item [id] is counted once more. *)
Definition incr (id : jsstr) (m : count_map) : count_map :=
  <[id := (default 0 (m !! id) + 1)%Z]> m.

(** The spec's counter after a batch of entries on sections with ids
    [ids]: each intersecting entry counts its section. *)
Definition views_spec (ids : list jsstr) (es : list entry) (m : count_map) : count_map :=
  foldl (fun m e => if isIntersecting e then
                      match ids !! target e with Some id => incr id m | None => m end
                    else m) m es.

(** ** Abstraction of the object *)

Definition abs (m : counts) : count_map := list_to_map m.

Lemma obj_get_abs m k : obj_get m k = abs m !! k.
Proof.
  unfold abs. induction m as [|[k' v] m IH]; simpl; [done|].
  case_bool_decide as E; [subst; by rewrite lookup_insert_eq|].
  by rewrite lookup_insert_ne.
Qed.

Lemma count_of_abs m k : count_of m k = default 0%Z (abs m !! k).
Proof. unfold count_of. by rewrite obj_get_abs. Qed.

Lemma obj_set_abs m k v : abs (obj_set m k v) = <[k := v]> (abs m).
Proof.
  unfold abs. induction m as [|[k' v'] m IH]; simpl; [done|].
  case_bool_decide as E.
  - subst. simpl. by rewrite insert_insert_eq.
  - simpl. rewrite IH. by apply insert_insert_ne.
Qed.

Section WithStorage.
Context `{SP : StoragePolicy}.

Lemma on_entry_ids secs s st e :
  let '(secs', _, _, _) := on_entry secs s st e in sec_id <$> secs' = sec_id <$> secs.
Proof.
  unfold on_entry. destruct (isIntersecting e); try done;
    destruct (secs !! target e) as [sec|] eqn:Hs; try done; simpl;
    destruct (saveViews _ _); simpl;
    rewrite list_fmap_insert; simpl; apply list_insert_id; by rewrite list_lookup_fmap, Hs.
Qed.

(** Counts with room for [n] more entries: exact numbers whose sum with
    [n] stays within 2^53, where every [n + 1] of the callback is exact. *)
Definition room (m : counts) (n : nat) : Prop :=
  counts_exact m = true /\ forall id, (count_of m id + Z.of_nat n <= max_exact)%Z.

Lemma room_incr m n id : room m (S n) -> js_add (count_of m id) 1 = (count_of m id + 1)%Z.
Proof.
  intros [Hx Hr]. apply js_add1_below; [by apply count_of_exact|]. specialize (Hr id). lia.
Qed.

Lemma on_entry_room secs s st e n :
  room (views s) (S n) -> let '(_, s1, _, _) := on_entry secs s st e in room (views s1) n.
Proof.
  intros [Hx Hc]. assert (Hr : room (views s) n) by (split; [done|]; intros id; specialize (Hc id); lia).
  assert (Hn : forall id0, room (obj_set (views s) id0 (js_add (count_of (views s) id0) 1)) n).
  { intros id0. split; [by apply counts_exact_incr|]. intros id.
    destruct (decide (id0 = id)) as [<-|Hne].
    - rewrite count_of_set_eq, (room_incr _ n) by done. specialize (Hc id0). lia.
    - rewrite count_of_set_ne by done. specialize (Hc id). lia. }
  unfold on_entry. repeat case_match; simplify_eq/=; auto.
Qed.

(** ** Properties *)

Section Accepted.
Hypothesis HSP : forall st, SP st = true.

(** C7: when the agent accepts every write, the observer's callback on a
    batch of entries implements the spec's count map: read as a map from
    ids to counts, the object after the batch is the spec's increment
    applied to each intersecting entry in delivery order, whatever the
    order of the object's properties, as long as no count passes 2^53
    (where the JavaScript count stops); the sections keep their ids. *)
Theorem callback_refines es secs s st :
  room (views s) (length es) ->
  let '(secs', s', _) := (callback es secs s st).1 in
  sec_id <$> secs' = sec_id <$> secs /\
  abs (views s') = views_spec (sec_id <$> secs) es (abs (views s)).
Proof.
  revert secs s st. induction es as [|e es IH]; intros secs s st Hroom; [done|].
  rewrite (callback_accepted_cons HSP). pose proof (on_entry_ids secs s st e) as Hi.
  pose proof (on_entry_room secs s st e (length es) Hroom) as Hr1.
  assert (Ha : let '(_, s1, _, _) := on_entry secs s st e in
    abs (views s1) = if isIntersecting e then
      match (sec_id <$> secs) !! target e with Some id => incr id (abs (views s)) | None => abs (views s) end
    else abs (views s)).
  { unfold on_entry. destruct (isIntersecting e); [|done].
    rewrite list_lookup_fmap. destruct (secs !! target e) as [sec|]; [|done].
    rewrite (saveViews_accepted HSP). simpl.
    unfold incr. by rewrite obj_set_abs, (room_incr _ _ _ Hroom), count_of_abs. }
  destruct (on_entry secs s st e) as [[[secs1 s1] st1] ?]. specialize (IH secs1 s1 st1 Hr1).
  destruct (callback es secs1 s1 st1) as [[[secs' s'] st'] ?]. destruct IH as [Hi' Ha'].
  simpl in *. rewrite Hi in Ha'. rewrite Hi', Hi, Ha', Ha. split; [done|]. reflexivity.
Qed.

End Accepted.
End WithStorage.

Lemma callback_refines_witness :
  let '(_, s', _) := (callback (SP := unlimited) [mk_entry 0 700; mk_entry 1 300]
                        Sample.start.1.1 Sample.start.1.2 ∅).1 in
  abs (views s') = views_spec [⟪"manzanilla"⟫; ⟪"romero"⟫] [mk_entry 0 700; mk_entry 1 300] ∅.
Proof.
  assert (Hr : room (views Sample.start.1.2) (length [mk_entry 0 700; mk_entry 1 300])).
  { split; [reflexivity|]. intros id. unfold count_of, max_exact. simpl. lia. }
  pose proof (callback_refines (SP := unlimited) (fun _ => eq_refl) [mk_entry 0 700; mk_entry 1 300]
                Sample.start.1.1 Sample.start.1.2 ∅ Hr) as H.
  destruct (callback _ _ _ _) as [[[secs' s'] st'] x]. exact (proj2 H).
Defined.

End ViewsSpec.
