(* ===== verification/Theme.v ===== *)
(** * Theme switch ([script.js] lines 66-82)

    The [dark-mode] class of [document.body], the label of the theme
    button, and the [theme] item of [localStorage].  [applyTheme] writes
    the label from the class, the click listener toggles the class,
    persists it and calls [applyTheme], and the page load applies a stored
    ["dark"] before the first [applyTheme].  The click's [setItem] may be
    refused by the user agent; the exception then skips [applyTheme]. *)

From S2P Require Import Prelude JsString.
Import JsString.

Module Theme.

Record theme_state := mk_theme {
  dark : bool;              (* document.body.classList.contains('dark-mode') *)
  toggle_label : jsstr      (* themeToggle.textContent *)
}.

Definition key : jsstr := ⟪"theme"⟫.

Definition stored_value (d : bool) : jsstr := if d then ⟪"dark"⟫ else ⟪"light"⟫.

(** Lines 66-69. *)
Definition applyTheme (s : theme_state) : theme_state :=
  mk_theme (dark s) (if dark s then ⟪"Modo Claro"⟫ else ⟪"Modo Oscuro"⟫).

Section WithStorage.
Context `{SP : StoragePolicy}.

(** Lines 71-76: toggle the class, persist, relabel.  A refused
    [setItem] throws before [applyTheme], leaving the class toggled and
    the label as it was. *)
Definition theme_click (s : theme_state) (st : store) : theme_state * store * option exn :=
  let s1 := mk_theme (negb (dark s)) (toggle_label s) in
  match setItem key (stored_value (dark s1)) st with
  | Ok st' => (applyTheme s1, st', None)
  | Throw e => (s1, st, Some e)
  end.

(** Lines 79-82: the page load, from the body and label the HTML has. *)
Definition init_theme (s0 : theme_state) (st : store) : theme_state :=
  let s1 := if bool_decide (st !! key = Some ⟪"dark"⟫) then mk_theme true (toggle_label s0) else s0 in
  applyTheme s1.

(** [n] clicks on the theme button; each click is its own listener call,
    so an exception ends that click only. *)
Fixpoint clicks (n : nat) (s : theme_state) (st : store) : theme_state * store :=
  match n with
  | O => (s, st)
  | S n' => let '(s1, st1, _) := theme_click s st in clicks n' s1 st1
  end.

(** The label names the mode the next click switches to. *)
Definition label_ok (s : theme_state) : Prop :=
  toggle_label s = if dark s then ⟪"Modo Claro"⟫ else ⟪"Modo Oscuro"⟫.

(** ** Lemmas *)

Lemma applyTheme_ok s : label_ok (applyTheme s).
Proof. done. Qed.

Lemma applyTheme_id s : label_ok s -> applyTheme s = s.
Proof. destruct s as [d l]. unfold label_ok, applyTheme. simpl. by intros ->. Qed.

Lemma theme_click_accepted s st :
  SP (<[key := stored_value (negb (dark s))]> st) = true ->
  theme_click s st = (applyTheme (mk_theme (negb (dark s)) (toggle_label s)),
                      <[key := stored_value (negb (dark s))]> st, None).
Proof. intros Hq. unfold theme_click. simpl. by rewrite setItem_ok. Qed.

Lemma clicks_add m n s st :
  clicks (m + n) s st = let '(s1, st1) := clicks m s st in clicks n s1 st1.
Proof.
  revert s st. induction m as [|m IH]; intros s st; simpl; [done|].
  destruct (theme_click s st) as [[s1 st1] ?]. apply IH.
Qed.

(** The stores a theme click can write from [st]. *)
Definition theme_room (st : store) : Prop := forall d, SP (<[key := stored_value d]> st) = true.

Lemma theme_room_insert st d : theme_room st -> theme_room (<[key := stored_value d]> st).
Proof. intros Hr d'. by rewrite insert_insert_eq. Qed.

Lemma clicks_two s st :
  label_ok s -> theme_room st -> clicks 2 s st = (s, <[key := stored_value (dark s)]> st).
Proof.
  intros Hl Hr. destruct s as [d l]. unfold label_ok in Hl. simpl in Hl. subst l. simpl.
  rewrite theme_click_accepted by apply Hr. simpl.
  rewrite theme_click_accepted by (apply theme_room_insert, Hr). simpl.
  rewrite negb_involutive, insert_insert_eq. by destruct d.
Qed.

(** ** Properties *)

(** C24: a click whose write the agent accepts flips the theme, stores
    the new mode as ["dark"] or ["light"], relabels the button with the
    other mode, and a reload of a page served in light mode comes back in
    the clicked mode. *)
Theorem theme_click_reload s st l :
  SP (<[key := stored_value (negb (dark s))]> st) = true ->
  let '(s', st', e) := theme_click s st in
  e = None /\ dark s' = negb (dark s) /\ st' !! key = Some (stored_value (dark s')) /\
  label_ok s' /\ init_theme (mk_theme false l) st' = s'.
Proof.
  intros Hq. rewrite theme_click_accepted by done. simpl. rewrite lookup_insert_eq.
  split_and!; try done. unfold init_theme. rewrite lookup_insert_eq.
  destruct (dark s); vm_compute; reflexivity.
Qed.


(** C37: the page load labels the button to match the body, and the body
    is dark exactly when the store says ["dark"] or the HTML already had the
    class: a stored ["light"] does not clear it. *)
Theorem init_theme_spec s0 st :
  label_ok (init_theme s0 st) /\
  dark (init_theme s0 st) = bool_decide (st !! key = Some ⟪"dark"⟫) || dark s0.
Proof. unfold init_theme. split; [done|]. by case_bool_decide. Qed.

(** C26: when the agent refuses the write, the click throws after
    toggling the class and before relabelling: the body is in the new
    mode, the button still names it as the next action, and the store
    keeps the old mode, so a reload switches back. *)
Theorem theme_click_refused s st :
  label_ok s -> st !! key <> Some (stored_value (negb (dark s))) ->
  SP (<[key := stored_value (negb (dark s))]> st) = false ->
  let '(s', st', e) := theme_click s st in
  e = Some QuotaExceeded /\ st' = st /\ dark s' = negb (dark s) /\
  toggle_label s' = toggle_label s /\ ~ label_ok s'.
Proof.
  intros Hl Hk Hq. unfold theme_click. simpl. rewrite setItem_refused by done.
  split_and!; try done. unfold label_ok in *. simpl. rewrite Hl.
  destruct (dark s); simpl; by vm_compute.
Qed.

End WithStorage.

Lemma theme_click_reload_witness :
  let '(s', st', e) := theme_click (SP := unlimited) (mk_theme false ⟪"Modo Oscuro"⟫) ∅ in
  e = None /\ dark s' = true /\ st' !! key = Some (stored_value (dark s')) /\
  label_ok s' /\ init_theme (mk_theme false ⟪"Modo Oscuro"⟫) st' = s'.
Proof. exact (theme_click_reload (SP := unlimited) (mk_theme false ⟪"Modo Oscuro"⟫) ∅ ⟪"Modo Oscuro"⟫ eq_refl). Defined.


Lemma theme_click_refused_witness :
  let '(s', st', e) := theme_click (SP := no_storage) (mk_theme false ⟪"Modo Oscuro"⟫) ∅ in
  e = Some QuotaExceeded /\ st' = ∅ /\ dark s' = true /\
  toggle_label s' = ⟪"Modo Oscuro"⟫ /\ ~ label_ok s'.
Proof.
  exact (theme_click_refused (SP := no_storage) (mk_theme false ⟪"Modo Oscuro"⟫) ∅
           eq_refl ltac:(by rewrite lookup_empty) eq_refl).
Defined.

End Theme.
