(* ===== verification/Storage.v ===== *)
(** * The stored items of [localStorage] and their contract

    Three components keep state in [localStorage], each under its own key:
    the favourites ([plantFavorites], lines 33 and 49), the view counts
    ([plantViews], lines 113-114) and the theme ([theme], lines 74 and
    79).  What one component promises the others is the same for all
    three: saving writes its own key and nothing else, loading reads its
    own key and nothing else, and a saved value of the right shape loads
    back.  [persisted] states that contract as a record of operations with
    its laws; [favorites_item], [views_item] and [theme_item] discharge it
    for the three components, and [Page] proves the independence of the
    items against the record rather than against each component. *)

From S2P Require Import Prelude JsString Json Extractor Favorites ViewCounter Theme.
Import JsString Json Extractor Favorites ViewCounter Theme.

Module Storage.

(** A stored item: its key, the text [setItem] writes for a value, the
    load-time reading, and the values that survive the round trip (for
    the two JSON items, those whose numbers JavaScript holds exactly). *)
Record persisted (A : Type) := mk_persisted {
  p_key : jsstr;
  p_value : A -> jsstr;
  p_load : store -> res A;
  p_wf : A -> Prop;
  p_load_local st st' : st !! p_key = st' !! p_key -> p_load st = p_load st';
  p_load_value a st : p_wf a -> p_load (<[p_key := p_value a]> st) = Ok a
}.
Arguments p_key {A} _.
Arguments p_value {A} _ _.
Arguments p_load {A} _ _.
Arguments p_wf {A} _ _.

(** [localStorage.setItem(key, value)]. *)
Definition p_save {A} (P : persisted A) (a : A) (st : store) : store :=
  <[p_key P := p_value P a]> st.

(** ** Laws every stored item has *)

Section Laws.
Context {A B : Type} (P : persisted A) (Q : persisted B).

Lemma p_load_insert_ne k v st : k <> p_key P -> p_load P (<[k := v]> st) = p_load P st.
Proof. intros Hk. apply p_load_local. by rewrite lookup_insert_ne. Qed.

Lemma p_load_save_other b st : p_key Q <> p_key P -> p_load P (p_save Q b st) = p_load P st.
Proof. apply p_load_insert_ne. Qed.

Lemma p_save_commute a b st :
  p_key P <> p_key Q -> p_save P a (p_save Q b st) = p_save Q b (p_save P a st).
Proof. intros Hk. by apply insert_insert_ne. Qed.

(** A saved item still loads back after another item is saved. *)
Lemma p_load_save_across a b st :
  p_wf P a -> p_key Q <> p_key P -> p_load P (p_save Q b (p_save P a st)) = Ok a.
Proof. intros Ha Hk. rewrite p_load_save_other by done. by apply p_load_value. Qed.

End Laws.

(** ** The three items *)

Definition favorites_item : persisted (list json).
Proof.
  refine (mk_persisted _ Favorites.key (fun favs => stringify (JArr favs)) load_favorites
            (fun favs => forallb json_exact favs = true) _ _).
  - intros st st' E. unfold load_favorites. by rewrite E.
  - intros favs st Hx. by apply load_favorites_stringify.
Defined.

Definition views_item : persisted ViewCounter.counts.
Proof.
  refine (mk_persisted _ ViewCounter.key (fun m => stringify (counts_json m)) load_views
            (fun m => NoDup (fst <$> m) /\ counts_exact m = true) _ _).
  - intros st st' E. unfold load_views. by rewrite E.
  - intros m st [Hnd Hx]. apply (load_views_saved m st Hnd Hx).
Defined.

(** Line 79: [localStorage.getItem('theme') === 'dark']. *)
Definition theme_load (st : store) : res bool := Ok (bool_decide (st !! Theme.key = Some ⟪"dark"⟫)).

Definition theme_item : persisted bool.
Proof.
  refine (mk_persisted _ Theme.key stored_value theme_load (fun _ => True) _ _).
  - intros st st' E. unfold theme_load. by rewrite E.
  - intros d st _. unfold theme_load. rewrite lookup_insert_eq. by destruct d.
Defined.

End Storage.
