(* ===== verification/FavView.v ===== *)
(** * Favourites view filter ([script.js] lines 98-109)

    The [showingFavorites] flag, the label and background of the
    [show-favorites] button, and the click listener that flips the flag and
    rewrites the display of every section from the favourites array. *)

From S2P Require Import Prelude JsString Json Extractor Favorites.
Import JsString Json Extractor Favorites.

Module FavView.

Record fv_state := mk_fv {
  showingFavorites : bool;
  fv_label : jsstr;          (* showFavoritesBtn.textContent *)
  fv_background : jsstr      (* showFavoritesBtn.style.background *)
}.

(** Line 98: the flag starts false; the button keeps the HTML's label. *)
Definition init_fv (label background : jsstr) : fv_state := mk_fv false label background.

(** Lines 101-104, the [forEach] callback. *)
Definition fav_display (showing : bool) (favs : list json) (sec : section) : section :=
  set_display (if showing then (if includes_id favs (sec_id sec) then ⟪""⟫ else ⟪"none"⟫)
               else ⟪""⟫) sec.

(** Lines 105-108. *)
Definition fv_button (showing : bool) (favs : list json) : jsstr * jsstr :=
  let n := num_str (Z.of_nat (length favs)) in
  (if showing then ⟪"Volver ("⟫ ++ n ++ ⟪")"⟫ else ⟪"Ver Favoritos ("⟫ ++ n ++ ⟪")"⟫,
   if showing then ⟪"#333"⟫ else ⟪"#e91e63"⟫).

(** Lines 99-109: the click listener. *)
Definition showFavorites_click (favs : list json) (s : fv_state) (secs : list section)
  : fv_state * list section :=
  let showing := negb (showingFavorites s) in
  let '(label, bg) := fv_button showing favs in
  (mk_fv showing label bg, map (fav_display showing favs) secs).

(** ** Lemmas *)

Lemma fav_display_id showing favs sec : sec_id (fav_display showing favs sec) = sec_id sec.
Proof. done. Qed.

Lemma fav_display_twice b b' favs sec :
  fav_display b favs (fav_display b' favs sec) = fav_display b favs sec.
Proof. done. Qed.

(** ** Properties *)

(** C27: a click on the favourites button flips the flag; when it is now
    on, a section is shown exactly when its id is in the favourites array,
    and when it is off every section is shown.  The label shows the mode
    and the array length. *)
Theorem showFavorites_visible favs s secs i sec :
  secs !! i = Some sec ->
  let '(s', secs') := showFavorites_click favs s secs in
  showingFavorites s' = negb (showingFavorites s) /\
  fv_label s' = (if showingFavorites s' then ⟪"Volver ("⟫ else ⟪"Ver Favoritos ("⟫)
                 ++ num_str (Z.of_nat (length favs)) ++ ⟪")"⟫ /\
  exists sec', secs' !! i = Some sec' /\ sec_id sec' = sec_id sec /\
    (sec_display sec' = ⟪""⟫ <->
     showingFavorites s' = false \/ JStr (sec_id sec) ∈ favs).
Proof.
  intros Hs. unfold showFavorites_click, fv_button. simpl.
  split; [done|]. split; [by destruct (showingFavorites s)|].
  exists (fav_display (negb (showingFavorites s)) favs sec).
  rewrite list_lookup_fmap, Hs. split; [done|split; [done|]].
  unfold fav_display. simpl. rewrite <- includes_id_spec.
  destruct (showingFavorites s), (includes_id favs (sec_id sec)); vm_compute; intuition congruence.
Qed.

Lemma showFavorites_visible_witness :
  exists sec', (showFavorites_click [JStr ⟪"romero"⟫] (init_fv ⟪"Ver Favoritos (1)"⟫ ⟪""⟫)
    [mk_section ⟪"manzanilla"⟫ None [] [] [] ⟪""⟫ ⟪""⟫; mk_section ⟪"romero"⟫ None [] [] [] ⟪""⟫ ⟪""⟫]).2 !! 0
    = Some sec' /\ sec_display sec' = ⟪"none"⟫.
Proof.
  pose proof (showFavorites_visible [JStr ⟪"romero"⟫] (init_fv ⟪"Ver Favoritos (1)"⟫ ⟪""⟫)
    [mk_section ⟪"manzanilla"⟫ None [] [] [] ⟪""⟫ ⟪""⟫; mk_section ⟪"romero"⟫ None [] [] [] ⟪""⟫ ⟪""⟫]
    0 (mk_section ⟪"manzanilla"⟫ None [] [] [] ⟪""⟫ ⟪""⟫) eq_refl) as H.
  destruct (showFavorites_click _ _ _) as [s' secs'] eqn:E. simpl.
  destruct H as (_ & _ & sec' & H1 & _ & _). exists sec'. split; [done|].
  vm_compute in E. injection E as _ <-. vm_compute in H1. by injection H1 as <-.
Defined.


End FavView.
