(* ===== verification/Recipe.v ===== *)
(** * Recipe copier ([script.js] lines 137-165)

    The click listener of every [.copy-btn]: it finds the plant named by
    [dataset.recipe], builds the recipe text from a template literal, and
    calls [navigator.clipboard.writeText].  The promise settles later: on
    success the button shows ["¡Copiado!"] in green and a 1500 ms timer
    puts back the label read at that moment; on failure an alert is shown.

    The asynchronous part is a small event machine: pending clipboard
    writes and pending timers are tasks, and the host settles or fires any
    pending task in any order (a superset of the browser's orders, which
    fire equal-delay timers first-in first-out). *)

From S2P Require Import Prelude JsString Extractor Search.
Import JsString Extractor Search.

Module Recipe.

(** ** The recipe text, lines 142-150 *)

Definition nl : jsstr := [10%N].

Definition bullet (i : jsstr) : jsstr := ⟪"• "⟫ ++ i.

Definition step_line (idx : nat) (s : jsstr) : jsstr :=
  nat_str (N.of_nat (idx + 1)) ++ ⟪". "⟫ ++ s.

(** The template's content between its first and last line breaks. *)
Definition recipe_body (p : plant) : jsstr :=
  toUpperCase (title p) ++ nl ++ nl ++ ⟪"Ingredientes:"⟫ ++ nl
  ++ join nl (map bullet (ingredients p)) ++ nl ++ nl ++ ⟪"Instrucciones:"⟫ ++ nl
  ++ join nl (imap step_line (recipeSteps p)).

(** The template literal (opening with a line break, closing with a line
    break and six spaces of indentation) and its [.trim()]. *)
Definition recipeText (p : plant) : jsstr :=
  trim (nl ++ recipe_body p ++ nl ++ ⟪"      "⟫).

(** ** Buttons, clipboard and pending tasks *)

Record copy_btn := mk_copy_btn {
  cb_recipe : option jsstr;   (* btn.dataset.recipe *)
  cb_text : jsstr;            (* btn.textContent *)
  cb_bg : jsstr               (* btn.style.background *)
}.

(** A pending [writeText] promise, or a pending [setTimeout] callback
    holding the label it restores. *)
Inductive task := ClipWrite (i : nat) (text : jsstr) | Revert (i : nat) (original : jsstr).

Record copy_state := mk_copy {
  cbtns : list copy_btn;
  clipboard : jsstr;
  tasks : list task;
  alerts : list jsstr
}.

Inductive copy_event := Click (i : nat) | Resolve (j : nat) | Reject (j : nat) | Fire (j : nat).

Definition copied : jsstr := ⟪"¡Copiado!"⟫.

(** Lines 139-151: a click on button [i]; no plant, no effect. *)
Definition copy_click (plants : list plant) (i : nat) (s : copy_state) : option copy_state :=
  btn ← cbtns s !! i;
  match cb_recipe btn ≫= find_plant plants with
  | None => Some s
  | Some p => Some (mk_copy (cbtns s) (clipboard s) (tasks s ++ [ClipWrite i (recipeText p)]) (alerts s))
  end.

(** Lines 152-158: the write succeeded. *)
Definition on_resolve (j : nat) (s : copy_state) : option copy_state :=
  match tasks s !! j with
  | Some (ClipWrite i t) =>
      btn ← cbtns s !! i;
      let original := cb_text btn in
      Some (mk_copy (<[i := mk_copy_btn (cb_recipe btn) copied ⟪"#4caf50"⟫]> (cbtns s)) t
              (delete j (tasks s) ++ [Revert i original]) (alerts s))
  | _ => None
  end.

(** Lines 159-161: the write was rejected. *)
Definition on_reject (j : nat) (s : copy_state) : option copy_state :=
  match tasks s !! j with
  | Some (ClipWrite _ _) =>
      Some (mk_copy (cbtns s) (clipboard s) (delete j (tasks s))
              (alerts s ++ [⟪"No se pudo copiar la receta."⟫]))
  | _ => None
  end.

(** Lines 156-157: the timer fires. *)
Definition on_fire (j : nat) (s : copy_state) : option copy_state :=
  match tasks s !! j with
  | Some (Revert i original) =>
      btn ← cbtns s !! i;
      Some (mk_copy (<[i := mk_copy_btn (cb_recipe btn) original ⟪""⟫]> (cbtns s)) (clipboard s)
              (delete j (tasks s)) (alerts s))
  | _ => None
  end.

Definition copy_exec (plants : list plant) (ev : copy_event) (s : copy_state) : option copy_state :=
  match ev with
  | Click i => copy_click plants i s
  | Resolve j => on_resolve j s
  | Reject j => on_reject j s
  | Fire j => on_fire j s
  end.

Fixpoint copy_run (plants : list plant) (evs : list copy_event) (s : copy_state) : option copy_state :=
  match evs with
  | [] => Some s
  | ev :: evs' => s' ← copy_exec plants ev s; copy_run plants evs' s'
  end.

(** A button whose recipe names the plant [p]. *)
Definition names (plants : list plant) (btn : copy_btn) (p : plant) : Prop :=
  cb_recipe btn ≫= find_plant plants = Some p.

(** ** Lemmas *)

Lemma copy_run_app plants evs1 evs2 s :
  copy_run plants (evs1 ++ evs2) s = s1 ← copy_run plants evs1 s; copy_run plants evs2 s1.
Proof.
  revert s. induction evs1 as [|ev evs1 IH]; intros s; simpl; [done|].
  destruct (copy_exec plants ev s); simpl; [apply IH|done].
Qed.

Lemma all_ws_nl : all_ws nl.
Proof. repeat constructor. Qed.

Lemma all_ws_indent : all_ws (nl ++ ⟪"      "⟫).
Proof. vm_compute. repeat constructor. Qed.

Lemma recipe_body_split p :
  exists pre, recipe_body p = toUpperCase (title p) ++ pre ++ join nl (imap step_line (recipeSteps p)).
Proof.
  exists (nl ++ nl ++ ⟪"Ingredientes:"⟫ ++ nl ++ join nl (map bullet (ingredients p))
          ++ nl ++ nl ++ ⟪"Instrucciones:"⟫ ++ nl).
  unfold recipe_body. by rewrite <- !app_assoc.
Qed.

Lemma step_line_ne idx s : step_line idx s <> [].
Proof. unfold step_line. by destruct (nat_str _). Qed.

Lemma step_line_last idx s : s <> [] -> last (step_line idx s) = last s.
Proof. intros Hs. unfold step_line. by rewrite !app_assoc, last_app_ne. Qed.

(** The last step of an extracted plant is trimmed. *)
Lemma extracted_last_step sec p s :
  extract_plant sec = Ok p -> last (recipeSteps p) = Some s -> s <> [] ->
  exists pre, recipeSteps p = pre ++ [s] /\ edge_nows (last s).
Proof.
  unfold extract_plant. destruct (sec_h2 sec); [|done]. intros [= <-]. simpl.
  intros Hl Hs. apply last_Some in Hl as (pre & Hpre). exists pre. split; [done|].
  assert (Hin : In s (map trim (sec_ol_lis sec))) by (rewrite Hpre; apply in_or_app; right; by left).
  apply in_map_iff in Hin as (t & <- & _). apply trim_last.
Qed.

Lemma extracted_title sec p : extract_plant sec = Ok p -> edge_nows (head (title p)).
Proof. unfold extract_plant. destruct (sec_h2 sec); [|done]. intros [= <-]. apply trim_head. Qed.

(** ** Properties *)



(** The copy tasks start from a quiet button [i] naming plant [p]. *)
Section QuietButton.
Context (plants : list plant) (s : copy_state) (i : nat) (btn : copy_btn) (p : plant).
Hypothesis Htasks : tasks s = [].
Hypothesis Hbtn : cbtns s !! i = Some btn.
Hypothesis Hnames : names plants btn p.

Lemma lookup_btn_lt : i < length (cbtns s).
Proof. by eapply lookup_lt_Some. Qed.

Ltac copy_step :=
  repeat first [progress unfold copy_click, on_resolve, on_reject, on_fire |rewrite Htasks | rewrite Hbtn | rewrite Hnames
               | rewrite list_lookup_insert_eq by (rewrite ?length_insert; apply lookup_btn_lt)
               | rewrite list_insert_insert_eq | progress simpl].

(** C23: a single copy on a quiet button puts the recipe text on the
    clipboard, shows the confirmation, and when the timer fires gives the
    button back its label (and the default background), with no task left. *)
Theorem copy_once_restores :
  copy_run plants [Click i; Resolve 0; Fire 0] s =
  Some (mk_copy (<[i := mk_copy_btn (cb_recipe btn) (cb_text btn) ⟪""⟫]> (cbtns s))
          (recipeText p) [] (alerts s)).
Proof. unfold names in Hnames. copy_step. done. Qed.

(** C10: two clicks on a quiet button before the first write settles,
    with the writes and timers settling in the browser's order, leave the
    button saying "¡Copiado!" with no task left that could restore it: the
    second success read the confirmation as the label to restore. *)
Theorem copy_double_click_stuck :
  copy_run plants [Click i; Click i; Resolve 0; Resolve 0; Fire 0; Fire 0] s =
  Some (mk_copy (<[i := mk_copy_btn (cb_recipe btn) copied ⟪""⟫]> (cbtns s))
          (recipeText p) [] (alerts s)).
Proof. unfold names in Hnames. copy_step. done. Qed.

(** C38: a rejected write raises the alert and changes neither the
    buttons nor the clipboard. *)
Theorem copy_reject_alert :
  copy_run plants [Click i; Reject 0] s =
  Some (mk_copy (cbtns s) (clipboard s) [] (alerts s ++ [⟪"No se pudo copiar la receta."⟫])).
Proof. unfold names in Hnames. copy_step. done. Qed.

End QuietButton.

Module Sample.
Definition plants : list plant :=
  [mk_plant ⟪"romero"⟫ ⟪"Romero"⟫ ⟪""⟫ [] [⟪"Hojas"⟫] [⟪"Infusionar."⟫]].
Definition state : copy_state :=
  mk_copy [mk_copy_btn (Some ⟪"romero"⟫) ⟪"Copiar receta"⟫ ⟪""⟫] [] [] [].
End Sample.

Lemma copy_once_restores_witness :
  copy_run Sample.plants [Click 0; Resolve 0; Fire 0] Sample.state =
  Some (mk_copy (cbtns Sample.state) (recipeText (mk_plant ⟪"romero"⟫ ⟪"Romero"⟫ ⟪""⟫ [] [⟪"Hojas"⟫] [⟪"Infusionar."⟫])) [] []).
Proof.
  apply (copy_once_restores Sample.plants Sample.state 0
    (mk_copy_btn (Some ⟪"romero"⟫) ⟪"Copiar receta"⟫ ⟪""⟫)); reflexivity.
Defined.

Lemma copy_double_click_stuck_witness :
  copy_run Sample.plants [Click 0; Click 0; Resolve 0; Resolve 0; Fire 0; Fire 0] Sample.state =
  Some (mk_copy [mk_copy_btn (Some ⟪"romero"⟫) copied ⟪""⟫]
          (recipeText (mk_plant ⟪"romero"⟫ ⟪"Romero"⟫ ⟪""⟫ [] [⟪"Hojas"⟫] [⟪"Infusionar."⟫])) [] []).
Proof.
  apply (copy_double_click_stuck Sample.plants Sample.state 0
    (mk_copy_btn (Some ⟪"romero"⟫) ⟪"Copiar receta"⟫ ⟪""⟫)); reflexivity.
Defined.

Lemma copy_reject_alert_witness :
  copy_run Sample.plants [Click 0; Reject 0] Sample.state =
  Some (mk_copy (cbtns Sample.state) [] [] [⟪"No se pudo copiar la receta."⟫]).
Proof.
  apply (copy_reject_alert Sample.plants Sample.state 0
    (mk_copy_btn (Some ⟪"romero"⟫) ⟪"Copiar receta"⟫ ⟪""⟫)
    (mk_plant ⟪"romero"⟫ ⟪"Romero"⟫ ⟪""⟫ [] [⟪"Hojas"⟫] [⟪"Infusionar."⟫])); reflexivity.
Defined.

End Recipe.
