(* ===== verification/CopyTasks.v ===== *)
(** * The copy machine's pending tasks

    The recipe copier of [Recipe] leaves tasks pending: clipboard writes
    that the browser settles, and timers that it fires.  Every task names
    the button its callback touches; buttons are never removed, so every
    task names a button of the page ([copy_wf]).  This file proves that
    every event keeps that so, and that a page with pending tasks always
    settles: the schedule [drain] (settle the tasks in order, then fire
    the timers the successful writes started) runs without getting stuck
    and leaves no task pending. *)

From S2P Require Import Prelude JsString Extractor Search Recipe.
Import JsString Extractor Search Recipe.

Module CopyTasks.

(** The button a task's callback touches. *)
Definition task_btn (t : task) : nat := match t with ClipWrite i _ | Revert i _ => i end.

Definition is_write (t : task) : bool := match t with ClipWrite _ _ => true | Revert _ _ => false end.

(** Every pending task names a button of the page. *)
Definition copy_wf (s : copy_state) : Prop :=
  Forall (fun t => task_btn t < length (cbtns s)) (tasks s).

#[export] Instance copy_wf_dec s : Decision (copy_wf s).
Proof. unfold copy_wf. apply _. Defined.

(** The event that settles a task: a write succeeds, a timer fires. *)
Definition settle (t : task) : copy_event :=
  match t with ClipWrite _ _ => Resolve 0 | Revert _ _ => Fire 0 end.

(** Settle the pending tasks in order, then fire the timers that the
    successful writes started. *)
Definition drain (ts : list task) : list copy_event :=
  map settle ts ++ repeat (Fire 0) (length (filter is_write ts)).

(** ** The invariant *)

Create HintDb copy.
#[local] Hint Resolve Forall_delete lookup_lt_Some : copy.

Ltac wf_tac :=
  repeat first
    [ progress simplify_eq/= | rewrite length_insert | apply Forall_app_2 | apply Forall_singleton
    | solve [eauto with copy] ].

Lemma copy_exec_wf plants ev s s' :
  copy_wf s -> copy_exec plants ev s = Some s' ->
  copy_wf s' /\ length (cbtns s') = length (cbtns s).
Proof.
  unfold copy_wf, copy_exec. intros Hwf.
  destruct ev as [i|j|j|j]; unfold copy_click, on_resolve, on_reject, on_fire;
    [destruct (cbtns s !! i) as [btn|] eqn:Hb|..]; simpl; intros; repeat case_match; simplify_eq/=;
    repeat match goal with H : cbtns s !! _ ≫= _ = _ |- _ =>
      destruct (cbtns s !! _) eqn:?; simplify_eq/= end;
    rewrite ?length_insert; split; auto; rewrite ?Forall_app, ?Forall_singleton;
    try split; simpl; eauto with copy.
Qed.

(** Settling the first pending task of a well-formed state. *)
Lemma settle_head plants s t ts :
  copy_wf s -> tasks s = t :: ts ->
  exists s' o, copy_exec plants (settle t) s = Some s' /\
    tasks s' = ts ++ (if is_write t then [Revert (task_btn t) o] else []) /\
    alerts s' = alerts s /\ copy_wf s'.
Proof.
  intros Hwf Ht.
  cut (exists s' o, copy_exec plants (settle t) s = Some s' /\
         tasks s' = ts ++ (if is_write t then [Revert (task_btn t) o] else []) /\ alerts s' = alerts s).
  { intros (s' & o & Hx & ? & ?). exists s', o. split_and!; try done.
    exact (proj1 (copy_exec_wf _ _ _ _ Hwf Hx)). }
  pose proof Hwf as Hwf'. unfold copy_wf in Hwf'. rewrite Ht in Hwf'.
  apply Forall_cons in Hwf' as [Hb _]. apply lookup_lt_is_Some in Hb as [btn Hb].
  destruct t as [i x|i x]; simpl in *; unfold on_resolve, on_fire; rewrite Ht; simpl; rewrite Hb;
    simpl; eexists; exists (cb_text btn); (split; [reflexivity|]); simpl; by rewrite ?app_nil_r.
Qed.

(** Settling a prefix of the tasks leaves only timers. *)
Lemma settle_all plants ts : forall rs s,
  tasks s = ts ++ rs -> Forall (fun t => is_write t = false) rs -> copy_wf s ->
  exists s1, copy_run plants (map settle ts) s = Some s1 /\
    Forall (fun t => is_write t = false) (tasks s1) /\
    length (tasks s1) = length rs + length (filter is_write ts) /\
    alerts s1 = alerts s /\ copy_wf s1.
Proof.
  induction ts as [|t ts IH]; intros rs s Hts Hrs Hwf.
  { exists s. simpl in *. rewrite Hts. by rewrite Nat.add_0_r. }
  destruct (settle_head plants s t (ts ++ rs) Hwf Hts) as (s' & o & Hx & Ht' & Ha & Hwf').
  rewrite <- app_assoc in Ht'.
  destruct (IH _ s' Ht') as (s1 & Hrun & Hf & Hl & Ha' & Hwf1); [|done|].
  { apply Forall_app_2; [done|]. destruct (is_write t) eqn:E; repeat constructor; done. }
  exists s1. simpl. rewrite Hx. simpl. rewrite filter_cons.
  rewrite Hl, length_app, Ha', Ha. split; [done|split; [done|split; [|done]]].
  destruct (is_write t); simpl; lia.
Qed.

(** Firing the remaining timers. *)
Lemma fire_all plants n : forall s,
  Forall (fun t => is_write t = false) (tasks s) -> length (tasks s) = n -> copy_wf s ->
  exists s', copy_run plants (repeat (Fire 0) n) s = Some s' /\ tasks s' = [] /\ alerts s' = alerts s.
Proof.
  induction n as [|n IH]; intros s Hf Hl Hwf.
  { exists s. apply length_zero_iff_nil in Hl. done. }
  destruct (tasks s) as [|t ts] eqn:Ht; [done|]. apply Forall_cons in Hf as [Hw Hf].
  destruct (settle_head plants s t ts Hwf Ht) as (s' & o & Hx & Ht' & Ha & Hwf').
  rewrite Hw, app_nil_r in Ht'. destruct t; [done|]. simpl in Hx.
  destruct (IH s') as (s1 & Hrun & Hnil & Ha'); [by rewrite Ht'|rewrite Ht'; simpl in Hl; lia|done|].
  exists s1. simpl. rewrite Hx. simpl. by rewrite Ha', Ha.
Qed.

(** ** Properties *)


(** C11: a page with pending clipboard writes and timers always settles:
    the schedule that settles each task in order and then fires the timers
    the successful writes started never gets stuck, leaves no task pending,
    and raises no alert. *)
Theorem copy_drains plants s :
  copy_wf s ->
  exists s', copy_run plants (drain (tasks s)) s = Some s' /\ tasks s' = [] /\ alerts s' = alerts s.
Proof.
  intros Hwf. unfold drain. rewrite copy_run_app.
  destruct (settle_all plants (tasks s) [] s) as (s1 & Hrun & Hf & Hl & Ha & Hwf1);
    [by rewrite app_nil_r|done|done|].
  destruct (fire_all plants _ s1 Hf Hl Hwf1) as (s' & Hrun' & Hnil & Ha').
  exists s'. rewrite Hrun. simpl in *. rewrite Hrun'. by rewrite Ha', Ha.
Qed.

(** Two clicks on the sample button, then a write settled: two writes
    and one timer pending. *)
Definition busy : copy_state :=
  mk_copy [mk_copy_btn (Some ⟪"romero"⟫) copied ⟪"#4caf50"⟫] ⟪"x"⟫
    [ClipWrite 0 ⟪"x"⟫; Revert 0 ⟪"Copiar receta"⟫; ClipWrite 0 ⟪"x"⟫] [].


Lemma copy_drains_witness :
  exists s', copy_run Sample.plants (drain (tasks busy)) busy = Some s' /\ tasks s' = [] /\ alerts s' = [].
Proof. exact (copy_drains Sample.plants busy ltac:(apply (bool_decide_unpack _); vm_compute; exact I)). Defined.

End CopyTasks.
