(* ===== verification/Navigation.v ===== *)
(** * Navigation builder and back-to-top control ([script.js] lines 169-194)

    The jump links appended to [#nav-list] (one per plant, in extractor
    order), the click listener of every link in the list, which looks the
    [href] up with [document.querySelector] and scrolls to the element it
    finds, and the scroll and click listeners of the back-to-top button.

    [querySelector] is modelled for a selector ["#" ++ name]: when [name]
    is a CSS identifier (CSS Syntax 3, without escapes) it returns the first
    element of the document, in tree order, with that id; when [name] is
    empty or starts with a digit (alone or after one ["-"]) the selector is
    invalid and a [SyntaxError] is thrown; any other [name] (with a space,
    a dot, a colon, a backslash...) makes a compound or escaped selector,
    which is outside the model. *)

From S2P Require Import Prelude JsString Extractor.
Import JsString Extractor.

Module Navigation.

Local Open Scope N_scope.

(** ** CSS identifiers *)

Definition is_digit (c : N) : bool := (48 <=? c) && (c <=? 57).

Definition is_name_start (c : N) : bool :=
  ((97 <=? c) && (c <=? 122)) || ((65 <=? c) && (c <=? 90)) || (c =? 95) || (128 <=? c).

Definition is_name (c : N) : bool := is_name_start c || is_digit c || (c =? 45).

Definition valid_ident (s : jsstr) : bool :=
  match s with
  | [] => false
  | c :: r =>
      if c =? 45 then
        match r with
        | [] => false
        | d :: r' => ((d =? 45) || is_name_start d) && forallb is_name r'
        end
      else is_name_start c && forallb is_name r
  end.

(** Names that make ["#" ++ name] an invalid selector. *)
Definition bad_id_start (s : jsstr) : bool :=
  match s with
  | [] => true
  | c :: r => if c =? 45 then match r with [] => true | d :: _ => is_digit d end else is_digit c
  end.

Fixpoint first_index (ids : list jsstr) (name : jsstr) : option nat :=
  match ids with
  | [] => None
  | i :: r => if bool_decide (i = name) then Some 0%nat else S <$> first_index r name
  end.

(** [document.querySelector(sel)] over the ids of the document's elements
    in tree order. *)
Definition querySelector (doc : list jsstr) (sel : jsstr) : res (option nat) :=
  match sel with
  | c :: name =>
      if c =? 35 then
        if valid_ident name then Ok (first_index doc name)
        else if bad_id_start name then Throw SyntaxError else Throw OutOfModel
      else Throw OutOfModel
  | [] => Throw OutOfModel
  end.

(** ** The links, lines 169-176 *)

(** An anchor of the list: its [href] attribute and its text. *)
Record link := mk_link { href : jsstr; link_text : jsstr }.

Definition nav_item (p : plant) : link := mk_link (⟪"#"⟫ ++ plant_id p) (title p).

(** The list after the [forEach]: the anchors it already had, then one per
    plant. *)
Definition build_nav (nav0 : list link) (plants : list plant) : list link :=
  nav0 ++ (nav_item <$> plants).

(** Lines 179-185: a click on the [k]-th anchor of the list scrolls to the
    element found ([None] when there is no such anchor); [target] being
    [null] makes [scrollIntoView] throw. *)
Definition nav_click (doc : list jsstr) (links : list link) (k : nat) : option (res nat) :=
  l ← links !! k;
  Some (let! t := querySelector doc (href l) in
        match t with Some e => Ok e | None => Throw TypeError end).

(** ** Back to top, lines 189-194 *)

(** The scroll listener: [window.scrollY > 300 ? 'flex' : 'none']. *)
Definition back_display (scrollY : N) : jsstr :=
  if 300 <? scrollY then ⟪"flex"⟫ else ⟪"none"⟫.

(** The button's display after the scroll events at offsets [ys], in
    order, starting from [d]. *)
Definition on_scrolls (d : jsstr) (ys : list N) : jsstr :=
  fold_left (fun _ y => back_display y) ys d.

(** ** Lemmas *)

Lemma digit_not_name c : is_digit c = true -> is_name_start c = false /\ (c =? 45) = false.
Proof.
  unfold is_digit, is_name_start. intros Hc. N_bool_lia.
Qed.

Lemma bad_not_valid s : bad_id_start s = true -> valid_ident s = false.
Proof.
  destruct s as [|c [|d r]]; simpl; [done| |]; destruct (c =? 45); try done.
  - intros Hc. by rewrite (proj1 (digit_not_name c Hc)).
  - intros Hd. destruct (digit_not_name d Hd) as [-> ->]. done.
  - intros Hc. by rewrite (proj1 (digit_not_name c Hc)).
Qed.

Lemma first_index_lookup ids j name : NoDup ids -> ids !! j = Some name -> first_index ids name = Some j.
Proof.
  revert j. induction ids as [|i ids IH]; intros j Hnd Hj; [done|].
  apply NoDup_cons in Hnd as [Hi Hnd]. destruct j as [|j]; simpl in *.
  - injection Hj as ->. by rewrite bool_decide_eq_true_2.
  - rewrite bool_decide_eq_false_2; [by rewrite (IH j)|].
    intros ->. apply Hi. by eapply list_elem_of_lookup_2.
Qed.

(** ** Properties *)



(** C34: a link whose plant id is empty or starts with a digit (alone or
    after a hyphen) builds an invalid selector: its click throws a
    [SyntaxError] instead of scrolling. *)
Theorem nav_click_bad_id doc nav0 secs plants j sec :
  extract_plants secs = Ok plants -> secs !! j = Some sec -> bad_id_start (sec_id sec) = true ->
  nav_click doc (build_nav nav0 plants) (length nav0 + j)%nat = Some (Throw SyntaxError).
Proof.
  intros Hext Hj Hbad.
  destruct (extract_plants_lookup secs plants j sec Hext Hj) as (p & Hp & Ep).
  unfold nav_click, build_nav. rewrite lookup_app_r by lia.
  replace (length nav0 + j - length nav0)%nat with j by lia.
  rewrite list_lookup_fmap, Hp. simpl. rewrite (extract_plant_id _ _ Ep). simpl.
  by rewrite bad_not_valid, Hbad.
Qed.

Lemma nav_click_bad_id_witness :
  nav_click [⟪"1-menta"⟫] (build_nav [] [mk_plant ⟪"1-menta"⟫ ⟪"Menta"⟫ [] [] [] []]) 0
  = Some (Throw SyntaxError).
Proof.
  apply (nav_click_bad_id [⟪"1-menta"⟫] [] [mk_section ⟪"1-menta"⟫ (Some ⟪"Menta"⟫) [] [] [] [] []]
    _ 0 (mk_section ⟪"1-menta"⟫ (Some ⟪"Menta"⟫) [] [] [] [] [])); vm_compute; reflexivity.
Defined.

(** The back-to-top button's display after a run of scroll events
    depends only on the last offset: shown ([flex]) exactly above 300, so
    the smooth scroll to the top, which ends at offset 0, hides it. *)
Theorem back_to_top_last d ys y :
  on_scrolls d (ys ++ [y]) = back_display y /\
  (back_display y = ⟪"flex"⟫ <-> 300 < y) /\ on_scrolls d (ys ++ [0]) = ⟪"none"⟫.
Proof.
  unfold on_scrolls. rewrite !fold_left_app. simpl. split; [done|split; [|done]].
  unfold back_display. destruct (N.ltb_spec 300 y); [done|]. split; [|lia].
  vm_compute. congruence.
Qed.

End Navigation.
