(* ===== verification/Page.v ===== *)
(** * The page script as a whole ([script.js] lines 1-203)

    The [DOMContentLoaded] handler runs the components' set-up code in the
    order of the file; an exception thrown by one of them ends the handler,
    so the listeners of the later components are never attached.  After
    it, the page reacts to events, each dispatched to the listener the
    handler attached for it, if any.  An exception thrown by a listener
    ends that listener only.

    [pg_stage] counts the set-up phases that completed, which is the set of
    listeners attached: 1 plants, 2 favourites, 3 theme, 4 search,
    5 favourites view, 6 view counter, 7 copy buttons, 8 navigation,
    9 back-to-top, 10 the final block. *)

From S2P Require Import Prelude JsString Json Extractor Search Favorites.
From S2P Require Import ViewCounter Theme Storage FavView Recipe Navigation.
Import JsString Json Extractor Search Favorites ViewCounter Theme Storage FavView Recipe Navigation.

Module Page.

(** The page as the HTML serves it. *)
Record dom := mk_dom {
  d_secs : list section;
  d_fav_btns : list fav_btn;
  d_fav_count : jsstr;
  d_theme : theme_state;
  d_fv_label : jsstr;
  d_fv_bg : jsstr;
  d_copy_btns : list copy_btn;
  d_nav0 : list link;
  d_doc : list jsstr;          (* ids of the document's elements, tree order *)
  d_back : jsstr
}.

Inductive scroll_goal := ToTop | ToElement (e : nat).

Record page := mk_page {
  pg_stage : nat;
  pg_secs : list section;
  pg_plants : list plant;
  pg_fav : fav_state;
  pg_fav_listeners : nat;      (* favourite buttons with a click listener *)
  pg_theme : theme_state;
  pg_fv : fv_state;
  pg_vc : vc_state;
  pg_copy : copy_state;
  pg_nav : list link;
  pg_doc : list jsstr;
  pg_back : jsstr;
  pg_scroll : option scroll_goal;
  pg_store : store
}.

(** The number of leading elements a [forEach] processes before its
    callback throws. *)
Fixpoint ok_prefix {A B} (f : A -> res B) (l : list A) : nat :=
  match l with
  | [] => 0
  | x :: r => match f x with Ok _ => S (ok_prefix f r) | Throw _ => 0 end
  end.

(** The page before the handler runs, with storage [st]. *)
Definition page0 (d : dom) (st : store) : page :=
  mk_page 0 (d_secs d) [] (mk_fav_state [] (d_fav_count d) (d_fav_btns d)) 0 (d_theme d)
    (mk_fv false (d_fv_label d) (d_fv_bg d)) (mk_vc [] [] [] [])
    (mk_copy (d_copy_btns d) [] [] []) (d_nav0 d) (d_doc d) (d_back d) None st.

(** Lines 198-202: sections not in a non-empty favourites array get
    [display = '']. *)
Definition final_block (favs : list json) (secs : list section) : list section :=
  if bool_decide (0 < length favs) then
    map (fun sec => if includes_id favs (sec_id sec) then sec else set_display ⟪""⟫ sec) secs
  else secs.

(** Lines 1-203: the [DOMContentLoaded] handler. *)
Definition init_page (d : dom) (st : store) : page * option exn :=
  let p0 := page0 d st in
  match extract_plants (d_secs d) with
  | Throw e => (p0, Some e)
  | Ok plants =>
  let aborted fav n := mk_page 1 (d_secs d) plants fav n (d_theme d) (pg_fv p0) (pg_vc p0)
                         (pg_copy p0) (d_nav0 d) (d_doc d) (d_back d) None st in
  match load_favorites st with
  | Throw e => (aborted (pg_fav p0) 0, Some e)
  | Ok favs =>
  let '(btns, e) := for_each_res (init_btn favs) (d_fav_btns d) in
  let fav := mk_fav_state favs (count_text favs) btns in
  match e with
  | Some e => (aborted fav (ok_prefix (init_btn favs) (d_fav_btns d)), Some e)
  | None =>
  let th := init_theme (d_theme d) st in
  let nbtn := length (d_fav_btns d) in
  match init_views st (d_secs d) with
  | Throw e =>
      (mk_page 5 (d_secs d) plants fav nbtn th (pg_fv p0) (pg_vc p0) (pg_copy p0)
         (d_nav0 d) (d_doc d) (d_back d) None st, Some e)
  | Ok (secs', vc) =>
      (mk_page 10 (final_block favs secs') plants fav nbtn th (pg_fv p0) vc
         (pg_copy p0) (build_nav (d_nav0 d) plants) (d_doc d) (d_back d) None st, None)
  end end end end.

(** ** Events after the handler *)

Inductive event :=
| Input (v : jsstr)            (* the search box now holds [v] *)
| FavClick (i : nat)           (* click on the [i]-th favourite button *)
| ThemeClick
| ShowFavClick
| Observer (o : host_op)       (* the IntersectionObserver host *)
| Copy (e : copy_event)        (* copy buttons, clipboard and timers *)
| NavClick (k : nat)           (* click on the [k]-th anchor of the list *)
| Scroll (y : N)
| BackClick.

Definition set_secs (secs : list section) (pg : page) : page :=
  mk_page (pg_stage pg) secs (pg_plants pg) (pg_fav pg) (pg_fav_listeners pg) (pg_theme pg)
    (pg_fv pg) (pg_vc pg) (pg_copy pg) (pg_nav pg) (pg_doc pg) (pg_back pg) (pg_scroll pg)
    (pg_store pg).

Definition set_fav (fav : fav_state) (st : store) (pg : page) : page :=
  mk_page (pg_stage pg) (pg_secs pg) (pg_plants pg) fav (pg_fav_listeners pg) (pg_theme pg)
    (pg_fv pg) (pg_vc pg) (pg_copy pg) (pg_nav pg) (pg_doc pg) (pg_back pg) (pg_scroll pg) st.

Definition set_theme (th : theme_state) (st : store) (pg : page) : page :=
  mk_page (pg_stage pg) (pg_secs pg) (pg_plants pg) (pg_fav pg) (pg_fav_listeners pg) th
    (pg_fv pg) (pg_vc pg) (pg_copy pg) (pg_nav pg) (pg_doc pg) (pg_back pg) (pg_scroll pg) st.

Definition set_fv (fv : fv_state) (secs : list section) (pg : page) : page :=
  mk_page (pg_stage pg) secs (pg_plants pg) (pg_fav pg) (pg_fav_listeners pg) (pg_theme pg)
    fv (pg_vc pg) (pg_copy pg) (pg_nav pg) (pg_doc pg) (pg_back pg) (pg_scroll pg) (pg_store pg).

Definition set_vc (secs : list section) (vc : vc_state) (st : store) (pg : page) : page :=
  mk_page (pg_stage pg) secs (pg_plants pg) (pg_fav pg) (pg_fav_listeners pg) (pg_theme pg)
    (pg_fv pg) vc (pg_copy pg) (pg_nav pg) (pg_doc pg) (pg_back pg) (pg_scroll pg) st.

Definition set_copy (c : copy_state) (pg : page) : page :=
  mk_page (pg_stage pg) (pg_secs pg) (pg_plants pg) (pg_fav pg) (pg_fav_listeners pg) (pg_theme pg)
    (pg_fv pg) (pg_vc pg) c (pg_nav pg) (pg_doc pg) (pg_back pg) (pg_scroll pg) (pg_store pg).

Definition set_back (b : jsstr) (sc : option scroll_goal) (pg : page) : page :=
  mk_page (pg_stage pg) (pg_secs pg) (pg_plants pg) (pg_fav pg) (pg_fav_listeners pg) (pg_theme pg)
    (pg_fv pg) (pg_vc pg) (pg_copy pg) (pg_nav pg) (pg_doc pg) b sc (pg_store pg).

Section WithStorage.
Context `{SP : StoragePolicy}.

(** One event, dispatched to its listener when the handler attached it. *)
Definition page_step (ev : event) (pg : page) : page * option exn :=
  match ev with
  | Input v =>
      if 4 <=? pg_stage pg then
        let '(secs, e) := performSearch v (pg_plants pg) (pg_secs pg) in (set_secs secs pg, e)
      else (pg, None)
  | FavClick i =>
      if i <? pg_fav_listeners pg then
        match toggleFavorite i (pg_fav pg) (pg_store pg) with
        | Some (fav, st, e) => (set_fav fav st pg, e)
        | None => (pg, None)
        end
      else (pg, None)
  | ThemeClick =>
      if 3 <=? pg_stage pg then
        let '(th, st, e) := theme_click (pg_theme pg) (pg_store pg) in (set_theme th st pg, e)
      else (pg, None)
  | ShowFavClick =>
      if 5 <=? pg_stage pg then
        let '(fv, secs) := showFavorites_click (favorites (pg_fav pg)) (pg_fv pg) (pg_secs pg) in
        (set_fv fv secs pg, None)
      else (pg, None)
  | Observer o =>
      if 6 <=? pg_stage pg then
        match host_exec o (pg_secs pg, pg_vc pg, pg_store pg) with
        | Some (secs, vc, st) => (set_vc secs vc st pg, None)
        | None => (pg, None)
        end
      else (pg, None)
  | Copy ce =>
      if 7 <=? pg_stage pg then
        match copy_exec (pg_plants pg) ce (pg_copy pg) with
        | Some c => (set_copy c pg, None)
        | None => (pg, None)
        end
      else (pg, None)
  | NavClick k =>
      if 8 <=? pg_stage pg then
        match nav_click (pg_doc pg) (pg_nav pg) k with
        | Some (Ok t) => (set_back (pg_back pg) (Some (ToElement t)) pg, None)
        | Some (Throw e) => (pg, Some e)
        | None => (pg, None)
        end
      else (pg, None)
  | Scroll y =>
      if 9 <=? pg_stage pg then (set_back (back_display y) (pg_scroll pg) pg, None) else (pg, None)
  | BackClick =>
      if 9 <=? pg_stage pg then (set_back (pg_back pg) (Some ToTop) pg, None) else (pg, None)
  end.

(** A run of events; an exception ends its listener and nothing else. *)
Fixpoint page_run (evs : list event) (pg : page) : page :=
  match evs with
  | [] => pg
  | ev :: evs' => page_run evs' (page_step ev pg).1
  end.

End WithStorage.

(** The sections still give the plant list, with distinct ids. *)
Definition page_inv (pg : page) : Prop :=
  extract_plants (pg_secs pg) = Ok (pg_plants pg) /\ NoDup (map sec_id (pg_secs pg)).

(** Every favourite button has its [<i>] icon. *)
Definition hearts_present (btns : list fav_btn) : Prop :=
  Forall (fun b => is_Some (fb_heart b)) btns.

(** The consistency of a fully loaded page, for section ids [ids] and the
    view counts [m0] read at load time: the sections still give the plant
    list, the stored favourites and view counts read back as the in-memory
    ones, the theme button names the other mode, and the view counter's
    invariant holds. *)
Definition page_ok (ids : list jsstr) (m0 : counts) (pg : page) : Prop :=
  pg_stage pg = 10 /\ NoDup ids /\
  extract_plants (pg_secs pg) = Ok (pg_plants pg) /\
  hearts_present (fav_btns (pg_fav pg)) /\
  load_favorites (pg_store pg) = Ok (favorites (pg_fav pg)) /\
  label_ok (pg_theme pg) /\
  vc_inv ids m0 (pg_secs pg, pg_vc pg, pg_store pg).

(** A two-plant page: both hearts outline, one copy button, a search box
    before the sections in the document. *)
Module Sample.
Definition dom : dom :=
  mk_dom Search.Sample.secs
    [mk_fav_btn ⟪"manzanilla"⟫ (Some (mk_icon false true));
     mk_fav_btn ⟪"romero"⟫ (Some (mk_icon false true))] ⟪"0"⟫
    (mk_theme false ⟪"Modo Oscuro"⟫) ⟪"Ver Favoritos (0)"⟫ ⟪""⟫
    [mk_copy_btn (Some ⟪"romero"⟫) ⟪"Copiar receta"⟫ ⟪""⟫] []
    [⟪"search-input"⟫; ⟪"manzanilla"⟫; ⟪"romero"⟫] ⟪"none"⟫.
Definition bad_favorites : store := <[Favorites.key := ⟪"[manzanilla]"⟫]> ∅.
Definition bad_views : store := <[ViewCounter.key := ⟪"{vistas}"⟫]> ∅.
Definition romero_fav : store := <[Favorites.key := stringify (JArr [JStr ⟪"romero"⟫])]> ∅.
End Sample.

(** ** Lemmas *)

Section Proofs.
Context `{SP : StoragePolicy}.

Ltac stage_false :=
  repeat match goal with
         | |- context [?a <=? ?b] => destruct (Nat.leb_spec a b); [lia|]
         | |- context [?a <? ?b] => destruct (Nat.ltb_spec a b); [lia|]
         end.

(** Before the favourites phase completes no listener is attached. *)
Lemma page_step_inert ev pg :
  pg_stage pg <= 1 -> pg_fav_listeners pg = 0 -> page_step ev pg = (pg, None).
Proof. intros Hs Hl. destruct ev; cbn [page_step]; stage_false; done. Qed.

Lemma page_run_inert evs pg :
  pg_stage pg <= 1 -> pg_fav_listeners pg = 0 -> page_run evs pg = pg.
Proof.
  intros Hs Hl. induction evs as [|ev evs IH]; simpl; [done|].
  by rewrite page_step_inert.
Qed.

Lemma init_views_throw st secs e : load_views st = Throw e -> init_views st secs = Throw e.
Proof. unfold init_views. by intros ->. Qed.

(** *** Storage keys are independent

    The instances of the [Storage.persisted] contract for the three
    stored items. *)

Lemma load_views_insert_ne k v st :
  k <> ViewCounter.key -> load_views (<[k := v]> st) = load_views st.
Proof. exact (p_load_insert_ne views_item k v st). Qed.

Lemma load_favorites_insert_ne k v st :
  k <> Favorites.key -> load_favorites (<[k := v]> st) = load_favorites st.
Proof. exact (p_load_insert_ne favorites_item k v st). Qed.

Lemma key_fav_views : Favorites.key <> ViewCounter.key.
Proof. by vm_compute. Qed.

Lemma key_theme_views : Theme.key <> ViewCounter.key.
Proof. by vm_compute. Qed.

Lemma key_theme_fav : Theme.key <> Favorites.key.
Proof. by vm_compute. Qed.

Lemma vc_inv_secs ids m0 secs secs' s st :
  vc_inv ids m0 (secs, s, st) -> sec_id <$> secs' = sec_id <$> secs -> vc_inv ids m0 (secs', s, st).
Proof. intros [(Hids & Hc) Hq] Heq. split; [split; [congruence|done]|done]. Qed.

Lemma vc_inv_store ids m0 secs s st k v :
  vc_inv ids m0 (secs, s, st) -> k <> ViewCounter.key -> vc_inv ids m0 (secs, s, <[k := v]> st).
Proof.
  intros [(Hids & Hl & Hnd & Hload & Hc) Hq] Hk.
  repeat split; try done. by rewrite load_views_insert_ne.
Qed.

(** The observer touches only view labels and the [plantViews] item. *)
Lemma host_exec_frame o secs vc st secs' vc' st' :
  host_exec o (secs, vc, st) = Some (secs', vc', st') ->
  extract_plants secs' = extract_plants secs /\ load_favorites st' = load_favorites st.
Proof.
  destruct o as [k r|]; simpl.
  - destruct (bool_decide _ && bool_decide _); [|done]. by intros [= <- <- <-].
  - destruct (bool_decide (queue vc = [])); [done|]. intros [= E].
    pose proof (callback_ind (fun '(secs1, _, st1) => extract_plants secs1 = extract_plants secs /\
                 load_favorites st1 = load_favorites st) (queue vc) secs
                 (mk_vc (views vc) (observed vc) (prev vc) []) st) as H.
    rewrite E in H. apply H; [|done]. clear.
    intros secs1 s1 st1 e [H1 H2]. unfold on_entry. destruct (isIntersecting e); [|done].
    destruct (secs1 !! target e) as [sec|] eqn:Hs; [|done].
    destruct (saveViews _ _) as [st2|] eqn:Hw; simpl; (split; [by rewrite (extract_plants_insert _ _ sec)|]);
      [|done].
    apply setItem_Ok in Hw as ->. rewrite load_favorites_insert_ne; [done|]. intros Heq.
    apply key_fav_views. by symmetry.
Qed.

(** Proves the seven parts of [page_ok]. *)
Ltac page_ok_split :=
  refine (conj _ (conj _ (conj _ (conj _ (conj _ (conj _ _)))))); simpl.

Section Accepted.
Hypothesis HSP : forall st, SP st = true.

Lemma toggle_hearts i s st s' st' e :
  hearts_present (fav_btns s) -> toggleFavorite i s st = Some (s', st', e) ->
  e = None /\ hearts_present (fav_btns s').
Proof.
  intros Hh. unfold toggleFavorite. destruct (fav_btns s !! i) as [btn|] eqn:Hb; [|done]. simpl.
  destruct (fb_heart btn) as [h|] eqn:Hbh.
  - rewrite setItem_accepted by exact HSP.
    intros [= <- <- <-]. split; [done|]. simpl. apply Forall_insert; [done|]. by eexists.
  - exfalso. pose proof (Forall_lookup_1 _ _ _ _ Hh Hb) as [? Hx]. congruence.
Qed.

(** *** Each listener keeps a loaded page consistent *)


Section Loaded.
Context (ids : list jsstr) (m0 : counts).

Lemma ok_input pg v : page_ok ids m0 pg -> page_ok ids m0 (page_step (Input v) pg).1.
Proof.
  intros (Hst & Hnd & Hext & Hh & Hf & Hl & Hvc). cbn [page_step]. rewrite Hst. simpl.
  assert (Hids : sec_id <$> pg_secs pg = ids) by apply Hvc.
  assert (Hnd' : NoDup (map sec_id (pg_secs pg))) by (change (NoDup (sec_id <$> pg_secs pg)); by rewrite Hids).
  rewrite (performSearch_map _ _ Hext Hnd'). page_ok_split; try done; simpl.
  - rewrite <- Hext. apply extract_plants_map. intros sec. unfold search_result.
    by destruct (find_plant _ _).
  - eapply vc_inv_secs; [exact Hvc|]. rewrite <- list_fmap_compose. apply list_fmap_ext.
    intros _ sec _. apply sec_id_search_result.
Qed.

Lemma ok_fav pg i : page_ok ids m0 pg -> page_ok ids m0 (page_step (FavClick i) pg).1.
Proof.
  intros (Hst & Hnd & Hext & Hh & Hf & Hl & Hvc). cbn [page_step].
  destruct (i <? pg_fav_listeners pg); [|by page_ok_split].
  destruct (toggleFavorite i (pg_fav pg) (pg_store pg)) as [[[fav st] e]|] eqn:E;
    [|by page_ok_split].
  destruct (toggle_hearts _ _ _ _ _ _ Hh E) as [-> Hh'].
  destruct (toggleFavorite_ok _ _ _ _ _ E) as (btn & h & _ & _ & Hft & _ & _ & ->).
  page_ok_split; try done; simpl.
  - apply load_favorites_stringify. rewrite Hft. apply toggled_exact. by eapply load_favorites_exact.
  - apply vc_inv_store; [done|]. apply key_fav_views.
Qed.

Lemma ok_theme pg : page_ok ids m0 pg -> page_ok ids m0 (page_step ThemeClick pg).1.
Proof.
  intros (Hst & Hnd & Hext & Hh & Hf & Hl & Hvc). cbn [page_step]. rewrite Hst. simpl.
  rewrite theme_click_accepted by apply HSP.
  page_ok_split; try done; simpl.
  - rewrite load_favorites_insert_ne; [done|]. apply key_theme_fav.
  - apply vc_inv_store; [done|]. apply key_theme_views.
Qed.

Lemma ok_showfav pg : page_ok ids m0 pg -> page_ok ids m0 (page_step ShowFavClick pg).1.
Proof.
  intros (Hst & Hnd & Hext & Hh & Hf & Hl & Hvc). cbn [page_step]. rewrite Hst. simpl.
  page_ok_split; try done; simpl.
  - rewrite <- Hext. by apply extract_plants_map.
  - eapply vc_inv_secs; [exact Hvc|]. rewrite <- list_fmap_compose. by apply list_fmap_ext.
Qed.

Lemma ok_observer pg o : page_ok ids m0 pg -> page_ok ids m0 (page_step (Observer o) pg).1.
Proof.
  intros (Hst & Hnd & Hext & Hh & Hf & Hl & Hvc). cbn [page_step]. rewrite Hst. cbn [Nat.leb].
  destruct (host_exec o (pg_secs pg, pg_vc pg, pg_store pg)) as [[[secs vc] st]|] eqn:E;
    [|by page_ok_split].
  destruct (host_exec_frame _ _ _ _ _ _ _ E) as [Hx Hlf].
  page_ok_split; simpl; try done; [congruence|congruence|].
  apply (host_step_inv HSP ids m0 (pg_secs pg, pg_vc pg, pg_store pg) (secs, vc, st)); [done..|].
  by eapply host_exec_step.
Qed.

Lemma ok_other pg ev :
  match ev with Copy _ | NavClick _ | Scroll _ | BackClick => True | _ => False end ->
  page_ok ids m0 pg -> page_ok ids m0 (page_step ev pg).1.
Proof.
  intros Hev (Hst & Hnd & Hext & Hh & Hf & Hl & Hvc).
  destruct ev; try done; cbn [page_step]; rewrite Hst; simpl; repeat case_match; by page_ok_split.
Qed.

Lemma ok_step pg ev : page_ok ids m0 pg -> page_ok ids m0 (page_step ev pg).1.
Proof.
  destruct ev; [apply ok_input|apply ok_fav|apply ok_theme|apply ok_showfav|apply ok_observer|..];
    by apply ok_other.
Qed.

Lemma ok_run pg evs : page_ok ids m0 pg -> page_ok ids m0 (page_run evs pg).
Proof. revert pg. induction evs as [|ev evs IH]; intros pg H; simpl; [done|]. by apply IH, ok_step. Qed.

End Loaded.
End Accepted.

(** *** The handler sets a page up consistently *)

Lemma final_block_ids favs secs : sec_id <$> final_block favs secs = sec_id <$> secs.
Proof.
  unfold final_block. case_bool_decide; [|done].
  rewrite <- list_fmap_compose. apply list_fmap_ext. intros _ sec _. simpl.
  by destruct (includes_id _ _).
Qed.

Lemma final_block_extract favs secs : extract_plants (final_block favs secs) = extract_plants secs.
Proof.
  unfold final_block. case_bool_decide; [|done]. apply extract_plants_map. intros sec.
  by destruct (includes_id _ _).
Qed.

Lemma init_btns_hearts favs btns btns' :
  hearts_present btns -> Forall2 (fun x y => init_btn favs x = Ok y) btns btns' ->
  hearts_present btns'.
Proof.
  intros Hh H2. induction H2 as [|b b' btns btns' Hb _ IH]; [constructor|].
  apply Forall_cons in Hh as [[h Hbh] Hh]. constructor; [|by apply IH].
  revert Hb. unfold init_btn. destruct (includes_id _ _); [|by intros [= <-]; eexists].
  rewrite Hbh. intros [= <-]. by eexists.
Qed.

Lemma init_ok d st pg m0 :
  init_page d st = (pg, None) -> NoDup (sec_id <$> d_secs d) -> hearts_present (d_fav_btns d) ->
  load_views st = Ok m0 -> page_ok (sec_id <$> d_secs d) m0 pg.
Proof.
  intros Hi Hnd Hh Hv. revert Hi. unfold init_page.
  destruct (extract_plants (d_secs d)) as [plants|] eqn:Hx; [|done].
  destruct (load_favorites st) as [favs|] eqn:Hf; [|done].
  destruct (for_each_res (init_btn favs) (d_fav_btns d)) as [btns [e|]] eqn:Hb; [done|].
  destruct (init_views st (d_secs d)) as [[secs' vc]|] eqn:Hiv; [|done].
  intros [= <-]. pose proof (init_views_inv _ _ _ _ _ Hv Hiv) as Hvc.
  assert (Hs : secs' = map (init_label m0) (d_secs d))
    by (revert Hiv; unfold init_views; rewrite Hv; by intros [= <- _]).
  page_ok_split; try done.
  - rewrite final_block_extract, Hs, <- Hx. by apply extract_plants_map.
  - eapply init_btns_hearts; [exact Hh|]. by apply for_each_res_none.
  - eapply vc_inv_secs; [exact Hvc|]. apply final_block_ids.
Qed.

(** ** Properties *)





(** C21: the search listener ignores the favourites view: after an input
    event every section's display is the search verdict for its plant and
    the favourites-view flag is left as it was, so with the view on, a
    query matching a non-favourite shows it (and clearing the box shows
    every section), while the spec hides non-favourites whatever the
    search says. *)
Theorem search_ignores_fav_view pg v i sec p :
  4 <= pg_stage pg -> page_inv pg -> pg_secs pg !! i = Some sec -> pg_plants pg !! i = Some p ->
  let pg' := fst (page_step (Input v) pg) in
  pg_fv pg' = pg_fv pg /\
  exists sec', pg_secs pg' !! i = Some sec' /\ sec_display sec' = verdict (query_of v) p.
Proof.
  intros Hst [Hext Hnd] Hs Hp. cbn [page_step].
  destruct (Nat.leb_spec 4 (pg_stage pg)); [|lia].
  rewrite (performSearch_map _ _ Hext Hnd). simpl. split; [done|].
  eexists. split; [by apply search_result_lookup|done].
Qed.


(** C2: on a page with distinct section ids whose favourite buttons all
    have their icon, after a successful load and any sequence of events:
    the stored favourites and view counts read back as the in-memory ones,
    the theme button names the other mode, the sections still give the
    plant list, and every section not yet counted has its load-time count. *)
Theorem page_consistent d st pg m0 evs :
  (forall st, SP st = true) -> init_page d st = (pg, None) -> NoDup (sec_id <$> d_secs d) -> hearts_present (d_fav_btns d) ->
  load_views st = Ok m0 ->
  let pg' := page_run evs pg in
  load_favorites (pg_store pg') = Ok (favorites (pg_fav pg')) /\
  load_views (pg_store pg') = Ok (views (pg_vc pg')) /\
  label_ok (pg_theme pg') /\
  extract_plants (pg_secs pg') = Ok (pg_plants pg') /\
  (forall k id, (sec_id <$> d_secs d) !! k = Some id -> observed (pg_vc pg') !! k = Some true ->
     count_of (views (pg_vc pg')) id = count_of m0 id).
Proof.
  intros HSP Hi Hnd Hh Hv pg'.
  destruct (ok_run HSP _ _ pg evs (init_ok d st pg m0 Hi Hnd Hh Hv))
    as (_ & _ & Hx & _ & Hf & Hl & [(_ & _ & _ & Hload & Hc) _]).
  done.
Qed.


(** C36: after a successful load, section [i] shows the label of its
    stored count, and its display is the one the HTML served unless the
    favourites array is non-empty and the section is not a favourite, in
    which case it is set to ['']: the block at lines 198-202 never hides a
    section, and on a page served with every section shown it changes
    nothing. *)
Theorem init_sections d st pg favs m i sec :
  init_page d st = (pg, None) -> load_favorites st = Ok favs -> load_views st = Ok m ->
  d_secs d !! i = Some sec ->
  pg_secs pg !! i =
  Some (set_display
          (if bool_decide (0 < length favs) && negb (includes_id favs (sec_id sec))
           then ⟪""⟫ else sec_display sec)
          (set_view_count (views_label (count_of m (sec_id sec))) sec)).
Proof.
  intros Hi Hf Hv Hs. revert Hi. unfold init_page. rewrite Hf.
  destruct (extract_plants (d_secs d)); [|done].
  destruct (for_each_res (init_btn favs) (d_fav_btns d)) as [btns [e|]]; [done|].
  unfold init_views. rewrite Hv. simpl. intros [= <-]. simpl.
  unfold final_block. rewrite <- list_fmap_compose.
  case_bool_decide; simpl; rewrite ?list_lookup_fmap, ?list_lookup_fmap, Hs; simpl;
    [by destruct (includes_id _ _)|done].
Qed.


End Proofs.

(** ** Witnesses, on an agent with room for anything *)

Section Witnesses.
#[local] Existing Instance unlimited.



Lemma search_ignores_fav_view_witness :
  let pg := page_run [ShowFavClick] (init_page Sample.dom Sample.romero_fav).1 in
  showingFavorites (pg_fv pg) = true /\ includes_id (favorites (pg_fav pg)) ⟪"manzanilla"⟫ = false /\
  exists sec', pg_secs (fst (page_step (Input ⟪""⟫) pg)) !! 0 = Some sec' /\ sec_display sec' = ⟪""⟫.
Proof.
  intros pg. split; [vm_compute; reflexivity|]. split; [vm_compute; reflexivity|].
  assert (Hs : pg_secs pg !! 0 = Some (set_display ⟪"none"⟫
            (set_view_count ⟪"0 vista"⟫ Search.Sample.manzanilla))) by (vm_compute; reflexivity).
  assert (Hp : pg_plants pg !! 0 = Search.Sample.plants !! 0) by (vm_compute; reflexivity).
  destruct (Search.Sample.plants !! 0) as [p|] eqn:Ep; [|vm_compute in Ep; discriminate].
  destruct (search_ignores_fav_view pg ⟪""⟫ 0 _ p ltac:(vm_compute; lia)
    ltac:(split; [vm_compute; reflexivity|apply (bool_decide_unpack _); vm_compute; exact I])
    Hs Hp) as [_ (sec' & H1 & H2)].
  exists sec'. split; [done|]. rewrite H2. vm_compute in Ep. injection Ep as <-. reflexivity.
Defined.

Lemma page_consistent_witness :
  let pg' := page_run [FavClick 0; ThemeClick; Observer (Geometry 0 700); Observer Deliver;
                       Input ⟪"romero"⟫; ShowFavClick]
               (init_page Sample.dom Sample.romero_fav).1 in
  load_favorites (pg_store pg') = Ok (favorites (pg_fav pg')) /\
  load_views (pg_store pg') = Ok (views (pg_vc pg')).
Proof.
  pose proof (page_consistent Sample.dom Sample.romero_fav (init_page Sample.dom Sample.romero_fav).1
    [] [FavClick 0; ThemeClick; Observer (Geometry 0 700); Observer Deliver;
        Input ⟪"romero"⟫; ShowFavClick]
    (fun _ => eq_refl) ltac:(vm_compute; reflexivity) ltac:(apply (bool_decide_unpack _); vm_compute; exact I)
    ltac:(repeat constructor; eexists; reflexivity) ltac:(vm_compute; reflexivity)) as H.
  exact (conj (proj1 H) (proj1 (proj2 H))).
Defined.

Lemma init_sections_witness :
  pg_secs (init_page Sample.dom Sample.romero_fav).1 !! 0 =
  Some (set_display ⟪""⟫ (set_view_count ⟪"0 vista"⟫ Search.Sample.manzanilla)).
Proof.
  apply (init_sections Sample.dom Sample.romero_fav _ [JStr ⟪"romero"⟫] [] 0 Search.Sample.manzanilla);
    vm_compute; reflexivity.
Defined.

End Witnesses.

End Page.
